(** * Marketing dashboard: the table pipeline of [app.py]

    The script loads a CSV into a data frame, appends four derived columns,
    and evaluates filters and aggregates over it in five tabs.  This file
    embeds the table library's operations the script calls (module [Pd]),
    the Python scalars it converts and formats (module [Py]) and the script
    itself (module [App]), and proves properties of the pipeline. *)

From Stdlib Require Import ZArith QArith Qround List String Ascii Bool Lia.
From Stdlib Require Import DecimalString Sorted Permutation Lqa.
Import ListNotations.

Open Scope Z_scope.
Open Scope string_scope.

(* ================================================================= *)
(** ** Python values and exceptions *)

Module Py.

(** Exceptions the script can end with.  [ReaderError] stands for whatever
    the CSV reader raises on a source it cannot read, [StreamlitAPIException]
    is raised by a widget that cannot be built, and [ReError] is [re.error],
    raised for a search text that is not a regular expression.
    [NotModelled] is not a Python exception: it marks a call whose behaviour
    in the table library is left out of this embedding (text arithmetic,
    timestamps used as numbers, a stored timestamp column with a missing
    cell). *)
Inductive Exn : Type :=
| KeyError (key : string)
| ValueError
| TypeError
| NameError (name : string)
| ReaderError
| StreamlitAPIException
| ReError
| NotModelled.

Inductive result (A : Type) : Type :=
| Ok (a : A)
| Raise (e : Exn).
Arguments Ok {A} a.
Arguments Raise {A} e.

Definition bind {A B} (r : result A) (k : A -> result B) : result B :=
  match r with
  | Ok a => k a
  | Raise e => Raise e
  end.

Definition is_ok {A} (r : result A) : bool :=
  match r with Ok _ => true | Raise _ => false end.

(** A 64-bit float is either NaN or a finite value; finite values are kept
    as exact rationals (rounding of the binary format is not represented). *)
Inductive float : Type :=
| NaN
| Fin (q : Q).

Definition float_of_int (z : Z) : float := Fin (inject_Z z).

(** [x * k] for a float [x] and an int [k]. *)
Definition fmul_int (x : float) (k : Z) : float :=
  match x with
  | NaN => NaN
  | Fin q => Fin (Qred (q * inject_Z k))
  end.

(** Nearest integer, ties to even. *)
Definition round_half_even (q : Q) : Z :=
  let f := Qfloor q in
  match Qcompare (q - inject_Z f) (1 # 2) with
  | Lt => f
  | Gt => f + 1
  | Eq => if Z.even f then f else f + 1
  end.

(** [round(x, 2)]: NaN stays NaN. *)
Definition round2 (x : float) : float :=
  match x with
  | NaN => NaN
  | Fin q => Fin (Qred (inject_Z (round_half_even (q * 100)) / 100))
  end.

(** Scalars that reductions of a column return. *)
Inductive Scalar : Type :=
| ScInt (z : Z)
| ScFloat (f : float)
| ScStr (s : string)
| ScTime (ns : Z).

(** [int(x)]: truncation toward zero; [int(nan)] raises [ValueError];
    a timestamp is not a number. *)
Definition int (x : Scalar) : result Z :=
  match x with
  | ScInt z => Ok z
  | ScFloat NaN => Raise ValueError
  | ScFloat (Fin q) => Ok (Z.quot (Qnum q) (Zpos (Qden q)))
  | ScStr _ => Raise NotModelled
  | ScTime _ => Raise TypeError
  end.

(** [str(z)] for an int. *)
Definition str_of_int (z : Z) : string :=
  NilEmpty.string_of_int (Z.to_int z).

End Py.

Export Py.

Declare Scope result_scope.
Delimit Scope result_scope with result.
Notation "x <- r ;; k" := (Py.bind r (fun x => k))
  (at level 100, r at next level, right associativity) : result_scope.

(* ================================================================= *)
(** ** The table library *)

Module Pd.

Open Scope result_scope.

(** A column with its dtype: [int64], [float64] (NaN is the missing value),
    [object] holding text, and [datetime64[ns]] as nanoseconds since the
    epoch.  Missing text cells and missing timestamps in a stored column
    are not represented; the timestamps [pd.to_datetime] returns can be
    missing. *)
Inductive Series : Type :=
| SInt (xs : list Z)
| SFloat (xs : list float)
| SObj (xs : list string)
| SDate (xs : list Z).

Definition size (s : Series) : nat :=
  match s with
  | SInt xs => List.length xs
  | SFloat xs => List.length xs
  | SObj xs => List.length xs
  | SDate xs => List.length xs
  end.

(** A frame: the length of its row index and its named columns, in column
    order.  Row labels are not represented. *)
Record DataFrame : Type := mkDF {
  nrows : nat;
  columns : list (string * Series)
}.

(** [len(df)] and [df.shape[0]]. *)
Definition len (df : DataFrame) : Z := Z.of_nat (nrows df).

(** Every column has one cell per row. *)
Definition wf (df : DataFrame) : Prop :=
  Forall (fun c => size (snd c) = nrows df) (columns df).

Fixpoint lookup (c : string) (cols : list (string * Series)) : option Series :=
  match cols with
  | [] => None
  | (k, s) :: rest => if String.eqb k c then Some s else lookup c rest
  end.

(** [df[c]] for one column name. *)
Definition getitem (df : DataFrame) (c : string) : result Series :=
  match lookup c (columns df) with
  | Some s => Ok s
  | None => Raise (KeyError c)
  end.

Fixpoint lookup_all (cs : list string) (cols : list (string * Series))
  : result (list (string * Series)) :=
  match cs with
  | [] => Ok []
  | c :: rest =>
      match lookup c cols with
      | Some s => r <- lookup_all rest cols ;; Ok ((c, s) :: r)
      | None => Raise (KeyError c)
      end
  end.

(** [df[cs]] for a list of column names: the sub-frame of those columns, in
    the order of the list. *)
Definition getitems (df : DataFrame) (cs : list string) : result DataFrame :=
  r <- lookup_all cs (columns df) ;; Ok (mkDF (nrows df) r).

Fixpoint assign (c : string) (s : Series) (cols : list (string * Series))
  : list (string * Series) :=
  match cols with
  | [] => [(c, s)]
  | (k, v) :: rest =>
      if String.eqb k c then (k, s) :: rest else (k, v) :: assign c s rest
  end.

(** [df[c] = s]: replaces the column of that name, or appends a new one. *)
Definition setitem (df : DataFrame) (c : string) (s : Series) : DataFrame :=
  mkDF (nrows df) (assign c s (columns df)).

(** A CSV source, represented by what the library's reader does with it:
    the frame it parses, or the exception it raises. *)
Record Source : Type := mkSource {
  parsed : result DataFrame
}.

(** [pd.read_csv(file)]. *)
Definition read_csv (file : Source) : result DataFrame := parsed file.

(** *** Comparisons and boolean indexing *)

Definition Mask := list bool.

Definition Qge_int (q : Q) (k : Z) : bool := Qle_bool (inject_Z k) q.
Definition Qle_int (q : Q) (k : Z) : bool := Qle_bool q (inject_Z k).
Definition Qgt_int (q : Q) (k : Z) : bool := negb (Qle_bool q (inject_Z k)).

Definition fcmp (p : Q -> Z -> bool) (x : float) (k : Z) : bool :=
  match x with
  | NaN => false
  | Fin q => p q k
  end.

(** [s >= k], [s <= k], [s > k] against an int, cell by cell: NaN compares
    false, a text cell does not compare with an int, and neither does a
    timestamp column. *)
Definition compare_int (pz : Z -> Z -> bool) (pq : Q -> Z -> bool)
  (s : Series) (k : Z) : result Mask :=
  match s with
  | SInt xs => Ok (map (fun x => pz x k) xs)
  | SFloat xs => Ok (map (fun x => fcmp pq x k) xs)
  | SObj [] => Ok []
  | SObj (_ :: _) => Raise TypeError
  | SDate _ => Raise TypeError
  end.

Definition ge := compare_int Z.geb Qge_int.
Definition le := compare_int Z.leb Qle_int.
Definition gt := compare_int Z.gtb Qgt_int.

(** [m1 & m2]. *)
Fixpoint mask_and (m1 m2 : Mask) : Mask :=
  match m1, m2 with
  | b1 :: r1, b2 :: r2 => (b1 && b2) :: mask_and r1 r2
  | _, _ => []
  end.

Fixpoint select {A} (m : Mask) (xs : list A) : list A :=
  match m, xs with
  | b :: m', x :: xs' => if b then x :: select m' xs' else select m' xs'
  | _, _ => []
  end.

Definition select_series (m : Mask) (s : Series) : Series :=
  match s with
  | SInt xs => SInt (select m xs)
  | SFloat xs => SFloat (select m xs)
  | SObj xs => SObj (select m xs)
  | SDate xs => SDate (select m xs)
  end.

Definition count_true (m : Mask) : nat :=
  List.length (filter (fun b => b) m).

(** [df[m]]: a new frame with the rows where the mask holds. *)
Definition getmask (df : DataFrame) (m : Mask) : DataFrame :=
  mkDF (count_true m)
       (map (fun c => (fst c, select_series m (snd c))) (columns df)).

(** [df.head()]: the first five rows. *)
Definition head_series (s : Series) : Series :=
  match s with
  | SInt xs => SInt (firstn 5 xs)
  | SFloat xs => SFloat (firstn 5 xs)
  | SObj xs => SObj (firstn 5 xs)
  | SDate xs => SDate (firstn 5 xs)
  end.

Definition head (df : DataFrame) : DataFrame :=
  mkDF (Nat.min 5 (nrows df))
       (map (fun c => (fst c, head_series (snd c))) (columns df)).

(** *** Reductions of one column *)

Definition zsum (xs : list Z) : Z := fold_right Z.add 0 xs.

(** A signed 64-bit cell holds an integer modulo 2^64. *)
Definition wrap64 (z : Z) : Z :=
  (z + 9223372036854775808) mod 18446744073709551616 - 9223372036854775808.

(** The sum of int64 cells, as an int64. *)
Definition isum (xs : list Z) : Z := wrap64 (zsum xs).

(** The cells that are not NaN ([skipna]). *)
Fixpoint dropna (xs : list float) : list Q :=
  match xs with
  | [] => []
  | NaN :: rest => dropna rest
  | Fin q :: rest => q :: dropna rest
  end.

Definition qsum (qs : list Q) : Q := Qred (fold_right Qplus 0%Q qs).

Definition qmean (qs : list Q) : float :=
  match qs with
  | [] => NaN
  | _ :: _ => Fin (Qred (qsum qs / inject_Z (Z.of_nat (List.length qs))))
  end.

Definition Qmin (a b : Q) : Q := if Qle_bool a b then a else b.
Definition Qmax (a b : Q) : Q := if Qle_bool a b then b else a.

(** [s.sum()]: NaN cells are skipped; the sum of no cell is zero. *)
Definition sum (s : Series) : result Scalar :=
  match s with
  | SInt xs => Ok (ScInt (isum xs))
  | SFloat xs => Ok (ScFloat (Fin (qsum (dropna xs))))
  | SObj _ => Raise NotModelled
  | SDate _ => Raise TypeError
  end.

(** [s.mean()]: the mean of the cells that are not NaN, NaN when there is
    none. *)
Definition mean (s : Series) : result float :=
  match s with
  | SInt xs => Ok (qmean (map inject_Z xs))
  | SFloat xs => Ok (qmean (dropna xs))
  | SObj _ => Raise NotModelled
  | SDate _ => Raise NotModelled
  end.

(** [s.min()] and [s.max()]: NaN for a column with no cell to compare. *)
Definition extremum (fz : Z -> Z -> Z) (fq : Q -> Q -> Q) (s : Series)
  : result Scalar :=
  match s with
  | SInt [] => Ok (ScFloat NaN)
  | SInt (x :: xs) => Ok (ScInt (fold_right fz x xs))
  | SFloat xs =>
      match dropna xs with
      | [] => Ok (ScFloat NaN)
      | q :: qs => Ok (ScFloat (Fin (fold_right fq q qs)))
      end
  | SObj _ => Raise NotModelled
  | SDate [] => Raise NotModelled
  | SDate (x :: xs) => Ok (ScTime (fold_right fz x xs))
  end.

Definition min := extremum Z.min Qmin.
Definition max := extremum Z.max Qmax.

(** [m.mean()] for a boolean column: the fraction of [True], NaN when the
    column is empty. *)
Definition mask_mean (m : Mask) : float :=
  match m with
  | [] => NaN
  | _ :: _ =>
      Fin (Qred (inject_Z (Z.of_nat (count_true m))
                 / inject_Z (Z.of_nat (List.length m))))
  end.

(** [m.sum()] for a boolean column. *)
Definition mask_sum (m : Mask) : Z := Z.of_nat (count_true m).

(** *** Reductions of a frame *)

Fixpoint zip_with {A B C} (f : A -> B -> C) (xs : list A) (ys : list B)
  : list C :=
  match xs, ys with
  | x :: xs', y :: ys' => f x y :: zip_with f xs' ys'
  | _, _ => []
  end.

(** The int columns of a frame, when every column is one. *)
Fixpoint int_columns (cols : list (string * Series)) : option (list (list Z)) :=
  match cols with
  | [] => Some []
  | (_, SInt xs) :: rest => option_map (cons xs) (int_columns rest)
  | _ :: rest => None
  end.

Definition as_float (s : Series) : result (list float) :=
  match s with
  | SInt xs => Ok (map float_of_int xs)
  | SFloat xs => Ok xs
  | SObj _ => Raise NotModelled
  | SDate _ => Raise TypeError
  end.

(** The columns of a numeric frame as floats. *)
Fixpoint float_columns (cols : list (string * Series))
  : result (list (list float)) :=
  match cols with
  | [] => Ok []
  | (_, s) :: rest =>
      xs <- as_float s ;; r <- float_columns rest ;; Ok (xs :: r)
  end.

Fixpoint row_sums (n : nat) (cols : list (list Z)) : list Z :=
  match cols with
  | [] => repeat 0 n
  | c :: rest => zip_with Z.add c (row_sums n rest)
  end.

Definition fadd_skipna (x : float) (acc : Q) : Q :=
  match x with
  | NaN => acc
  | Fin q => Qred (q + acc)
  end.

Definition irow_sums (n : nat) (cols : list (list Z)) : list Z :=
  map wrap64 (row_sums n cols).

Fixpoint frow_sums (n : nat) (cols : list (list float)) : list Q :=
  match cols with
  | [] => repeat 0%Q n
  | c :: rest => zip_with fadd_skipna c (frow_sums n rest)
  end.

(** [df.sum(axis=1)]: one sum per row.  Int columns give an int column of
    64-bit sums; as soon as one column is float the sums are float, NaN
    cells counting as zero. *)
Definition sum_axis1 (df : DataFrame) : result Series :=
  match columns df, int_columns (columns df) with
  | _ :: _, Some cols => Ok (SInt (irow_sums (nrows df) cols))
  | _, _ =>
      cols <- float_columns (columns df) ;;
      Ok (SFloat (map Fin (frow_sums (nrows df) cols)))
  end.

(** The result of a column-wise reduction: one value per column name, all
    ints or all floats. *)
Inductive Labelled : Type :=
| LInt (l : list (string * Z))
| LFloat (l : list (string * float)).

Fixpoint label_with {A B} (f : A -> B) (names : list string) (cols : list A)
  : list (string * B) :=
  match names, cols with
  | k :: names', c :: cols' => (k, f c) :: label_with f names' cols'
  | _, _ => []
  end.

(** [df.sum()]: one sum per column. *)
Definition sum_axis0 (df : DataFrame) : result Labelled :=
  let names := map fst (columns df) in
  match columns df, int_columns (columns df) with
  | _ :: _, Some cols => Ok (LInt (label_with isum names cols))
  | _, _ =>
      cols <- float_columns (columns df) ;;
      Ok (LFloat (label_with (fun c => Fin (qsum (dropna c))) names cols))
  end.

(** [df.mean()]: one mean per column, always float. *)
Definition mean_axis0 (df : DataFrame) : result Labelled :=
  let names := map fst (columns df) in
  cols <- float_columns (columns df) ;;
  Ok (LFloat (label_with (fun c => qmean (dropna c)) names cols)).

(** [.sum()] of a labelled result. *)
Definition lsum (l : Labelled) : Scalar :=
  match l with
  | LInt kv => ScInt (isum (map snd kv))
  | LFloat kv => ScFloat (Fin (qsum (dropna (map snd kv))))
  end.

(** Descending order on floats with NaN last. *)
Definition fgeb (x y : float) : bool :=
  match x, y with
  | _, NaN => true
  | NaN, Fin _ => false
  | Fin a, Fin b => Qle_bool b a
  end.

Fixpoint insert_desc {A} (geb : A -> A -> bool) (x : string * A)
  (l : list (string * A)) : list (string * A) :=
  match l with
  | [] => [x]
  | y :: rest =>
      if geb (snd x) (snd y) then x :: l else y :: insert_desc geb x rest
  end.

(** Insertion sort, largest value first; equal values keep their order. *)
Definition sort_desc {A} (geb : A -> A -> bool) (l : list (string * A))
  : list (string * A) :=
  fold_right (insert_desc geb) [] l.

(** [.sort_values(ascending=False)]: entries with equal values stay in
    the order they had, as the library's sort of a short column leaves
    them. *)
Definition sort_values_desc (l : Labelled) : Labelled :=
  match l with
  | LInt kv => LInt (sort_desc Z.geb kv)
  | LFloat kv => LFloat (sort_desc fgeb kv)
  end.

Fixpoint first_max (best : string * Q) (l : list (string * float))
  : string :=
  match l with
  | [] => fst best
  | (_, NaN) :: rest => first_max best rest
  | (k, Fin q) :: rest =>
      if Qle_bool q (snd best) then first_max best rest
      else first_max (k, q) rest
  end.

Fixpoint skip_nan (l : list (string * float)) : list (string * float) :=
  match l with
  | (_, NaN) :: rest => skip_nan rest
  | _ => l
  end.

(** [.idxmax()]: the label of the first largest value, NaN skipped. *)
Definition idxmax (l : Labelled) : result string :=
  match l with
  | LInt [] => Raise ValueError
  | LInt ((k, z) :: rest) =>
      Ok (first_max (k, inject_Z z)
                    (map (fun kv => (fst kv, float_of_int (snd kv))) rest))
  | LFloat kv =>
      match skip_nan kv with
      | (k, Fin q) :: rest => Ok (first_max (k, q) rest)
      | _ => match kv with [] => Raise ValueError | _ => Raise NotModelled end
      end
  end.

(** *** Mode *)

Section SortUniq.
Context {A : Type} (cmp : A -> A -> comparison).

Definition same (x y : A) : bool :=
  match cmp x y with Eq => true | _ => false end.

(** Insertion into an ascending list without repetition. *)
Fixpoint insert_uniq (x : A) (l : list A) : list A :=
  match l with
  | [] => [x]
  | y :: rest =>
      match cmp x y with
      | Lt => x :: l
      | Eq => l
      | Gt => y :: insert_uniq x rest
      end
  end.

Definition sort_uniq (l : list A) : list A := fold_right insert_uniq [] l.

Definition occurrences (x : A) (l : list A) : nat :=
  List.length (filter (same x) l).

Definition max_occurrences (l : list A) : nat :=
  fold_right Nat.max 0%nat (map (fun x => occurrences x l) l).

(** The values that occur most often, in ascending order. *)
Definition modes (l : list A) : list A :=
  sort_uniq
    (filter (fun x => Nat.eqb (occurrences x l) (max_occurrences l)) l).
End SortUniq.

(** [s.mode()]: the most frequent cells (NaN dropped), sorted ascending. *)
Definition mode (s : Series) : Series :=
  match s with
  | SInt xs => SInt (modes Z.compare xs)
  | SFloat xs => SFloat (map Fin (modes Qcompare (dropna xs)))
  | SObj xs => SObj (modes String.compare xs)
  | SDate xs => SDate (modes Z.compare xs)
  end.

(** [s[0]] on a freshly indexed column: its first cell; [KeyError] when the
    column is empty. *)
Definition first (s : Series) : result Scalar :=
  match s with
  | SInt (x :: _) => Ok (ScInt x)
  | SFloat (x :: _) => Ok (ScFloat x)
  | SObj (x :: _) => Ok (ScStr x)
  | SDate (x :: _) => Ok (ScTime x)
  | _ => Raise (KeyError "0")
  end.

(** *** Group-by on two int keys *)

Definition key_compare (a b : Z * Z) : comparison :=
  match Z.compare (fst a) (fst b) with
  | Eq => Z.compare (snd a) (snd b)
  | c => c
  end.

(** The rows of one group. *)
Definition group_mask (keys : list (Z * Z)) (g : Z * Z) : Mask :=
  map (same key_compare g) keys.

(** [df.groupby([k1, k2])[v].sum().reset_index()]: one row per pair of key
    values that occurs, pairs in ascending order, with the sum of [v] over
    the rows of the pair.  Key columns other than int are not modelled. *)
Definition groupby_sum (df : DataFrame) (k1 k2 v : string)
  : result DataFrame :=
  s1 <- getitem df k1 ;;
  s2 <- getitem df k2 ;;
  sv <- getitem df v ;;
  match s1, s2 with
  | SInt a, SInt b =>
      let keys := combine a b in
      let groups := sort_uniq key_compare keys in
      let frame vals :=
        mkDF (List.length groups)
             [(k1, SInt (map fst groups)); (k2, SInt (map snd groups));
              (v, vals)] in
      match sv with
      | SInt vs =>
          Ok (frame (SInt (map (fun g => isum (select (group_mask keys g) vs))
                               groups)))
      | SFloat vs =>
          Ok (frame (SFloat (map (fun g =>
                 Fin (qsum (dropna (select (group_mask keys g) vs))))
                               groups)))
      | SObj _ => Raise NotModelled
      | SDate _ => Raise TypeError
      end
  | _, _ => Raise NotModelled
  end.

(** *** Timestamps *)

Definition ns_per_day : Z := 86400000000000.

(** Year and month of the proleptic Gregorian calendar for a day number
    counted from 1970-01-01. *)
Definition civil_from_days (days : Z) : Z * Z :=
  let z := days + 719468 in
  let era := z / 146097 in
  let doe := z mod 146097 in
  let yoe := (doe - doe / 1460 + doe / 36524 - doe / 146096) / 365 in
  let doy := doe - (365 * yoe + yoe / 4 - yoe / 100) in
  let mp := (5 * doy + 2) / 153 in
  let m := if Z.ltb mp 10 then mp + 3 else mp - 9 in
  let y := yoe + era * 400 in
  (if Z.leb m 2 then y + 1 else y, m).

Definition year_of (ns : Z) : Z := fst (civil_from_days (ns / ns_per_day)).
Definition month_of (ns : Z) : Z := snd (civil_from_days (ns / ns_per_day)).

(** The timestamps [pd.to_datetime] returns: [None] is [NaT], a missing
    date. *)
Definition Timestamps := list (option Z).

Fixpoint present (ts : Timestamps) : list Z :=
  match ts with
  | [] => []
  | Some t :: rest => t :: present rest
  | None :: rest => present rest
  end.

Definition all_present (ts : Timestamps) : bool :=
  forallb (fun t => match t with Some _ => true | None => false end) ts.

(** An int field of each timestamp: an int column, or, when a timestamp is
    missing, a float column with NaN in its place. *)
Definition dt_field (f : Z -> Z) (ts : Timestamps) : Series :=
  if all_present ts then SInt (map f (present ts))
  else SFloat (map (fun t => match t with
                             | Some x => float_of_int (f x)
                             | None => NaN
                             end) ts).

(** [.dt.year] and [.dt.month] of a timestamp column. *)
Definition dt_year (ts : Timestamps) : Series := dt_field year_of ts.
Definition dt_month (ts : Timestamps) : Series := dt_field month_of ts.

(** [(now - ts).dt.days]: whole days, rounded down. *)
Definition days_since (now : Z) (ts : Timestamps) : Series :=
  dt_field (fun t => (now - t) / ns_per_day) ts.

(** The timestamps as a column of a frame. *)
Definition datetime_series (ts : Timestamps) : result Series :=
  if all_present ts then Ok (SDate (present ts)) else Raise NotModelled.

(** [s.astype(str)]. *)
Definition astype_str (s : Series) : result (list string) :=
  match s with
  | SInt xs => Ok (map str_of_int xs)
  | SObj xs => Ok xs
  | SFloat _ => Raise NotModelled
  | SDate _ => Raise NotModelled
  end.

Section Datetime.
(** The library's date parser on a column of text: one timestamp per
    cell, missing for a cell it reads as no date (a blank), or nothing when
    it rejects the column. *)
Variable parse_dates : list string -> option Timestamps.

(** [pd.to_datetime(s)]: text is parsed, ints are nanoseconds since the
    epoch, timestamps are kept. *)
Definition to_datetime (s : Series) : result Timestamps :=
  match s with
  | SObj xs =>
      match parse_dates xs with
      | Some ts => Ok ts
      | None => Raise ValueError
      end
  | SInt xs => Ok (map Some xs)
  | SDate xs => Ok (map Some xs)
  | SFloat _ => Raise NotModelled
  end.
End Datetime.

End Pd.

(* ================================================================= *)
(** ** The script *)

Module App.

Import Pd.

Definition product_cols : list string :=
  ["MntWines"; "MntFruits"; "MntMeatProducts"; "MntFishProducts";
   "MntSweetProducts"; "MntGoldProds"].

Definition purchase_channels : list string :=
  ["NumWebPurchases"; "NumCatalogPurchases"; "NumStorePurchases"].

Definition cmp_cols : list string :=
  ["AcceptedCmp1"; "AcceptedCmp2"; "AcceptedCmp3"; "AcceptedCmp4";
   "AcceptedCmp5"].

(** *** Data loading *)

Definition load_data (file : Source) : result DataFrame := read_csv file.

(** *** Values handed to the page *)

(** A value placed in a KPI card or an answer, with the format it is
    printed in. *)
Inductive Shown : Type :=
| VInt (z : Z)          (* an int printed as it is *)
| VDollars (z : Z)      (* an int printed with thousands separators *)
| VFloat (x : float)    (* a float printed by [str] *)
| VFixed2 (x : float)   (* a float printed with format [.2f] *)
| VScalar (v : Scalar)  (* a cell printed by [str] *)
| VText (s : string).

Inductive Answer : Type :=
| Success (values : list Shown)   (* [st.success] of a formatted text *)
| Written (table : Labelled).     (* [st.write] of a labelled result *)

Inductive Question : Type :=
| MostCommonAge
| TotalCustomers
| AverageIncome
| TotalAndAverageSpend
| TopProductCategory
| SpendPerProduct
| PreferredChannel
| PurchasesPerChannel
| AverageWebVisits
| ResponseRate
| AcceptedMoreThanOne
| ResponsesPerCampaign
| OldVsNew.


(** *** The script's frames *)

(** The two frames that outlive a tab: [df], bound at load, and
    [filtered_df], bound by the Customer tab.  [df[mask]] builds a new frame,
    so the two never share columns. *)
Record Env : Type := mkEnv {
  df : DataFrame;
  filtered_df : option DataFrame
}.

(** A step of the script: it may raise, and it leaves the frames as they
    are at that point. *)
Definition M (A : Type) : Type := Env -> result A * Env.

Definition ret {A} (a : A) : M A := fun e => (Ok a, e).

Definition bindM {A B} (m : M A) (k : A -> M B) : M B :=
  fun e =>
    match m e with
    | (Ok a, e') => k a e'
    | (Raise x, e') => (Raise x, e')
    end.

Definition lift {A} (r : result A) : M A := fun e => (r, e).

Definition get_df : M DataFrame := fun e => (Ok (df e), e).

Definition set_df (d : DataFrame) : M unit :=
  fun e => (Ok tt, mkEnv d (filtered_df e)).

Definition get_filtered_df : M DataFrame :=
  fun e =>
    match filtered_df e with
    | Some d => (Ok d, e)
    | None => (Raise (NameError "filtered_df"), e)
    end.

Definition set_filtered_df (d : DataFrame) : M unit :=
  fun e => (Ok tt, mkEnv (df e) (Some d)).

Declare Scope script_scope.
Delimit Scope script_scope with script.
Notation "x <- m ;; k" := (bindM m (fun x => k))
  (at level 100, m at next level, right associativity) : script_scope.
Notation "m ;;; k" := (bindM m (fun _ => k))
  (at level 100, right associativity) : script_scope.

(** [st.slider(label, min_value, max_value, value)] first settles its
    bounds: they are widened until they hold the initial range [value], and
    the widget cannot be built when the two bounds are then equal. *)
Definition slider_bounds (min_value max_value : Z) (value : Z * Z)
  : result (Z * Z) :=
  let min_value := Z.min min_value max_value in
  let max_value := Z.max min_value max_value in
  let start := Z.min (fst value) (snd value) in
  let stop := Z.max (fst value) (snd value) in
  let min_value := Z.min start min_value in
  let max_value := Z.max stop max_value in
  if Z.ltb min_value max_value then Ok (min_value, max_value)
  else Raise StreamlitAPIException.

(** What the slider returns: the range the user has set, [value] until
    they move it.  The widget only lets the user set a range within its
    bounds; a range outside them is not excluded here. *)
Definition slider (value : Z * Z) (user : option (Z * Z)) : Z * Z :=
  match user with
  | Some r => r
  | None => value
  end.

(** [df[(df[c] >= lo) & (df[c] <= hi)]]. *)
Definition between (d : DataFrame) (c : string) (r : Z * Z)
  : result DataFrame :=
  (s1 <- getitem d c ;;
   m1 <- ge s1 (fst r) ;;
   s2 <- getitem d c ;;
   m2 <- le s2 (snd r) ;;
   Ok (getmask d (mask_and m1 m2)))%result.

(** [.apply(lambda x: "Yes" if x > 0 else "No")]. *)
Definition yes_no (positive : bool) : string :=
  if positive then "Yes" else "No".

Definition apply_yes_no (s : Series) : result Series :=
  match s with
  | SInt xs => Ok (SObj (map (fun x => yes_no (Z.gtb x 0)) xs))
  | SFloat xs => Ok (SObj (map (fun x => yes_no (fcmp Qgt_int x 0)) xs))
  | SObj [] => Ok (SObj [])
  | SDate [] => Ok (SObj [])
  | SObj (_ :: _) => Raise TypeError
  | SDate (_ :: _) => Raise TypeError
  end.

Section Script.

Variable parse_dates : list string -> option Timestamps.

(** *** Feature engineering (the four assignments after load) *)

Definition feature_engineering (d : DataFrame) : result DataFrame :=
  (c <- getitem d "Dt_Customer" ;;
   ts <- to_datetime parse_dates c ;;
   let d := setitem d "Join_Year" (dt_year ts) in
   c <- getitem d "Dt_Customer" ;;
   ts <- to_datetime parse_dates c ;;
   let d := setitem d "Join_Month" (dt_month ts) in
   p <- getitems d product_cols ;;
   s <- sum_axis1 p ;;
   let d := setitem d "Total_Spend" s in
   p <- getitems d cmp_cols ;;
   s <- sum_axis1 p ;;
   Ok (setitem d "Campaign_Accepted_Count" s))%result.

Open Scope script_scope.

(** *** Dataset tab *)

(** The table library's text search [s.astype(str).str.contains(value)]:
    the mask of the cells whose text the regular expression [value]
    matches, or [ReError] when [value] is not a regular expression. *)
Variable str_contains : Series -> string -> result Mask.

(** Lines 70-77: the rows shown, the matches of a search text in the
    chosen column or, with the search box empty, the first rows. *)
Definition tab1 (column value : string) : M DataFrame :=
  d <- get_df ;;
  if String.eqb value "" then ret (head d)
  else
    s <- lift (getitem d column) ;;
    m <- lift (str_contains s value) ;;
    ret (getmask d m).

(** *** Customer tab *)

(** Lines 82-84: the age slider and the filtered frame. *)
Definition tab2_filter (age_range : option (Z * Z)) : M unit :=
  d <- get_df ;;
  age <- lift (getitem d "age") ;;
  min_age <- lift (bind (min age) int) ;;
  age <- lift (getitem d "age") ;;
  max_age <- lift (bind (max age) int) ;;
  _ <- lift (slider_bounds min_age max_age (min_age, max_age)) ;;
  let age_range := slider (min_age, max_age) age_range in
  f <- lift (between d "age" age_range) ;;
  set_filtered_df f.

(** [round((s > 0).mean() * 100, 2)]. *)
Definition response_rate (s : Series) : result float :=
  bind (gt s 0) (fun m => Ok (round2 (fmul_int (mask_mean m) 100))).

(** Lines 85-89: the three KPI cards. *)
Definition tab2_kpis : M (list (string * Shown)) :=
  f <- get_filtered_df ;;
  let total := len f in
  income <- lift (getitem f "Income") ;;
  avg <- lift (bind (mean income) (fun x => int (ScFloat x))) ;;
  cac <- lift (getitem f "Campaign_Accepted_Count") ;;
  rate <- lift (response_rate cac) ;;
  ret [("Total Customers", VInt total);
       ("Average Income", VDollars avg);
       ("Campaign Response Rate", VFloat rate)].

Definition tab2 (age_range : option (Z * Z)) : M (list (string * Shown)) :=
  tab2_filter age_range ;;; tab2_kpis.

(** *** Spending tab *)

Record Spending : Type := mkSpending {
  spend_kpis : list (string * Shown);
  spend_totals : Labelled;
  time_df : DataFrame
}.

Definition join_date_text (y m : string) : string := y ++ "-" ++ m.

(** Line 135: total spend per joining year and month. *)
Definition spend_over_time (spend_df : DataFrame) : result DataFrame :=
  groupby_sum spend_df "Join_Year" "Join_Month" "Total_Spend".

Definition tab3 (income_range : option (Z * Z)) (selected_product : string)
  : M Spending :=
  d <- get_df ;;
  income <- lift (getitem d "Income") ;;
  min_income <- lift (bind (min income) int) ;;
  income <- lift (getitem d "Income") ;;
  max_income <- lift (bind (max income) int) ;;
  _ <- lift (slider_bounds min_income max_income (20000, 60000)) ;;
  let income_range := slider (20000, 60000) income_range in
  spend_df <- lift (between d "Income" income_range) ;;
  sel <- lift (getitem spend_df selected_product) ;;
  let spend_df := setitem spend_df "Selected_Product_Spend" sel in
  ts <- lift (getitem spend_df "Total_Spend") ;;
  total <- lift (bind (sum ts) int) ;;
  ts <- lift (getitem spend_df "Total_Spend") ;;
  avg <- lift (bind (mean ts) (fun x => int (ScFloat x))) ;;
  p <- lift (getitems spend_df product_cols) ;;
  totals <- lift (sum_axis0 p) ;;
  let totals := sort_values_desc totals in
  time_df <- lift (spend_over_time spend_df) ;;
  y <- lift (bind (getitem time_df "Join_Year") astype_str) ;;
  m <- lift (bind (getitem time_df "Join_Month") astype_str) ;;
  jd <- lift (bind (to_datetime parse_dates
                      (SObj (zip_with join_date_text y m)))
                   datetime_series) ;;
  let time_df := setitem time_df "Join_Date" jd in
  ret (mkSpending
         [("Total Spend", VDollars total);
          ("Avg Spend per Customer", VDollars avg)]
         totals time_df).

(** *** Campaigns tab *)

Record Campaigns : Type := mkCampaigns {
  campaign_kpis : list (string * Shown);
  campaign_totals : Labelled;
  channel_totals : Labelled
}.

Definition tab4 : M Campaigns :=
  f <- get_filtered_df ;;
  c <- lift (getitems f cmp_cols) ;;
  s <- lift (sum_axis0 c) ;;
  accepted <- lift (int (lsum s)) ;;
  cac <- lift (getitem f "Campaign_Accepted_Count") ;;
  m <- lift (gt cac 0) ;;
  let responded := len (getmask f m) in
  d <- get_df ;;
  c <- lift (getitems d cmp_cols) ;;
  totals <- lift (sum_axis0 c) ;;
  p <- lift (getitems f purchase_channels) ;;
  ch <- lift (sum_axis0 p) ;;
  let channel_totals := sort_values_desc ch in
  p <- lift (getitems f purchase_channels) ;;
  tcp <- lift (sum_axis1 p) ;;
  set_filtered_df (setitem f "Total_Channel_Purchases" tcp) ;;;
  f <- get_filtered_df ;;
  cac <- lift (getitem f "Campaign_Accepted_Count") ;;
  r <- lift (apply_yes_no cac) ;;
  set_filtered_df (setitem f "Responded" r) ;;;
  ret (mkCampaigns
         [("Accepted Campaigns", VInt accepted);
          ("Responded Customers", VInt responded)]
         totals channel_totals).

(** *** Chatbot tab *)

Definition answer (today : Z) (question : Question) : M Answer :=
  d <- get_df ;;
  match question with
  | MostCommonAge =>
      age <- lift (getitem d "age") ;;
      v <- lift (first (mode age)) ;;
      ret (Success [VScalar v])
  | TotalCustomers =>
      ret (Success [VInt (len d)])
  | AverageIncome =>
      income <- lift (getitem d "Income") ;;
      avg <- lift (bind (mean income) (fun x => int (ScFloat x))) ;;
      ret (Success [VDollars avg])
  | TotalAndAverageSpend =>
      ts <- lift (getitem d "Total_Spend") ;;
      total <- lift (bind (sum ts) int) ;;
      ts <- lift (getitem d "Total_Spend") ;;
      avg <- lift (bind (mean ts) (fun x => int (ScFloat x))) ;;
      ret (Success [VDollars total; VDollars avg])
  | TopProductCategory =>
      p <- lift (getitems d product_cols) ;;
      top_product <- lift (bind (mean_axis0 p) idxmax) ;;
      ret (Success [VText top_product])
  | SpendPerProduct =>
      p <- lift (getitems d product_cols) ;;
      s <- lift (sum_axis0 p) ;;
      ret (Written (sort_values_desc s))
  | PreferredChannel =>
      p <- lift (getitems d purchase_channels) ;;
      top_channel <- lift (bind (mean_axis0 p) idxmax) ;;
      ret (Success [VText top_channel])
  | PurchasesPerChannel =>
      p <- lift (getitems d purchase_channels) ;;
      s <- lift (sum_axis0 p) ;;
      ret (Written (sort_values_desc s))
  | AverageWebVisits =>
      v <- lift (getitem d "NumWebVisitsMonth") ;;
      x <- lift (mean v) ;;
      ret (Success [VFixed2 x])
  | ResponseRate =>
      r <- lift (getitem d "Response") ;;
      x <- lift (mean r) ;;
      ret (Success [VFixed2 (fmul_int x 100)])
  | AcceptedMoreThanOne =>
      cac <- lift (getitem d "Campaign_Accepted_Count") ;;
      m <- lift (gt cac 1) ;;
      ret (Success [VInt (mask_sum m)])
  | ResponsesPerCampaign =>
      p <- lift (getitems d cmp_cols) ;;
      s <- lift (sum_axis0 p) ;;
      ret (Written (sort_values_desc s))
  | OldVsNew =>
      c <- lift (getitem d "Dt_Customer") ;;
      ts <- lift (to_datetime parse_dates c) ;;
      set_df (setitem d "Customer_Since_Days" (days_since today ts)) ;;;
      d <- get_df ;;
      csd <- lift (getitem d "Customer_Since_Days") ;;
      m <- lift (gt csd 1000) ;;
      let old_customers := mask_sum m in
      csd <- lift (getitem d "Customer_Since_Days") ;;
      m <- lift (le csd 1000) ;;
      let new_customers := mask_sum m in
      ret (Success [VInt old_customers; VInt new_customers])
  end.

Definition tab5 (today : Z) (question : Question) (button : bool)
  : M (option Answer) :=
  if button then a <- answer today question ;; ret (Some a) else ret None.

(** *** One run of the script *)

Record Inputs : Type := mkInputs {
  clean_data_csv : Source;            (* the file [clean_data.csv] *)
  uploaded_file : option Source;
  column : string;                    (* the column chosen for the search *)
  value : string;                     (* the search text *)
  age_range : option (Z * Z);
  income_range : option (Z * Z);
  selected_product : string;
  question : Question;
  get_answer : bool;                  (* the button is pressed *)
  today : Z                           (* [pd.to_datetime("today")] *)
}.

Record Page : Type := mkPage {
  dataset : DataFrame;
  customer : list (string * Shown);
  spending : Spending;
  campaigns : Campaigns;
  chatbot : option Answer
}.

(** Lines 47-62: the frame the tabs work on. *)
Definition prepare (inp : Inputs) : result DataFrame :=
  let file := match uploaded_file inp with
              | Some f => f
              | None => clean_data_csv inp
              end in
  bind (load_data file) feature_engineering.

(** The tabs in the order of the script.  The calls that draw the charts
    are not embedded; in each tab they come after its cards. *)
Definition tabs (inp : Inputs) : M Page :=
  v <- tab1 (column inp) (value inp) ;;
  c <- tab2 (age_range inp) ;;
  s <- tab3 (income_range inp) (selected_product inp) ;;
  k <- tab4 ;;
  a <- tab5 (today inp) (question inp) (get_answer inp) ;;
  ret (mkPage v c s k a).

Definition run (inp : Inputs) : result Page :=
  bind (prepare inp) (fun d => fst (tabs inp (mkEnv d None))).

End Script.


(** A step leaves an observation of the frames as it found it. *)
Definition preserves {A X} (f : Env -> X) (m : M A) : Prop :=
  forall e, f (snd (m e)) = f e.

End App.

(* ================================================================= *)
(** ** Calendar dates written [YYYY-MM-DD]

    One instance of the date parser, for the examples: it reads columns of
    ISO calendar dates, takes a blank cell for a missing date and rejects a
    column with any other cell. *)

Module Iso.

Import Pd.

Definition digit (c : ascii) : option Z :=
  let n := Z.of_nat (nat_of_ascii c) - 48 in
  if (Z.leb 0 n && Z.leb n 9)%bool then Some n else None.

Fixpoint number (s : string) (acc : Z) : option Z :=
  match s with
  | EmptyString => Some acc
  | String c rest =>
      match digit c with
      | Some n => number rest (10 * acc + n)
      | None => None
      end
  end.

Definition is_leap (y : Z) : bool :=
  (Z.eqb (y mod 4) 0 && negb (Z.eqb (y mod 100) 0) || Z.eqb (y mod 400) 0)%bool.

Definition days_in_month (y m : Z) : Z :=
  if Z.eqb m 2 then (if is_leap y then 29 else 28)
  else if (Z.eqb m 4 || Z.eqb m 6 || Z.eqb m 9 || Z.eqb m 11)%bool then 30
  else 31.

(** Day number of a calendar date, counted from 1970-01-01. *)
Definition days_from_civil (y m d : Z) : Z :=
  let y := if Z.leb m 2 then y - 1 else y in
  let era := y / 400 in
  let yoe := y mod 400 in
  let doy := (153 * (if Z.ltb 2 m then m - 3 else m + 9) + 2) / 5 + d - 1 in
  let doe := yoe * 365 + yoe / 4 - yoe / 100 + doy in
  era * 146097 + doe - 719468.

Definition valid_date (y m d : Z) : bool :=
  (Z.leb 1 m && Z.leb m 12 && Z.leb 1 d && Z.leb d (days_in_month y m))%bool.

(** A cell [YYYY-MM-DD]. *)
Definition parse_date (s : string) : option Z :=
  if negb (Nat.eqb (String.length s) 10) then None else
  match number (substring 0 4 s) 0, get 4 s,
        number (substring 5 2 s) 0, get 7 s,
        number (substring 8 2 s) 0 with
  | Some y, Some "-"%char, Some m, Some "-"%char, Some d =>
      if valid_date y m d
      then Some (days_from_civil y m d * ns_per_day)
      else None
  | _, _, _, _, _ => None
  end.

(** A cell [YYYY-M] or [YYYY-MM]: the first day of that month. *)
Definition parse_month (s : string) : option Z :=
  let n := String.length s in
  if negb (Nat.eqb n 6 || Nat.eqb n 7) then None else
  match number (substring 0 4 s) 0, get 4 s,
        number (substring 5 (n - 5) s) 0 with
  | Some y, Some "-"%char, Some m =>
      if valid_date y m 1
      then Some (days_from_civil y m 1 * ns_per_day)
      else None
  | _, _, _ => None
  end.

(** A blank cell is a missing date. *)
Definition parse_cell (p : string -> option Z) (x : string)
  : option (option Z) :=
  if String.eqb x "" then Some None
  else match p x with
       | Some t => Some (Some t)
       | None => None
       end.

Fixpoint parse_all (p : string -> option Z) (xs : list string)
  : option Timestamps :=
  match xs with
  | [] => Some []
  | x :: rest =>
      match parse_cell p x, parse_all p rest with
      | Some t, Some ts => Some (t :: ts)
      | _, _ => None
      end
  end.

(** A column is read when its cells, blanks apart, are all dates or all
    months. *)
Definition parse_dates (xs : list string) : option Timestamps :=
  match parse_all parse_date xs with
  | Some ts => Some ts
  | None => parse_all parse_month xs
  end.

End Iso.

(* ================================================================= *)
(** ** Search texts without special characters

    One instance of the text search, for the examples: a search text made
    of letters, digits and spaces matches the cells that contain it, an
    opening bracket alone is not a regular expression, and any other text
    is left out, as are the columns whose text form is. *)

Module Plain.

Import Pd.

Definition plain (c : ascii) : bool :=
  let n := nat_of_ascii c in
  ((Nat.leb 48 n && Nat.leb n 57) || (Nat.leb 65 n && Nat.leb n 90)
   || (Nat.leb 97 n && Nat.leb n 122) || Nat.eqb n 32)%bool.

Fixpoint occurs (p s : string) : bool :=
  (String.prefix p s
   || match s with
      | EmptyString => false
      | String _ rest => occurs p rest
      end)%bool.

Definition str_contains (s : Series) (value : string) : result Mask :=
  if String.eqb value "(" then Raise ReError
  else if forallb plain (list_ascii_of_string value) then
    match astype_str s with
    | Ok texts => Ok (map (occurs value) texts)
    | Raise _ => Raise NotModelled
    end
  else Raise NotModelled.

End Plain.

(* ================================================================= *)
(** ** Typed views of a frame and tables used in the examples *)

Module Schema.

Import Pd.

(** The named columns of [d] are int columns, one cell per row. *)
Definition int_cols (d : DataFrame) (names : list string)
  (cols : list (list Z)) : Prop :=
  Forall2 (fun c xs => lookup c (columns d) = Some (SInt xs)
                       /\ List.length xs = nrows d) names cols.

(** The cells of row [i] in a group of int columns. *)
Definition row (i : nat) (cols : list (list Z)) : list Z :=
  map (fun c => nth i c 0) cols.

(** All cells are 0 or 1. *)
Definition flag_cols (cols : list (list Z)) : Prop :=
  Forall (Forall (fun x => x = 0 \/ x = 1)) cols.

(** How many cells of a row are 1. *)
Definition ones (cells : list Z) : Z :=
  Z.of_nat (List.length (filter (Z.eqb 1) cells)).

Definition numeric (s : Series) : Prop :=
  match s with
  | SInt _ | SFloat _ => True
  | SObj _ | SDate _ => False
  end.

(** The integers an int64 cell can hold. *)
Definition int64 (z : Z) : Prop :=
  -9223372036854775808 <= z < 9223372036854775808.

(** A column without missing cells: only float columns can hold NaN. *)
Definition no_missing (s : Series) : Prop :=
  match s with
  | SFloat xs => Forall (fun x => x <> NaN) xs
  | _ => True
  end.

(** The scalar is the whole number [z]. *)
Definition whole (x : Scalar) (z : Z) : Prop :=
  match x with
  | ScInt a => a = z
  | ScFloat (Fin q) => Qeq q (inject_Z z)
  | _ => False
  end.

(** The frame made of int columns under the given names. *)
Definition int_frame (n : nat) (names : list string) (cols : list (list Z))
  : DataFrame :=
  mkDF n (combine names (map SInt cols)).

(** Calendar order on (year, month). *)
Definition chrono_lt (a b : Z * Z) : Prop :=
  fst a < fst b \/ (fst a = fst b /\ snd a < snd b).

(** The rows of a table as (year, month) paired with a spend, and the total
    spend of the rows of one period. *)
Definition period_rows (ys ms vs : list Z) : list ((Z * Z) * Z) :=
  combine (combine ys ms) vs.

Definition in_period (g : Z * Z) (r : (Z * Z) * Z) : bool :=
  (Z.eqb (fst (fst r)) (fst g) && Z.eqb (snd (fst r)) (snd g))%bool.

Definition period_total (rows : list ((Z * Z) * Z)) (g : Z * Z) : Z :=
  zsum (map snd (filter (in_period g) rows)).

(** A frame with the four derived columns set. *)
Definition with_features (d : DataFrame) (ts : Timestamps)
  (total count : Series)
  : DataFrame :=
  setitem
    (setitem
       (setitem (setitem d "Join_Year" (dt_year ts)) "Join_Month" (dt_month ts))
       "Total_Spend" total)
    "Campaign_Accepted_Count" count.

End Schema.

Module Sample.

Import Pd.

(** One customer with product spends 100, 10, 20, 5, 5, 10 and campaign
    flags 1, 0, 1, 0, 0. *)
Definition one_customer : DataFrame :=
  mkDF 1
    [("age", SInt [41]);
     ("Income", SFloat [Fin 52000]);
     ("Dt_Customer", SObj ["2021-01-15"]);
     ("MntWines", SInt [100]); ("MntFruits", SInt [10]);
     ("MntMeatProducts", SInt [20]); ("MntFishProducts", SInt [5]);
     ("MntSweetProducts", SInt [5]); ("MntGoldProds", SInt [10]);
     ("AcceptedCmp1", SInt [1]); ("AcceptedCmp2", SInt [0]);
     ("AcceptedCmp3", SInt [1]); ("AcceptedCmp4", SInt [0]);
     ("AcceptedCmp5", SInt [0])].

Definition one_customer_spends : list (list Z) :=
  [[100]; [10]; [20]; [5]; [5]; [10]].

Definition one_customer_flags : list (list Z) :=
  [[1]; [0]; [1]; [0]; [0]].

(** The same customer in a file without an Income column, and in a file
    whose Income cell is text: the frames the reader returns for them. *)
Definition no_income : DataFrame :=
  mkDF 1
    [("age", SInt [41]);
     ("Dt_Customer", SObj ["2021-01-15"]);
     ("MntWines", SInt [100]); ("MntFruits", SInt [10]);
     ("MntMeatProducts", SInt [20]); ("MntFishProducts", SInt [5]);
     ("MntSweetProducts", SInt [5]); ("MntGoldProds", SInt [10]);
     ("AcceptedCmp1", SInt [1]); ("AcceptedCmp2", SInt [0]);
     ("AcceptedCmp3", SInt [1]); ("AcceptedCmp4", SInt [0]);
     ("AcceptedCmp5", SInt [0])].

Definition text_income : DataFrame :=
  setitem one_customer "Income" (SObj ["unknown"]).

(** A run on an uploaded file, with the widgets untouched. *)
Definition upload (d : DataFrame) : App.Inputs :=
  App.mkInputs (mkSource (Raise ReaderError)) (Some (mkSource (Ok d)))
               "age" "" None None "MntWines" App.MostCommonAge false 0.

(** Three customers: one joined in March 2021 (spend 50), two in January
    2021 (spends 100 and 200). *)
Definition three_joins : DataFrame :=
  mkDF 3
    [("Join_Year", SInt [2021; 2021; 2021]);
     ("Join_Month", SInt [3; 1; 1]);
     ("Total_Spend", SInt [50; 100; 200])].

(** Four customers after feature engineering. *)
Definition four_customers : DataFrame :=
  mkDF 4
    [("age", SInt [25; 30; 35; 40]);
     ("Income", SFloat [Fin 20000; Fin 40000; Fin 60000; Fin 80000]);
     ("Dt_Customer",
      SObj ["2021-01-15"; "2021-01-20"; "2021-03-02"; "2020-11-30"]);
     ("MntWines", SInt [100; 1; 0; 7]); ("MntFruits", SInt [10; 1; 0; 7]);
     ("MntMeatProducts", SInt [20; 1; 0; 7]);
     ("MntFishProducts", SInt [5; 1; 0; 7]);
     ("MntSweetProducts", SInt [5; 1; 0; 7]);
     ("MntGoldProds", SInt [10; 1; 0; 7]);
     ("NumWebPurchases", SInt [1; 2; 3; 4]);
     ("NumCatalogPurchases", SInt [0; 0; 1; 1]);
     ("NumStorePurchases", SInt [5; 5; 5; 5]);
     ("AcceptedCmp1", SInt [1; 0; 0; 0]); ("AcceptedCmp2", SInt [0; 0; 0; 0]);
     ("AcceptedCmp3", SInt [1; 0; 0; 1]); ("AcceptedCmp4", SInt [0; 0; 0; 0]);
     ("AcceptedCmp5", SInt [0; 0; 0; 1]);
     ("Response", SInt [1; 0; 0; 1]);
     ("NumWebVisitsMonth", SInt [3; 4; 5; 6]);
     ("Join_Year", SInt [2021; 2021; 2021; 2020]);
     ("Join_Month", SInt [1; 1; 3; 11]);
     ("Total_Spend", SInt [150; 6; 0; 42]);
     ("Campaign_Accepted_Count", SInt [2; 0; 0; 2])].

(** 2023-06-01 and 2024-06-01 as timestamps. *)
Definition june_2023 : Z := 19509 * ns_per_day.
Definition june_2024 : Z := 19875 * ns_per_day.

(** Ages where 30 and 25 both occur twice. *)
Definition tied_ages : DataFrame :=
  mkDF 5 [("age", SInt [30; 25; 41; 30; 25])].

End Sample.

Module Views.

Import Pd.

(** [lo <= x <= hi], both ends included. *)
Definition in_range (lo hi x : Z) : bool := (Z.leb lo x && Z.leb x hi)%bool.

(** The cells [ys] of the rows whose cell in [xs] lies in the range. *)
Definition cells_in_range (lo hi : Z) (xs ys : list Z) : list Z :=
  map snd (filter (fun p => in_range lo hi (fst p)) (combine xs ys)).

(** A float cell that is a number within the range. *)
Definition finite_in_range (lo hi : Z) (y : float) : Prop :=
  exists q, y = Fin q /\ (inject_Z lo <= q)%Q /\ (q <= inject_Z hi)%Q.

(** The same test on a float cell: NaN is never within a range. *)
Definition float_in_range (lo hi : Z) (y : float) : bool :=
  (fcmp Qge_int y lo && fcmp Qle_int y hi)%bool.

(** Three customers, the second with no income on file. *)
Definition income_missing : DataFrame :=
  mkDF 3
    [("Income", SFloat [Fin 30000; NaN; Fin 70000]);
     ("Total_Spend", SInt [10; 20; 30])].

(** The one-customer table of the examples after feature engineering. *)
Definition one_customer_derived : DataFrame :=
  Schema.with_features Sample.one_customer [Some 1610668800000000000]
                       (SInt [150]) (SInt [2]).

(** An upload of the four customers with the age slider set to (26, 29),
    between two observed ages. *)
Definition narrow_age_upload : App.Inputs :=
  App.mkInputs (mkSource (Raise ReaderError))
               (Some (mkSource (Ok Sample.four_customers)))
               "age" "" (Some (26, 29)) None "MntWines" App.MostCommonAge
               false 0.

(** The same upload with an opening bracket typed in the search box. *)
Definition bracket_search_upload : App.Inputs :=
  App.mkInputs (mkSource (Raise ReaderError))
               (Some (mkSource (Ok Sample.four_customers)))
               "age" "(" (Some (26, 29)) None "MntWines" App.MostCommonAge
               false 0.

(** One customer whose wine and fruit spends are 2^62 each: every cell is
    an int64 value, their sum is not. *)
Definition large_spends : DataFrame :=
  setitem (setitem Sample.one_customer "MntWines"
                   (SInt [4611686018427387904]))
          "MntFruits" (SInt [4611686018427387904]).

(** The rows whose count of days since joining passes a test; a row whose
    join date is missing passes none. *)
Definition days_mask (p : Z -> bool) (now : Z) (ts : Timestamps) : Mask :=
  map (fun t => match t with
                | Some x => p ((now - x) / ns_per_day)
                | None => false
                end) ts.


(** The four customers, the second with a blank join date. *)
Definition join_date_missing : DataFrame :=
  setitem Sample.four_customers "Dt_Customer"
          (SObj ["2021-01-15"; ""; "2021-03-02"; "2020-11-30"]).





(** The columns feature engineering sets. *)
Definition derived_names : list string :=
  ["Join_Year"; "Join_Month"; "Total_Spend"; "Campaign_Accepted_Count"].

(** Labelled ints listed from the largest to the smallest. *)
Definition descending (kv : list (string * Z)) : Prop :=
  StronglySorted (fun a b => snd b <= snd a) kv.



End Views.

(* ================================================================= *)
(** ** Facts about the table library *)

Module PdFacts.

Import Pd Schema.

Lemma lookup_assign_same c s cols :
  lookup c (assign c s cols) = Some s.
Proof.
  induction cols as [|[k v] rest IH]; simpl.
  - now rewrite String.eqb_refl.
  - destruct (String.eqb k c) eqn:E; simpl; rewrite E; auto.
Qed.

Lemma lookup_assign_other c k s cols :
  k <> c -> lookup c (assign k s cols) = lookup c cols.
Proof.
  intros Hne. induction cols as [|[k' v] rest IH]; simpl.
  - apply String.eqb_neq in Hne. now rewrite Hne.
  - destruct (String.eqb k' k) eqn:E; simpl.
    + apply String.eqb_eq in E. subst k'.
      apply String.eqb_neq in Hne. now rewrite Hne.
    + destruct (String.eqb k' c); auto.
Qed.

Lemma getitem_setitem_same d c s :
  getitem (setitem d c s) c = Ok s.
Proof. unfold getitem, setitem; simpl. now rewrite lookup_assign_same. Qed.

Lemma getitem_setitem_other d c k s :
  k <> c -> getitem (setitem d k s) c = getitem d c.
Proof.
  intros H. unfold getitem, setitem; simpl. now rewrite lookup_assign_other.
Qed.

Lemma int_cols_setitem d k s names cols :
  Forall (fun c => k <> c) names ->
  int_cols d names cols -> int_cols (setitem d k s) names cols.
Proof.
  unfold int_cols. intros Hne H. revert Hne.
  induction H as [|c xs names cols [Hl Hn] _ IH]; intros Hne; constructor.
  - inversion Hne; subst. simpl. rewrite lookup_assign_other; auto.
  - inversion Hne; subst. auto.
Qed.

Lemma int_cols_length d names cols :
  int_cols d names cols -> List.length cols = List.length names.
Proof. intros H. symmetry. eapply Forall2_length; eauto. Qed.

Lemma int_cols_sizes d names cols :
  int_cols d names cols -> Forall (fun c => List.length c = nrows d) cols.
Proof.
  induction 1 as [|c xs names cols [_ Hn] _ IH]; constructor; auto.
Qed.

Lemma lookup_all_int d names cols :
  int_cols d names cols ->
  lookup_all names (columns d) = Ok (combine names (map SInt cols)).
Proof.
  induction 1 as [|c xs names cols [Hl _] _ IH]; simpl; auto.
  rewrite Hl, IH. reflexivity.
Qed.

Lemma int_columns_combine names cols :
  List.length cols = List.length names ->
  int_columns (combine names (map SInt cols)) = Some cols.
Proof.
  revert cols. induction names as [|c names IH]; intros [|xs cols] H;
    simpl in *; try discriminate; auto.
  rewrite IH by lia. reflexivity.
Qed.

(** Row sums of a group of int columns that are all present. *)
Lemma sum_axis1_int d names cols :
  names <> [] -> int_cols d names cols ->
  bind (getitems d names) sum_axis1 = Ok (SInt (irow_sums (nrows d) cols)).
Proof.
  intros Hne H. unfold getitems. rewrite (lookup_all_int _ _ _ H). simpl.
  unfold sum_axis1; simpl.
  rewrite int_columns_combine by (eapply int_cols_length; eauto).
  destruct names as [|c names]; [congruence|].
  inversion H; subst. reflexivity.
Qed.

Lemma zip_with_length {A B C} (f : A -> B -> C) xs ys n :
  List.length xs = n -> List.length ys = n ->
  List.length (zip_with f xs ys) = n.
Proof.
  revert ys n. induction xs as [|x xs IH]; intros [|y ys] n Hx Hy;
    simpl in *; subst; try discriminate; auto.
Qed.

Lemma row_sums_length n cols :
  Forall (fun c => List.length c = n) cols ->
  List.length (row_sums n cols) = n.
Proof.
  induction 1 as [|c cols Hc _ IH]; simpl.
  - apply repeat_length.
  - now apply zip_with_length.
Qed.

Lemma nth_zip_with_add xs ys i :
  List.length xs = List.length ys ->
  nth i (zip_with Z.add xs ys) 0 = nth i xs 0 + nth i ys 0.
Proof.
  revert ys i. induction xs as [|x xs IH]; intros [|y ys] i H;
    simpl in *; try discriminate.
  - destruct i; reflexivity.
  - destruct i; auto.
Qed.

(** Cell [i] of the row sums is the sum of the cells of row [i]. *)
Lemma nth_row_sums n cols i :
  Forall (fun c => List.length c = n) cols ->
  nth i (row_sums n cols) 0 = zsum (row i cols).
Proof.
  induction 1 as [|c cols Hc Hcols IH]; simpl.
  - apply nth_repeat.
  - rewrite nth_zip_with_add, IH; auto.
    rewrite row_sums_length; auto.
Qed.

Lemma wrap64_small z : int64 z -> wrap64 z = z.
Proof. unfold int64, wrap64. intros H. rewrite Z.mod_small; lia. Qed.

Lemma irow_sums_length n cols :
  Forall (fun c => List.length c = n) cols ->
  List.length (irow_sums n cols) = n.
Proof.
  intros H. unfold irow_sums. rewrite length_map. now apply row_sums_length.
Qed.

(** Cell [i] of the 64-bit row sums is the sum of the cells of row [i],
    modulo 2^64. *)
Lemma nth_irow_sums n cols i :
  Forall (fun c => List.length c = n) cols ->
  nth i (irow_sums n cols) 0 = wrap64 (zsum (row i cols)).
Proof.
  intros H. unfold irow_sums.
  change 0 with (wrap64 0) at 1. rewrite map_nth. now rewrite nth_row_sums.
Qed.

Lemma zsum_flags cells :
  Forall (fun x => x = 0 \/ x = 1) cells -> zsum cells = ones cells.
Proof.
  unfold ones, zsum.
  induction 1 as [|x cells [Hx|Hx] _ IH]; auto; subst;
    cbn [fold_right filter]; rewrite IH.
  - reflexivity.
  - change (Z.eqb 1 1) with true. cbn [List.length].
    rewrite Nat2Z.inj_succ. lia.
Qed.

Lemma row_flags i cols :
  flag_cols cols -> Forall (fun x => x = 0 \/ x = 1) (row i cols).
Proof.
  induction 1 as [|c cols Hc _ IH]; simpl; constructor; auto.
  destruct (Nat.lt_ge_cases i (List.length c)) as [Hi|Hi].
  - rewrite Forall_forall in Hc. apply Hc. now apply nth_In.
  - left. now apply nth_overflow.
Qed.

Lemma ones_bound cells : 0 <= ones cells <= Z.of_nat (List.length cells).
Proof.
  unfold ones. pose proof (filter_length_le (Z.eqb 1) cells). lia.
Qed.

End PdFacts.

(* ================================================================= *)
(** ** Feature engineering *)

Module Derivation.

Import Pd App Schema PdFacts.

Ltac names_differ :=
  repeat constructor; intro; discriminate.

Section WithParser.

Variable parse_dates : list string -> option Timestamps.

(** On a table whose join dates are read and whose product and campaign
    columns are int columns, the four assignments succeed. *)
Lemma feature_engineering_ok d dates ts spends flags :
  lookup "Dt_Customer" (columns d) = Some dates ->
  to_datetime parse_dates dates = Ok ts ->
  int_cols d product_cols spends ->
  int_cols d cmp_cols flags ->
  feature_engineering parse_dates d
  = Ok (with_features d ts (SInt (irow_sums (nrows d) spends))
                      (SInt (irow_sums (nrows d) flags))).
Proof.
  intros Hd Hts Hp Hc. unfold feature_engineering, with_features.
  assert (G : getitem d "Dt_Customer" = Ok dates)
    by (unfold getitem; now rewrite Hd).
  rewrite G. cbn [bind]. rewrite Hts. cbn [bind].
  rewrite getitem_setitem_other, G by discriminate. cbn [bind].
  rewrite Hts. cbn [bind].
  set (d2 := setitem (setitem d _ _) _ _).
  assert (Hp2 : int_cols d2 product_cols spends).
  { subst d2. do 2 (apply int_cols_setitem; [names_differ|]). exact Hp. }
  pose proof (sum_axis1_int d2 product_cols spends) as S1.
  cbn [bind] in S1. unfold bind in S1 |- *.
  destruct (getitems d2 product_cols) as [p|e] eqn:E1;
    [|specialize (S1 ltac:(discriminate) Hp2); discriminate].
  rewrite (S1 ltac:(discriminate) Hp2).
  set (d3 := setitem d2 _ _).
  assert (Hc3 : int_cols d3 cmp_cols flags).
  { subst d3 d2. do 3 (apply int_cols_setitem; [names_differ|]). exact Hc. }
  pose proof (sum_axis1_int d3 cmp_cols flags ltac:(discriminate) Hc3) as S2.
  unfold bind in S2.
  destruct (getitems d3 cmp_cols) as [p'|e] eqn:E2; [|discriminate].
  rewrite S2. reflexivity.
Qed.

(** C5 (as amended).  On a table whose join dates are read and whose
    product and campaign columns are int columns, feature engineering
    succeeds and the [Total_Spend] cell of every row is the sum of the six
    product cells of that row as an int64 cell holds it: exactly the sum
    whenever that sum is a value an int64 cell can hold, and the sum
    wrapped around modulo 2^64 otherwise. *)
Theorem total_spend_exact d dates ts spends flags :
  lookup "Dt_Customer" (columns d) = Some dates ->
  to_datetime parse_dates dates = Ok ts ->
  int_cols d product_cols spends ->
  int_cols d cmp_cols flags ->
  exists d' total,
    feature_engineering parse_dates d = Ok d'
    /\ getitem d' "Total_Spend" = Ok (SInt total)
    /\ List.length total = nrows d
    /\ forall i, (i < nrows d)%nat ->
                 nth i total 0 = wrap64 (zsum (row i spends))
                 /\ (int64 (zsum (row i spends)) ->
                     nth i total 0 = zsum (row i spends)).
Proof.
  intros Hd Hts Hp Hc.
  exists (with_features d ts (SInt (irow_sums (nrows d) spends))
                        (SInt (irow_sums (nrows d) flags))).
  exists (irow_sums (nrows d) spends).
  pose proof (int_cols_sizes _ _ _ Hp) as Hsz.
  split; [now apply feature_engineering_ok with (dates := dates)|].
  split; [|split].
  - unfold with_features.
    rewrite getitem_setitem_other by discriminate.
    apply getitem_setitem_same.
  - now apply irow_sums_length.
  - intros i _. rewrite nth_irow_sums by assumption.
    split; [reflexivity|]. intros Hi. now apply wrap64_small.
Qed.

(** C6.  With campaign flags that are 0 or 1, the
    [Campaign_Accepted_Count] cell of every row is the number of the five
    flags of that row equal to 1, hence between 0 and 5. *)
Theorem campaign_accepted_count_counts d dates ts spends flags :
  lookup "Dt_Customer" (columns d) = Some dates ->
  to_datetime parse_dates dates = Ok ts ->
  int_cols d product_cols spends ->
  int_cols d cmp_cols flags ->
  flag_cols flags ->
  exists d' count,
    feature_engineering parse_dates d = Ok d'
    /\ getitem d' "Campaign_Accepted_Count" = Ok (SInt count)
    /\ List.length count = nrows d
    /\ forall i, (i < nrows d)%nat ->
         nth i count 0 = ones (row i flags) /\ 0 <= nth i count 0 <= 5.
Proof.
  intros Hd Hts Hp Hc Hf.
  exists (with_features d ts (SInt (irow_sums (nrows d) spends))
                        (SInt (irow_sums (nrows d) flags))).
  exists (irow_sums (nrows d) flags).
  pose proof (int_cols_sizes _ _ _ Hc) as Hsz.
  split; [now apply feature_engineering_ok with (dates := dates)|].
  split; [|split].
  - unfold with_features. apply getitem_setitem_same.
  - now apply irow_sums_length.
  - intros i _.
    pose proof (ones_bound (row i flags)) as B.
    unfold row in B. rewrite length_map in B.
    rewrite (int_cols_length _ _ _ Hc) in B.
    change (Z.of_nat (List.length cmp_cols)) with 5 in B.
    fold (row i flags) in B.
    assert (E : nth i (irow_sums (nrows d) flags) 0 = ones (row i flags)).
    { rewrite nth_irow_sums by assumption.
      rewrite zsum_flags by now apply row_flags.
      apply wrap64_small. unfold int64. lia. }
    split; [exact E|]. rewrite E. lia.
Qed.

End WithParser.

Ltac int_cols_by_computation :=
  repeat (constructor; [split; reflexivity|]); constructor.

(** The scenario of one row with spends 100, 10, 20, 5, 5, 10: the derived
    total is 150. *)
Lemma total_spend_scenario :
  lookup "Dt_Customer" (columns Sample.one_customer)
    = Some (SObj ["2021-01-15"])
  /\ to_datetime Iso.parse_dates (SObj ["2021-01-15"])
     = Ok [Some 1610668800000000000]
  /\ int_cols Sample.one_customer product_cols Sample.one_customer_spends
  /\ int_cols Sample.one_customer cmp_cols Sample.one_customer_flags
  /\ int64 (zsum (row 0 Sample.one_customer_spends))
  /\ exists d',
      feature_engineering Iso.parse_dates Sample.one_customer = Ok d'
      /\ getitem d' "Total_Spend" = Ok (SInt [150]).
Proof.
  assert (H1 : lookup "Dt_Customer" (columns Sample.one_customer)
               = Some (SObj ["2021-01-15"])) by reflexivity.
  assert (H2 : to_datetime Iso.parse_dates (SObj ["2021-01-15"])
               = Ok [Some 1610668800000000000]) by (vm_compute; reflexivity).
  assert (H3 : int_cols Sample.one_customer product_cols
                 Sample.one_customer_spends) by int_cols_by_computation.
  assert (H4 : int_cols Sample.one_customer cmp_cols
                 Sample.one_customer_flags) by int_cols_by_computation.
  assert (H5 : int64 (zsum (row 0 Sample.one_customer_spends)))
    by (vm_compute; split; [discriminate|reflexivity]).
  repeat (split; [assumption|]).
  destruct (total_spend_exact Iso.parse_dates _ _ _ _ _ H1 H2 H3 H4)
    as (d' & total & Hfe & Hget & Hlen & Hnth).
  exists d'. split; [exact Hfe|]. rewrite Hget.
  destruct total as [|x [|y rest]]; try discriminate Hlen.
  destruct (Hnth 0%nat ltac:(simpl; lia)) as [_ Hx].
  specialize (Hx H5). simpl in Hx.
  now rewrite Hx.
Defined.

(** Wine and fruit spends of 2^62 each, with 20, 5, 5 and 10: every cell is
    an int64 value and the six add up to 2^63 + 40, but the derived total
    is negative. *)
Lemma total_spend_wraps_around :
  int_cols Views.large_spends product_cols
    [[4611686018427387904]; [4611686018427387904]; [20]; [5]; [5]; [10]]
  /\ Forall int64 [4611686018427387904; 4611686018427387904; 20; 5; 5; 10]
  /\ zsum (row 0 [[4611686018427387904]; [4611686018427387904];
                   [20]; [5]; [5]; [10]])
     = 9223372036854775848
  /\ bind (feature_engineering Iso.parse_dates Views.large_spends)
          (fun d' => getitem d' "Total_Spend")
     = Ok (SInt [-9223372036854775768])
  /\ bind (feature_engineering Iso.parse_dates Views.large_spends)
          (fun d' => getitem d' "Total_Spend")
     <> Ok (SInt [9223372036854775848]).
Proof.
  split; [int_cols_by_computation|].
  split; [repeat constructor; discriminate|].
  split; [reflexivity|].
  split; [vm_compute; reflexivity|].
  intros H. vm_compute in H. discriminate H.
Qed.

(** The scenario of campaign flags 1, 0, 1, 0, 0: the derived count is 2. *)
Lemma campaign_accepted_count_scenario :
  lookup "Dt_Customer" (columns Sample.one_customer)
    = Some (SObj ["2021-01-15"])
  /\ to_datetime Iso.parse_dates (SObj ["2021-01-15"])
     = Ok [Some 1610668800000000000]
  /\ int_cols Sample.one_customer product_cols Sample.one_customer_spends
  /\ int_cols Sample.one_customer cmp_cols Sample.one_customer_flags
  /\ flag_cols Sample.one_customer_flags
  /\ exists d',
      feature_engineering Iso.parse_dates Sample.one_customer = Ok d'
      /\ getitem d' "Campaign_Accepted_Count" = Ok (SInt [2]).
Proof.
  assert (H1 : lookup "Dt_Customer" (columns Sample.one_customer)
               = Some (SObj ["2021-01-15"])) by reflexivity.
  assert (H2 : to_datetime Iso.parse_dates (SObj ["2021-01-15"])
               = Ok [Some 1610668800000000000]) by (vm_compute; reflexivity).
  assert (H3 : int_cols Sample.one_customer product_cols
                 Sample.one_customer_spends) by int_cols_by_computation.
  assert (H4 : int_cols Sample.one_customer cmp_cols
                 Sample.one_customer_flags) by int_cols_by_computation.
  assert (H5 : flag_cols Sample.one_customer_flags)
    by (repeat constructor; auto).
  repeat (split; [assumption|]).
  destruct (campaign_accepted_count_counts Iso.parse_dates
              _ _ _ _ _ H1 H2 H3 H4 H5)
    as (d' & count & Hfe & Hget & Hlen & Hnth).
  exists d'. split; [exact Hfe|]. rewrite Hget.
  destruct count as [|x [|y rest]]; try discriminate Hlen.
  destruct (Hnth 0%nat ltac:(simpl; lia)) as [E _]. simpl in E.
  now rewrite E.
Defined.

End Derivation.

(* ================================================================= *)
(** ** Sorting without repetition, mode and group-by *)

Module SortFacts.

Import Pd Schema PdFacts.

Section Order.
Context {A : Type} (cmp : A -> A -> comparison) (lt : A -> A -> Prop).
Hypothesis cmp_eq : forall x y, cmp x y = Eq -> x = y.
Hypothesis cmp_lt : forall x y, cmp x y = Lt -> lt x y.
Hypothesis cmp_gt : forall x y, cmp x y = Gt -> lt y x.
Hypothesis lt_trans : forall x y z, lt x y -> lt y z -> lt x z.

Lemma In_insert_uniq x z l :
  In z (insert_uniq cmp x l) <-> z = x \/ In z l.
Proof.
  induction l as [|y l IH]; simpl.
  - intuition.
  - destruct (cmp x y) eqn:E; simpl.
    + apply cmp_eq in E. subst. intuition.
    + intuition.
    + rewrite IH. intuition.
Qed.

Lemma In_sort_uniq z l : In z (sort_uniq cmp l) <-> In z l.
Proof.
  induction l as [|x l IH]; simpl; [tauto|].
  unfold sort_uniq in *. rewrite In_insert_uniq, IH. intuition.
Qed.

Lemma insert_uniq_sorted x l :
  StronglySorted lt l -> StronglySorted lt (insert_uniq cmp x l).
Proof.
  induction 1 as [|y l Hs IH Hall]; simpl.
  - repeat constructor.
  - destruct (cmp x y) eqn:E.
    + now constructor.
    + apply cmp_lt in E. constructor; [now constructor|].
      constructor; [exact E|].
      rewrite Forall_forall in Hall |- *. eauto.
    + apply cmp_gt in E. constructor; [exact IH|].
      rewrite Forall_forall in Hall |- *.
      intros z Hz. apply In_insert_uniq in Hz. destruct Hz; subst; auto.
Qed.

Lemma sort_uniq_sorted l : StronglySorted lt (sort_uniq cmp l).
Proof.
  induction l as [|x l IH]; simpl; [constructor|].
  now apply insert_uniq_sorted.
Qed.

(** The head of a sorted list is below every other member. *)
Lemma sorted_head_least x l z :
  StronglySorted lt (x :: l) -> In z (x :: l) -> z = x \/ lt x z.
Proof.
  intros Hs [Hz|Hz]; [now left|right].
  inversion Hs as [|? ? _ Hall]; subst.
  rewrite Forall_forall in Hall. auto.
Qed.
End Order.

(** *** The two orders the script sorts by *)

Lemma Z_compare_eq x y : Z.compare x y = Eq -> x = y.
Proof. apply Z.compare_eq. Qed.

Lemma Z_compare_lt x y : Z.compare x y = Lt -> x < y.
Proof. now rewrite Z.compare_lt_iff. Qed.

Lemma Z_compare_gt x y : Z.compare x y = Gt -> y < x.
Proof. rewrite Z.compare_gt_iff. lia. Qed.

Lemma key_compare_eq a b : key_compare a b = Eq -> a = b.
Proof.
  destruct a as [y1 m1], b as [y2 m2]. unfold key_compare; simpl.
  destruct (Z.compare y1 y2) eqn:E; try discriminate.
  intros H. apply Z.compare_eq in E, H. now subst.
Qed.

Lemma key_compare_lt a b : key_compare a b = Lt -> chrono_lt a b.
Proof.
  destruct a as [y1 m1], b as [y2 m2]. unfold key_compare, chrono_lt; simpl.
  destruct (Z.compare y1 y2) eqn:E; try discriminate; intros H.
  - apply Z.compare_eq in E. apply Z_compare_lt in H. auto.
  - apply Z_compare_lt in E. auto.
Qed.

Lemma key_compare_gt a b : key_compare a b = Gt -> chrono_lt b a.
Proof.
  destruct a as [y1 m1], b as [y2 m2]. unfold key_compare, chrono_lt; simpl.
  destruct (Z.compare y1 y2) eqn:E; try discriminate; intros H.
  - apply Z.compare_eq in E. apply Z_compare_gt in H. auto.
  - apply Z_compare_gt in E. auto.
Qed.

Lemma chrono_lt_trans a b c : chrono_lt a b -> chrono_lt b c -> chrono_lt a c.
Proof. unfold chrono_lt. lia. Qed.

Lemma same_key_in_period g k v :
  same key_compare g k = in_period g (k, v).
Proof.
  destruct g as [y m], k as [y' m'].
  unfold same, key_compare, in_period; simpl.
  rewrite (Z.eqb_sym y' y), (Z.eqb_sym m' m), !Z.eqb_compare.
  destruct (Z.compare y y'); destruct (Z.compare m m'); reflexivity.
Qed.

(** Selecting by a mask computed from the keys is filtering the rows. *)
Lemma select_group g keys (vs : list Z) :
  select (group_mask keys g) vs
  = map snd (filter (in_period g) (combine keys vs)).
Proof.
  unfold group_mask. revert vs.
  induction keys as [|k keys IH]; intros [|v vs]; cbn [map select combine filter];
    auto.
  rewrite <- same_key_in_period.
  destruct (same key_compare g k); cbn [map]; now rewrite IH.
Qed.

(** *** Frequencies *)

Lemma occurrences_count x l :
  occurrences Z.compare x l = count_occ Z.eq_dec l x.
Proof.
  unfold occurrences. induction l as [|y l IH]; simpl; auto.
  unfold same at 1. destruct (Z.compare_spec x y); destruct (Z.eq_dec y x);
    subst; simpl; try lia; auto.
Qed.

Lemma max_occurrences_upper (f : Z -> nat) l x :
  In x l -> (f x <= fold_right Nat.max 0 (map f l))%nat.
Proof.
  induction l as [|y l IH]; simpl; [tauto|].
  intros [->|H]; [lia|]. specialize (IH H). lia.
Qed.

Lemma max_occurrences_attained (f : Z -> nat) l :
  l <> [] -> exists x, In x l /\ f x = fold_right Nat.max 0%nat (map f l).
Proof.
  induction l as [|y l IH]; [congruence|]. intros _. simpl.
  destruct l as [|z l].
  - exists y. simpl. split; auto. lia.
  - destruct (IH ltac:(discriminate)) as (x & Hin & Hx).
    destruct (Nat.le_ge_cases (f y) (fold_right Nat.max 0%nat (map f (z :: l)))).
    + exists x. split; [now right|]. lia.
    + exists y. split; [now left|]. lia.
Qed.

End SortFacts.

(* ================================================================= *)
(** ** Aggregates *)

Module Aggregates.

Import Pd App Schema PdFacts SortFacts.

(** The modes of a non-empty int column: the head is a most frequent
    value, and the least of them. *)
Lemma modes_head ages :
  ages <> [] ->
  exists v rest,
    modes Z.compare ages = v :: rest
    /\ In v ages
    /\ (forall w, (count_occ Z.eq_dec ages w <= count_occ Z.eq_dec ages v)%nat)
    /\ (forall w, count_occ Z.eq_dec ages w = count_occ Z.eq_dec ages v ->
                  v <= w).
Proof.
  intros Hne. unfold modes.
  set (occ := fun x => occurrences Z.compare x ages).
  set (best := max_occurrences Z.compare ages).
  set (cand := filter (fun x => Nat.eqb (occ x) best) ages).
  assert (Hcand : forall x, In x cand <-> In x ages /\ occ x = best).
  { intros x. subst cand. rewrite filter_In, Nat.eqb_eq. tauto. }
  assert (Hsorted : StronglySorted Z.lt (sort_uniq Z.compare cand))
    by (apply sort_uniq_sorted;
        eauto using Z_compare_eq, Z_compare_lt, Z_compare_gt, Z.lt_trans).
  assert (Hin : forall x, In x (sort_uniq Z.compare cand) <-> In x cand)
    by (intros x; apply In_sort_uniq; apply Z_compare_eq).
  destruct (max_occurrences_attained occ ages Hne) as (x & Hx & Hmax).
  fold (max_occurrences Z.compare ages) in Hmax. fold best in Hmax.
  assert (Hx' : In x (sort_uniq Z.compare cand))
    by (apply Hin, Hcand; auto).
  destruct (sort_uniq Z.compare cand) as [|v rest] eqn:E; [contradiction|].
  exists v, rest. split; [exact E|].
  assert (Hv : In v ages /\ occ v = best)
    by (apply Hcand, Hin; now left).
  destruct Hv as [Hv Hvbest].
  assert (Hocc : forall w, count_occ Z.eq_dec ages w = occ w)
    by (intros w; subst occ; simpl; now rewrite occurrences_count).
  assert (Hle : forall w, (count_occ Z.eq_dec ages w <= best)%nat).
  { intros w. destruct (in_dec Z.eq_dec w ages) as [Hw|Hw].
    - rewrite Hocc. subst best. unfold max_occurrences.
      now apply (max_occurrences_upper occ).
    - apply (count_occ_not_In Z.eq_dec) in Hw. lia. }
  split; [exact Hv|]. split.
  - intros w. rewrite (Hocc v), Hvbest. apply Hle.
  - intros w Hw.
    assert (Hwin : In w ages).
    { apply (count_occ_In Z.eq_dec). rewrite Hw.
      now apply (count_occ_In Z.eq_dec). }
    assert (Hwc : In w (v :: rest)).
    { apply Hin, Hcand. split; [exact Hwin|].
      rewrite <- Hocc, Hw, Hocc. exact Hvbest. }
    destruct (sorted_head_least Z.lt v rest w Hsorted Hwc); lia.
Qed.

(** C8.  For a non-empty int age column, the most-common-age answer is a
    value of the column that no value outnumbers and that is the least of
    the values as frequent as it. *)
Theorem most_common_age_lowest parse_dates today d o ages :
  lookup "age" (columns d) = Some (SInt ages) ->
  ages <> [] ->
  exists v,
    fst (answer parse_dates today MostCommonAge (mkEnv d o))
    = Ok (Success [VScalar (ScInt v)])
    /\ In v ages
    /\ (forall w, (count_occ Z.eq_dec ages w <= count_occ Z.eq_dec ages v)%nat)
    /\ (forall w, count_occ Z.eq_dec ages w = count_occ Z.eq_dec ages v ->
                  v <= w).
Proof.
  intros Hage Hne.
  destruct (modes_head ages Hne) as (v & rest & Hm & Hin & Hmost & Hleast).
  exists v. split; [|auto].
  unfold answer, bindM, get_df, lift, ret, getitem. cbn [df fst].
  rewrite Hage. unfold mode. rewrite Hm. reflexivity.
Qed.

(** With ages 30, 25, 41, 30, 25 the answer is 25. *)
Lemma most_common_age_tie :
  lookup "age" (columns Sample.tied_ages) = Some (SInt [30; 25; 41; 30; 25])
  /\ [30; 25; 41; 30; 25] <> []
  /\ fst (answer Iso.parse_dates 0 MostCommonAge
            (mkEnv Sample.tied_ages None))
     = Ok (Success [VScalar (ScInt 25)]).
Proof.
  split; [reflexivity|]. split; [discriminate|].
  destruct (most_common_age_lowest Iso.parse_dates 0 Sample.tied_ages None
              [30; 25; 41; 30; 25] eq_refl ltac:(discriminate))
    as (v & Hans & _ & _ & _).
  rewrite Hans. vm_compute in Hans. symmetry. exact Hans.
Defined.

(** C7.  The spend-over-time table has one row per (year, month) that
    occurs among the rows, in calendar order and without repetition, and no
    other row; each row carries the total spend, as an int64, of the
    customers who joined in that month. *)
Theorem spend_over_time_periods d ys ms vs :
  lookup "Join_Year" (columns d) = Some (SInt ys) ->
  lookup "Join_Month" (columns d) = Some (SInt ms) ->
  lookup "Total_Spend" (columns d) = Some (SInt vs) ->
  exists periods,
    spend_over_time d
    = Ok (mkDF (List.length periods)
            [("Join_Year", SInt (map fst periods));
             ("Join_Month", SInt (map snd periods));
             ("Total_Spend",
              SInt (map (fun p => wrap64 (period_total (period_rows ys ms vs) p))
                        periods))])
    /\ StronglySorted chrono_lt periods
    /\ (forall p, In p periods <-> In p (combine ys ms)).
Proof.
  intros Hy Hm Hv.
  exists (sort_uniq key_compare (combine ys ms)). split; [|split].
  - unfold spend_over_time, groupby_sum, getitem.
    rewrite Hy, Hm, Hv. cbn [bind].
    assert (E : forall l,
               map (fun g => isum (select (group_mask (combine ys ms) g) vs)) l
               = map (fun g => wrap64 (period_total (period_rows ys ms vs) g))
                     l);
      [|now rewrite E].
    intros l. apply map_ext. intros g.
    unfold isum, period_total, period_rows. now rewrite select_group.
  - apply sort_uniq_sorted;
      eauto using key_compare_eq, key_compare_lt, key_compare_gt,
                  chrono_lt_trans.
  - intros p. apply In_sort_uniq, key_compare_eq.
Qed.

(** Two customers joining in January 2021 (100, 200) and one in March 2021
    (50): two rows, January with 300 and then March with 50, nothing for
    February. *)
Lemma spend_over_time_scenario :
  lookup "Join_Year" (columns Sample.three_joins)
    = Some (SInt [2021; 2021; 2021])
  /\ lookup "Join_Month" (columns Sample.three_joins) = Some (SInt [3; 1; 1])
  /\ lookup "Total_Spend" (columns Sample.three_joins)
     = Some (SInt [50; 100; 200])
  /\ (exists periods,
        spend_over_time Sample.three_joins
        = Ok (mkDF (List.length periods)
                [("Join_Year", SInt (map fst periods));
                 ("Join_Month", SInt (map snd periods));
                 ("Total_Spend",
                  SInt (map (fun p =>
                               wrap64 (period_total
                                         (period_rows [2021; 2021; 2021]
                                                      [3; 1; 1] [50; 100; 200])
                                         p))
                            periods))])
        /\ StronglySorted chrono_lt periods
        /\ (forall p, In p periods
                      <-> In p (combine [2021; 2021; 2021] [3; 1; 1])))
  /\ spend_over_time Sample.three_joins
     = Ok (mkDF 2 [("Join_Year", SInt [2021; 2021]);
                   ("Join_Month", SInt [1; 3]);
                   ("Total_Spend", SInt [300; 50])]).
Proof.
  repeat (split; [reflexivity|]).
  split; [|vm_compute; reflexivity].
  exact (spend_over_time_periods Sample.three_joins
           [2021; 2021; 2021] [3; 1; 1] [50; 100; 200]
           eq_refl eq_refl eq_refl).
Defined.

End Aggregates.

(* ================================================================= *)
(** ** Range filters *)

Module Filter.

Import Pd App Schema PdFacts.

Lemma compare_int_length pz pq s k m :
  compare_int pz pq s k = Ok m -> List.length m = size s.
Proof.
  destruct s as [xs|xs|[|x xs]|xs]; simpl; intros H; inversion H; subst;
    now rewrite ?length_map.
Qed.

Lemma mask_and_all m1 m2 :
  List.length m1 = List.length m2 ->
  Forall (eq true) m1 -> Forall (eq true) m2 ->
  Forall (eq true) (mask_and m1 m2) /\ List.length (mask_and m1 m2) = List.length m1.
Proof.
  revert m2. induction m1 as [|b m1 IH]; intros [|c m2] Hl H1 H2;
    simpl in *; try discriminate; auto.
  assert (Hl' : List.length m1 = List.length m2) by lia.
  destruct (IH m2 Hl' (Forall_inv_tail H1) (Forall_inv_tail H2)) as [Ha Hb].
  apply Forall_inv in H1, H2. subst b c.
  split; [now constructor|]. now rewrite Hb.
Qed.

Lemma count_true_all m : Forall (eq true) m -> count_true m = List.length m.
Proof.
  unfold count_true. induction 1 as [|b m Hb _ IH]; simpl; auto.
  subst. simpl. now rewrite IH.
Qed.

Lemma select_all {A} m (xs : list A) :
  Forall (eq true) m -> List.length xs = List.length m -> select m xs = xs.
Proof.
  intros H. revert xs. induction H as [|b m Hb _ IH]; intros [|x xs] Hl;
    simpl in *; try discriminate; auto.
  subst. f_equal. apply IH. lia.
Qed.

Lemma select_none {A} m (xs : list A) :
  count_true m = 0%nat -> select m xs = [].
Proof.
  unfold count_true. revert xs.
  induction m as [|b m IH]; intros [|x xs] H; simpl in *; auto.
  destruct b; simpl in H; [discriminate|auto].
Qed.

Lemma select_length {A} m (xs : list A) :
  List.length xs = List.length m -> List.length (select m xs) = count_true m.
Proof.
  unfold count_true. revert xs.
  induction m as [|b m IH]; intros [|x xs] H; simpl in *; try discriminate; auto.
  destruct b; simpl; rewrite IH; auto.
Qed.

Lemma select_series_all m s :
  Forall (eq true) m -> size s = List.length m -> select_series m s = s.
Proof.
  intros Hm Hs. destruct s; simpl in *; now rewrite select_all.
Qed.

Lemma lookup_getmask d m c :
  lookup c (columns (getmask d m))
  = option_map (select_series m) (lookup c (columns d)).
Proof.
  unfold getmask; simpl. induction (columns d) as [|[k s] cols IH]; simpl; auto.
  destruct (String.eqb k c); auto.
Qed.

(** A mask that holds on every row selects the whole frame. *)
Lemma getmask_all d m :
  wf d -> List.length m = nrows d -> Forall (eq true) m -> getmask d m = d.
Proof.
  intros Hwf Hl Hm. destruct d as [n cols]. unfold getmask, wf in *.
  simpl in *. rewrite count_true_all, Hl by assumption. f_equal.
  induction Hwf as [|[k s] cols Hs _ IH]; simpl; auto.
  rewrite select_series_all, IH; auto. simpl in Hs. lia.
Qed.

(** [between] with bounds that every cell satisfies is the identity. *)
Lemma between_all d c s r m1 m2 :
  wf d ->
  lookup c (columns d) = Some s ->
  ge s (fst r) = Ok m1 -> le s (snd r) = Ok m2 ->
  Forall (eq true) m1 -> Forall (eq true) m2 ->
  between d c r = Ok d.
Proof.
  intros Hwf Hc H1 H2 A1 A2. unfold between, getitem. rewrite Hc. cbn [bind].
  rewrite H1. cbn [bind]. rewrite H2. cbn [bind]. f_equal.
  assert (Hs : size s = nrows d).
  { unfold wf in Hwf. rewrite Forall_forall in Hwf.
    clear -Hc Hwf. induction (columns d) as [|[k v] cols IH]; [discriminate|].
    simpl in Hc. destruct (String.eqb k c).
    - inversion Hc; subst. apply (Hwf (k, s)). now left.
    - apply IH; auto. intros x Hx. apply Hwf. now right. }
  apply compare_int_length in H1, H2.
  destruct (mask_and_all m1 m2) as [Ha Hb]; auto; try congruence.
  apply getmask_all; auto. congruence.
Qed.

Lemma fold_min_le x xs :
  fold_right Z.min x xs <= x /\ Forall (fun y => fold_right Z.min x xs <= y) xs.
Proof.
  induction xs as [|y xs [IH1 IH2]]; simpl; [split; [lia|constructor]|].
  split; [lia|]. constructor; [lia|].
  eapply Forall_impl; [|exact IH2]. simpl. intros; lia.
Qed.

Lemma fold_max_ge x xs :
  x <= fold_right Z.max x xs /\ Forall (fun y => y <= fold_right Z.max x xs) xs.
Proof.
  induction xs as [|y xs [IH1 IH2]]; simpl; [split; [lia|constructor]|].
  split; [lia|]. constructor; [lia|].
  eapply Forall_impl; [|exact IH2]. simpl. intros; lia.
Qed.

Lemma Qmin_le a b : (Qmin a b <= a)%Q /\ (Qmin a b <= b)%Q.
Proof.
  unfold Qmin. destruct (Qle_bool a b) eqn:E.
  - split; [apply Qle_refl|now apply Qle_bool_iff].
  - split; [|apply Qle_refl].
    apply Qlt_le_weak, Qnot_le_lt. rewrite <- Qle_bool_iff. congruence.
Qed.

Lemma Qmax_ge a b : (a <= Qmax a b)%Q /\ (b <= Qmax a b)%Q.
Proof.
  unfold Qmax. destruct (Qle_bool a b) eqn:E.
  - split; [now apply Qle_bool_iff|apply Qle_refl].
  - split; [apply Qle_refl|].
    apply Qlt_le_weak, Qnot_le_lt. rewrite <- Qle_bool_iff. congruence.
Qed.

Lemma fold_Qmin_le q qs :
  Forall (fun y => (fold_right Qmin q qs <= y)%Q) (q :: qs).
Proof.
  induction qs as [|y qs IH]; simpl.
  - constructor; [apply Qle_refl|constructor].
  - destruct (Qmin_le y (fold_right Qmin q qs)) as [A B].
    assert (W : forall z, (fold_right Qmin q qs <= z)%Q ->
                          (Qmin y (fold_right Qmin q qs) <= z)%Q)
      by (intros z Hz; eapply Qle_trans; eauto).
    inversion IH as [|? ? Hq Hqs]; subst.
    constructor; [auto|]. constructor; [exact A|].
    eapply Forall_impl; [|exact Hqs]. exact W.
Qed.

Lemma fold_Qmax_ge q qs :
  Forall (fun y => (y <= fold_right Qmax q qs)%Q) (q :: qs).
Proof.
  induction qs as [|y qs IH]; simpl.
  - constructor; [apply Qle_refl|constructor].
  - destruct (Qmax_ge y (fold_right Qmax q qs)) as [A B].
    assert (W : forall z, (z <= fold_right Qmax q qs)%Q ->
                          (z <= Qmax y (fold_right Qmax q qs))%Q)
      by (intros z Hz; eapply Qle_trans; eauto).
    inversion IH as [|? ? Hq Hqs]; subst.
    constructor; [auto|]. constructor; [exact A|].
    eapply Forall_impl; [|exact Hqs]. exact W.
Qed.

Lemma dropna_no_missing xs :
  Forall (fun x => x <> NaN) xs -> map Fin (dropna xs) = xs.
Proof.
  induction 1 as [|x xs Hx _ IH]; simpl; auto.
  destruct x as [|q]; [congruence|]. simpl. now rewrite IH.
Qed.


(** Every cell of a column without missing cells lies between its least
    and greatest cell. *)
Lemma cells_within_extremes s smin smax lo hi :
  numeric s -> no_missing s ->
  min s = Ok smin -> max s = Ok smax ->
  whole smin lo -> whole smax hi ->
  exists m1 m2,
    ge s lo = Ok m1 /\ le s hi = Ok m2
    /\ Forall (eq true) m1 /\ Forall (eq true) m2.
Proof.
  intros Hnum Hnm Hmin Hmax Wlo Whi.
  destruct s as [[|x xs]|xs|xs|xs]; simpl in *; try contradiction.
  - inversion Hmin; subst. contradiction.
  - inversion Hmin; inversion Hmax; subst. simpl in Wlo, Whi. subst.
    destruct (fold_min_le x xs) as [L1 L2].
    destruct (fold_max_ge x xs) as [U1 U2].
    do 2 eexists. split; [reflexivity|]. split; [reflexivity|]. split.
    + simpl. constructor; [symmetry; apply Z.geb_le; lia|].
      rewrite Forall_map. eapply Forall_impl; [|exact L2].
      simpl. intros a Ha. symmetry. apply Z.geb_le. lia.
    + simpl. constructor; [symmetry; apply Z.leb_le; lia|].
      rewrite Forall_map. eapply Forall_impl; [|exact U2].
      simpl. intros a Ha. symmetry. now apply Z.leb_le.
  - pose proof (dropna_no_missing xs Hnm) as Hxs.
    destruct (dropna xs) as [|q qs];
      [inversion Hmin as [E]; rewrite <- E in Wlo; contradiction|].
    inversion Hmin as [E1]. inversion Hmax as [E2].
    rewrite <- E1 in Wlo. rewrite <- E2 in Whi. simpl in Wlo, Whi.
    do 2 eexists. split; [reflexivity|]. split; [reflexivity|].
    rewrite <- Hxs, !Forall_map. split.
    + eapply Forall_impl; [|exact (fold_Qmin_le q qs)].
      intros a Ha. simpl. unfold Qge_int. symmetry. apply Qle_bool_iff.
      now rewrite <- Wlo.
    + eapply Forall_impl; [|exact (fold_Qmax_ge q qs)].
      intros a Ha. simpl. unfold Qle_int. symmetry. apply Qle_bool_iff.
      now rewrite <- Whi.
Qed.

Lemma slider_bounds_own lo hi :
  lo < hi -> slider_bounds lo hi (lo, hi) = Ok (lo, hi).
Proof.
  intros H. unfold slider_bounds. cbn [fst snd].
  match goal with
  | |- context [Z.ltb ?x ?y] => destruct (Z.ltb_spec x y) as [L|L]
  end; [|lia].
  f_equal. f_equal; lia.
Qed.

Lemma slider_bounds_equal lo :
  slider_bounds lo lo (lo, lo) = Raise StreamlitAPIException.
Proof.
  unfold slider_bounds. cbn [fst snd].
  match goal with
  | |- context [Z.ltb ?x ?y] => destruct (Z.ltb_spec x y) as [L|L]
  end; [lia|reflexivity].
Qed.

(** A slider whose initial range is not a single point can be built
    whatever bounds it is given. *)
Lemma slider_bounds_wide a b v :
  fst v <> snd v -> exists r, slider_bounds a b v = Ok r.
Proof.
  intros H. unfold slider_bounds.
  match goal with
  | |- context [Z.ltb ?x ?y] => destruct (Z.ltb_spec x y) as [L|L]
  end; [eexists; reflexivity|lia].
Qed.




End Filter.

(* ================================================================= *)
(** ** What the tabs do to the frames *)

Module Effects.

Import Pd App Schema PdFacts.

Lemma preserves_ret {A X} (f : Env -> X) (a : A) : preserves f (ret a).
Proof. intros e. reflexivity. Qed.

Lemma preserves_lift {A X} (f : Env -> X) (r : result A) :
  preserves f (lift r).
Proof. intros e. reflexivity. Qed.

Lemma preserves_get_df {X} (f : Env -> X) : preserves f get_df.
Proof. intros e. reflexivity. Qed.

Lemma preserves_get_filtered_df {X} (f : Env -> X) :
  preserves f get_filtered_df.
Proof. intros e. unfold get_filtered_df. now destruct (filtered_df e). Qed.

Lemma preserves_bind {A B X} (f : Env -> X) (m : M A) (k : A -> M B) :
  preserves f m -> (forall a, preserves f (k a)) -> preserves f (bindM m k).
Proof.
  intros Hm Hk e. unfold bindM. specialize (Hm e).
  destruct (m e) as [[a|x] e']; simpl in *; [|exact Hm].
  now rewrite Hk.
Qed.

Lemma set_filtered_df_keeps_df d : preserves df (set_filtered_df d).
Proof. intros e. reflexivity. Qed.

Lemma set_df_keeps_filtered_df d : preserves filtered_df (set_df d).
Proof. intros e. reflexivity. Qed.

Ltac preserve :=
  repeat first
    [ apply preserves_ret
    | apply preserves_lift
    | apply preserves_get_df
    | apply preserves_get_filtered_df
    | apply set_filtered_df_keeps_df
    | apply set_df_keeps_filtered_df
    | apply preserves_bind; [|intros; cbv beta zeta] ].

Lemma tab2_keeps_df r : preserves df (tab2 r).
Proof. unfold tab2, tab2_filter, tab2_kpis. preserve. Qed.

Lemma tab4_keeps_df : preserves df tab4.
Proof. unfold tab4. preserve. Qed.

Section WithParser.

Variable parse_dates : list string -> option Timestamps.

Lemma tab3_keeps_df r p : preserves df (tab3 parse_dates r p).
Proof. unfold tab3. preserve. Qed.

Lemma tab3_keeps_filtered_df r p :
  preserves filtered_df (tab3 parse_dates r p).
Proof. unfold tab3. preserve. Qed.

Lemma answer_keeps_df today q :
  q <> OldVsNew -> preserves df (answer parse_dates today q).
Proof. intros Hq. destruct q; try congruence; unfold answer; preserve. Qed.



Lemma Qgt_int_inject z k : Qgt_int (inject_Z z) k = Z.gtb z k.
Proof.
  unfold Qgt_int, Qle_bool. cbn [Qnum Qden inject_Z].
  rewrite !Z.mul_1_r, Z.gtb_ltb. symmetry. apply Z.ltb_antisym.
Qed.

Lemma Qle_int_inject z k : Qle_int (inject_Z z) k = Z.leb z k.
Proof.
  unfold Qle_int, Qle_bool. cbn [Qnum Qden inject_Z].
  now rewrite !Z.mul_1_r.
Qed.

(** A comparison of the day counts with an int holds on the rows whose
    join date is present and whose count passes it. *)
Lemma compare_days_since pz pq now k ts :
  (forall z, pq (inject_Z z) k = pz z k) ->
  compare_int pz pq (days_since now ts) k
  = Ok (Views.days_mask (fun x => pz x k) now ts).
Proof.
  intros Hq. unfold days_since, dt_field, Views.days_mask.
  destruct (all_present ts) eqn:A; cbn [compare_int]; f_equal.
  - induction ts as [|[t|] ts IH]; [reflexivity| |discriminate A].
    cbn [present map]. f_equal. apply IH. exact A.
  - rewrite map_map. apply map_ext. intros [x|]; [|reflexivity].
    unfold float_of_int. cbn [fcmp]. apply Hq.
Qed.

(** The old-vs-new answer, step by step. *)
Lemma old_vs_new_steps today e :
  answer parse_dates today OldVsNew e
  = match bind (getitem (df e) "Dt_Customer") (to_datetime parse_dates) with
    | Raise x => (Raise x, e)
    | Ok ts =>
        (Ok (Success
               [VInt (mask_sum
                        (Views.days_mask (fun x => Z.gtb x 1000) today ts));
                VInt (mask_sum
                        (Views.days_mask (fun x => Z.leb x 1000) today ts))]),
         mkEnv (setitem (df e) "Customer_Since_Days" (days_since today ts))
               (filtered_df e))
    end.
Proof.
  unfold answer, bindM, get_df, lift, set_df, ret. cbn [df filtered_df].
  destruct (getitem (df e) "Dt_Customer") as [c|x]; [|reflexivity].
  cbn [bind]. destruct (to_datetime parse_dates c) as [ts|x]; [|reflexivity].
  cbn [df]. rewrite getitem_setitem_same. unfold gt, le.
  rewrite (compare_days_since Z.gtb Qgt_int)
    by (intros z; apply Qgt_int_inject).
  rewrite (compare_days_since Z.leb Qle_int)
    by (intros z; apply Qle_int_inject).
  reflexivity.
Qed.

End WithParser.

End Effects.

(* ================================================================= *)
(** ** The table is read, not written; answers and the date *)

Module Purity.

Import Pd App Schema PdFacts Effects.



Section WithParser.

Variable parse_dates : list string -> option Timestamps.
Variable str_contains : Series -> string -> result Mask.

Lemma tab5_keeps_df today q b :
  q <> OldVsNew -> preserves df (tab5 parse_dates today q b).
Proof.
  intros Hq. unfold tab5. destruct b; [|apply preserves_ret].
  apply preserves_bind; [now apply answer_keeps_df|].
  intros a. apply preserves_ret.
Qed.

Lemma tab5_snd today q b e :
  snd (tab5 parse_dates today q b e)
  = if b then snd (answer parse_dates today q e) else e.
Proof.
  unfold tab5, bindM, ret. destruct b; [|reflexivity].
  now destruct (answer parse_dates today q e) as [[a|x] e'].
Qed.

(** C3 (as amended).  The Customer, Spending and Campaigns tabs and every
    answer other than old-vs-new leave the table [df] exactly as it was;
    the old-vs-new answer keeps its rows and every column except
    [Customer_Since_Days], which it sets on the table itself. *)
Theorem table_only_gains_customer_since_days :
  (forall r e, df (snd (tab2 r e)) = df e)
  /\ (forall r p e, df (snd (tab3 parse_dates r p e)) = df e)
  /\ (forall e, df (snd (tab4 e)) = df e)
  /\ (forall today q b e,
        q <> OldVsNew -> df (snd (tab5 parse_dates today q b e)) = df e)
  /\ (forall today b e,
        let d' := df (snd (tab5 parse_dates today OldVsNew b e)) in
        nrows d' = nrows (df e)
        /\ forall c, c <> "Customer_Since_Days" ->
                     getitem d' c = getitem (df e) c).
Proof.
  split; [exact tab2_keeps_df|].
  split; [exact (tab3_keeps_df parse_dates)|].
  split; [exact tab4_keeps_df|].
  split; [intros today q b e Hq; now apply tab5_keeps_df|].
  intros today b e. cbv zeta. rewrite tab5_snd.
  destruct b; [|easy]. rewrite old_vs_new_steps.
  destruct (bind (getitem (df e) "Dt_Customer") (to_datetime parse_dates))
    as [ts|x]; [|easy].
  cbn [snd df]. split; [reflexivity|].
  intros c Hc. apply getitem_setitem_other. congruence.
Qed.








End WithParser.

(** On four customers the most-common-age answer leaves the table as it
    is, and after the old-vs-new answer the age column is what it was. *)
Lemma table_kept_example :
  MostCommonAge <> OldVsNew
  /\ "age" <> "Customer_Since_Days"
  /\ df (snd (tab5 Iso.parse_dates Sample.june_2023 MostCommonAge true
                (mkEnv Sample.four_customers None)))
     = Sample.four_customers
  /\ getitem (df (snd (tab5 Iso.parse_dates Sample.june_2023 OldVsNew true
                         (mkEnv Sample.four_customers None)))) "age"
     = Ok (SInt [25; 30; 35; 40]).
Proof.
  destruct (table_only_gains_customer_since_days Iso.parse_dates)
    as (_ & _ & _ & H4 & H5).
  split; [discriminate|]. split; [discriminate|]. split.
  - exact (H4 Sample.june_2023 MostCommonAge true
              (mkEnv Sample.four_customers None) ltac:(discriminate)).
  - destruct (H5 Sample.june_2023 true (mkEnv Sample.four_customers None))
      as [_ H].
    exact (H "age" ltac:(discriminate)).
Defined.

(** The old-vs-new answer writes to the table: afterwards it has one more
    column than before. *)
Lemma old_vs_new_changes_table :
  df (snd (tab5 Iso.parse_dates Sample.june_2023 OldVsNew true
             (mkEnv Sample.four_customers None)))
  <> df (mkEnv Sample.four_customers None).
Proof.
  intros H.
  apply (f_equal (fun d => List.length (columns d))) in H.
  vm_compute in H. discriminate H.
Qed.



End Purity.

(* ================================================================= *)
(** ** The Customer and Campaigns tabs on a filtered frame *)

Module Tabs.

Import Pd App Schema PdFacts Filter.

Lemma getitems_int d names cols :
  int_cols d names cols ->
  getitems d names = Ok (int_frame (nrows d) names cols).
Proof.
  intros H. unfold getitems. now rewrite (lookup_all_int _ _ _ H).
Qed.

Lemma map_fst_combine (names : list string) (cols : list (list Z)) :
  List.length cols = List.length names ->
  map fst (combine names (map SInt cols)) = names.
Proof.
  revert cols. induction names as [|c names IH]; intros [|xs cols] H;
    simpl in *; try discriminate; auto.
  f_equal. apply IH. lia.
Qed.

Lemma sum_axis0_int_frame n names cols :
  names <> [] -> List.length cols = List.length names ->
  sum_axis0 (int_frame n names cols) = Ok (LInt (label_with isum names cols)).
Proof.
  intros Hne Hl. unfold sum_axis0, int_frame. cbn [columns].
  rewrite int_columns_combine, map_fst_combine by assumption.
  destruct names as [|c names]; [congruence|].
  destruct cols as [|xs cols]; [discriminate|]. reflexivity.
Qed.

Lemma sum_axis1_int_frame n names cols :
  names <> [] -> List.length cols = List.length names ->
  sum_axis1 (int_frame n names cols) = Ok (SInt (irow_sums n cols)).
Proof.
  intros Hne Hl. unfold sum_axis1, int_frame. cbn [columns nrows].
  rewrite int_columns_combine by assumption.
  destruct names as [|c names]; [congruence|].
  destruct cols as [|xs cols]; [discriminate|]. reflexivity.
Qed.

Lemma map_snd_label_with names (cols : list (list Z)) :
  List.length cols = List.length names ->
  map snd (label_with isum names cols) = map isum cols.
Proof.
  revert cols. induction names as [|c names IH]; intros [|xs cols] H;
    simpl in *; try discriminate; auto.
  f_equal. apply IH. lia.
Qed.

(** Int columns stay int columns in the frame a mask selects. *)
Lemma int_cols_getmask d m names cols :
  List.length m = nrows d ->
  int_cols d names cols ->
  int_cols (getmask d m) names (map (@select Z m) cols).
Proof.
  intros Hm. induction 1 as [|c xs names cols [Hl Hn] _ IH]; simpl;
    constructor; auto.
  rewrite lookup_getmask, Hl. simpl. split; [reflexivity|].
  apply select_length. congruence.
Qed.

(** What [between] returns on an int column. *)
Lemma between_int d c xs r :
  lookup c (columns d) = Some (SInt xs) ->
  between d c r
  = Ok (getmask d (mask_and (map (fun x => Z.geb x (fst r)) xs)
                            (map (fun x => Z.leb x (snd r)) xs))).
Proof. intros H. unfold between, getitem. now rewrite H. Qed.

Lemma mask_and_length m1 m2 :
  List.length m1 = List.length m2 ->
  List.length (mask_and m1 m2) = List.length m1.
Proof.
  revert m2. induction m1 as [|b m1 IH]; intros [|c m2] H; simpl in *;
    try discriminate; auto.
Qed.

(** The frame a range filter returns is the selection by some mask. *)
Lemma between_mask d c r f :
  between d c r = Ok f -> exists m, f = getmask d m.
Proof.
  unfold between. destruct (getitem d c) as [s|x]; [|discriminate].
  cbn [bind]. destruct (ge s (fst r)) as [m1|x]; [|discriminate].
  cbn [bind]. destruct (le s (snd r)) as [m2|x]; [|discriminate].
  cbn [bind]. intros H. inversion H. eauto.
Qed.

Lemma select_series_none m s :
  count_true m = 0%nat -> numeric s ->
  select_series m s = SInt [] \/ select_series m s = SFloat [].
Proof.
  intros Hm Hs. destruct s; simpl in *; try contradiction;
    rewrite select_none by assumption; auto.
Qed.

(** On a numeric column, converting the least or greatest cell to an int
    can only fail with [ValueError] (no cell, or none that is a number). *)
Lemma extremum_int_error fz fq s x :
  numeric s -> bind (extremum fz fq s) int = Raise x -> x = ValueError.
Proof.
  destruct s as [[|a xs]|xs|xs|xs]; simpl; try contradiction; intros _ H.
  - now inversion H.
  - discriminate H.
  - destruct (dropna xs); simpl in H; [now inversion H|discriminate H].
Qed.

(** C1 (as amended).  When an age range selects no row, the aggregate
    calls on the selected rows return without raising: the count is 0, and
    the mean income and the response rate are NaN, not zero. *)
Theorem empty_subset_count_zero_mean_rate_nan d r f income cac :
  lookup "Income" (columns d) = Some income -> numeric income ->
  lookup "Campaign_Accepted_Count" (columns d) = Some cac -> numeric cac ->
  between d "age" r = Ok f ->
  nrows f = 0%nat ->
  len f = 0
  /\ bind (getitem f "Income") mean = Ok NaN
  /\ bind (getitem f "Campaign_Accepted_Count") response_rate = Ok NaN.
Proof.
  intros Hinc Ninc Hcac Ncac Hb Hn.
  destruct (between_mask _ _ _ _ Hb) as [m ->].
  assert (Hm : count_true m = 0%nat) by exact Hn.
  split; [unfold len; now rewrite Hn|]. split.
  - unfold getitem. rewrite lookup_getmask, Hinc. cbn [option_map bind].
    destruct (select_series_none m income Hm Ninc) as [E|E]; now rewrite E.
  - unfold getitem. rewrite lookup_getmask, Hcac. cbn [option_map bind].
    destruct (select_series_none m cac Hm Ncac) as [E|E]; now rewrite E.
Qed.

(** Ages 25 to 40 and the range (26, 29): no row is selected. *)
Lemma empty_subset_example :
  lookup "Income" (columns Sample.four_customers)
    = Some (SFloat [Fin 20000; Fin 40000; Fin 60000; Fin 80000])
  /\ numeric (SFloat [Fin 20000; Fin 40000; Fin 60000; Fin 80000])
  /\ lookup "Campaign_Accepted_Count" (columns Sample.four_customers)
     = Some (SInt [2; 0; 0; 2])
  /\ numeric (SInt [2; 0; 0; 2])
  /\ exists f,
       between Sample.four_customers "age" (26, 29) = Ok f
       /\ nrows f = 0%nat
       /\ len f = 0
       /\ bind (getitem f "Income") mean = Ok NaN
       /\ bind (getitem f "Campaign_Accepted_Count") response_rate = Ok NaN.
Proof.
  pose (f := getmask Sample.four_customers [false; false; false; false]).
  assert (Hb : between Sample.four_customers "age" (26, 29) = Ok f)
    by reflexivity.
  split; [reflexivity|]. split; [exact I|].
  split; [reflexivity|]. split; [exact I|].
  exists f. split; [exact Hb|]. split; [reflexivity|].
  exact (empty_subset_count_zero_mean_rate_nan
           Sample.four_customers (26, 29) f _ _
           eq_refl I eq_refl I Hb eq_refl).
Defined.

(** The Average Income card converts the mean with [int]: on an empty
    selection the cards raise [ValueError], and so does the Customer tab
    once its slider is built. *)
Lemma empty_subset_kpis_raise d o r f age income lo hi :
  lookup "age" (columns d) = Some age -> numeric age ->
  lookup "Income" (columns d) = Some income -> numeric income ->
  bind (min age) int = Ok lo -> bind (max age) int = Ok hi -> lo < hi ->
  between d "age" r = Ok f ->
  nrows f = 0%nat ->
  fst (tab2_kpis (mkEnv d (Some f))) = Raise ValueError
  /\ fst (tab2 (Some r) (mkEnv d o)) = Raise ValueError.
Proof.
  intros Hage Nage Hinc Ninc Elo Ehi Hlt Hb Hn.
  destruct (between_mask _ _ _ _ Hb) as [m ->].
  assert (Hm : count_true m = 0%nat) by exact Hn.
  assert (Gi : getitem (getmask d m) "Income" = Ok (select_series m income))
    by (unfold getitem; now rewrite lookup_getmask, Hinc).
  assert (Mi : mean (select_series m income) = Ok NaN)
    by (destruct (select_series_none m income Hm Ninc) as [E|E];
        now rewrite E).
  assert (K : fst (tab2_kpis (mkEnv d (Some (getmask d m))))
              = Raise ValueError).
  { unfold tab2_kpis, bindM, get_filtered_df, lift. cbn [filtered_df].
    rewrite Gi. cbn [bind]. now rewrite Mi. }
  split; [exact K|].
  unfold tab2, tab2_filter, bindM, get_df, lift, set_filtered_df, getitem.
  cbn [df slider]. rewrite Hage. cbn [bind] in Elo, Ehi |- *.
  rewrite Elo, Ehi, (Filter.slider_bounds_own lo hi Hlt), Hb. cbn [df].
  exact K.
Qed.

(** An age range between two observed ages: the subset is empty, its
    response rate is NaN and not zero, and the KPI cards raise. *)
Lemma empty_age_range_raises :
  bind (between Sample.four_customers "age" (26, 29)) (fun f => Ok (len f))
  = Ok 0
  /\ bind (between Sample.four_customers "age" (26, 29))
          (fun f => bind (getitem f "Campaign_Accepted_Count") response_rate)
     = Ok NaN
  /\ fst (tab2 (Some (26, 29)) (mkEnv Sample.four_customers None))
     = Raise ValueError.
Proof.
  repeat (split; [vm_compute; reflexivity|]). vm_compute; reflexivity.
Qed.

Lemma age_mask xs lo hi :
  mask_and (map (fun x => Z.geb x lo) xs) (map (fun x => Z.leb x hi) xs)
  = map (Views.in_range lo hi) xs.
Proof.
  induction xs as [|x xs IH]; [reflexivity|].
  cbn [map mask_and]. rewrite IH. unfold Views.in_range at 1.
  now rewrite Z.geb_leb.
Qed.

(** C10.  The Campaigns tab computes the per-campaign totals of its chart
    over the whole table: whatever rows of the table the filtered frame
    holds, the totals are the column sums of the table, while the two KPI
    cards count over the selected rows only.  The rows are those the
    Customer tab binds: once its slider is built, which needs two
    different ages, the rows whose age lies in the slider's range. *)
Theorem campaign_totals_ignore_age_filter d o user ages flags chans cac :
  lookup "age" (columns d) = Some (SInt ages) ->
  ages <> [] ->
  List.length ages = nrows d ->
  int_cols d cmp_cols flags ->
  int_cols d purchase_channels chans ->
  lookup "Campaign_Accepted_Count" (columns d) = Some (SInt cac) ->
  List.length cac = nrows d ->
  (forall m, List.length m = nrows d ->
     exists out e',
       tab4 (mkEnv d (Some (getmask d m))) = (Ok out, e')
       /\ campaign_totals out = LInt (label_with isum cmp_cols flags)
       /\ campaign_kpis out
          = [("Accepted Campaigns",
              VInt (isum (map isum (map (@select Z m) flags))));
             ("Responded Customers",
              VInt (Z.of_nat (count_true
                                (map (fun x => Z.gtb x 0) (select m cac)))))])
  /\ (forall lo hi,
        min (SInt ages) = Ok (ScInt lo) ->
        max (SInt ages) = Ok (ScInt hi) ->
        lo < hi ->
        let r := slider (lo, hi) user in
        tab2_filter user (mkEnv d o)
        = (Ok tt,
           mkEnv d (Some (getmask d (map (Views.in_range (fst r) (snd r))
                                         ages))))).
Proof.
  intros Hage Hne Hlen Hflags Hchans Hcac Hclen. split.
  - intros m Hm.
    set (f := getmask d m).
    pose proof (int_cols_getmask d m _ _ Hm Hflags) as Fflags.
    pose proof (int_cols_getmask d m _ _ Hm Hchans) as Fchans.
    assert (Gc : forall k s, k <> "Campaign_Accepted_Count" ->
                 getitem (setitem f k s) "Campaign_Accepted_Count"
                 = Ok (SInt (select m cac))).
    { intros k s Hk. rewrite getitem_setitem_other by assumption.
      unfold getitem, f. now rewrite lookup_getmask, Hcac. }
    assert (Gc0 : getitem f "Campaign_Accepted_Count"
                  = Ok (SInt (select m cac)))
      by (unfold getitem, f; now rewrite lookup_getmask, Hcac).
    eexists _, _. split; [|split].
    + unfold tab4, bindM, get_filtered_df, get_df, lift,
        set_filtered_df, ret. cbn [filtered_df df].
      rewrite (getitems_int f cmp_cols _ Fflags).
      rewrite sum_axis0_int_frame
        by (try discriminate; rewrite length_map;
            eapply int_cols_length; eauto).
      cbn [lsum int]. rewrite Gc0. cbn [gt compare_int].
      rewrite (getitems_int d cmp_cols _ Hflags).
      rewrite sum_axis0_int_frame
        by (try discriminate; eapply int_cols_length; eauto).
      rewrite (getitems_int f purchase_channels _ Fchans).
      rewrite sum_axis0_int_frame
        by (try discriminate; rewrite length_map;
            eapply int_cols_length; eauto).
      rewrite sum_axis1_int_frame
        by (try discriminate; rewrite length_map;
            eapply int_cols_length; eauto).
      rewrite Gc by discriminate. cbn [apply_yes_no]. reflexivity.
    + reflexivity.
    + cbn [campaign_kpis].
      rewrite map_snd_label_with
        by (rewrite length_map; eapply int_cols_length; eauto).
      reflexivity.
  - intros lo hi Hmin Hmax Hlt. cbv zeta.
    unfold tab2_filter, bindM, get_df, lift, set_filtered_df, getitem.
    cbn [df]. rewrite Hage. cbn [bind]. rewrite Hmin, Hmax.
    cbn [bind int]. rewrite (Filter.slider_bounds_own lo hi Hlt).
    rewrite (between_int d "age" ages _ Hage), age_mask. reflexivity.
Qed.

(** Four customers and the age range (30, 40): the chart totals count the
    campaign acceptances of all four customers, the cards those of the
    three selected ones. *)
Lemma campaign_totals_example :
  lookup "age" (columns Sample.four_customers) = Some (SInt [25; 30; 35; 40])
  /\ [25; 30; 35; 40] <> []
  /\ List.length [25; 30; 35; 40] = nrows Sample.four_customers
  /\ int_cols Sample.four_customers cmp_cols
       [[1; 0; 0; 0]; [0; 0; 0; 0]; [1; 0; 0; 1]; [0; 0; 0; 0]; [0; 0; 0; 1]]
  /\ int_cols Sample.four_customers purchase_channels
       [[1; 2; 3; 4]; [0; 0; 1; 1]; [5; 5; 5; 5]]
  /\ lookup "Campaign_Accepted_Count" (columns Sample.four_customers)
     = Some (SInt [2; 0; 0; 2])
  /\ List.length [2; 0; 0; 2] = nrows Sample.four_customers
  /\ List.length [false; true; true; true] = nrows Sample.four_customers
  /\ min (SInt [25; 30; 35; 40]) = Ok (ScInt 25)
  /\ max (SInt [25; 30; 35; 40]) = Ok (ScInt 40)
  /\ 25 < 40
  /\ tab2_filter (Some (30, 40)) (mkEnv Sample.four_customers None)
     = (Ok tt, mkEnv Sample.four_customers
                     (Some (getmask Sample.four_customers
                                    [false; true; true; true])))
  /\ exists out e',
       tab4 (mkEnv Sample.four_customers
                   (Some (getmask Sample.four_customers
                                  [false; true; true; true])))
       = (Ok out, e')
       /\ campaign_totals out
          = LInt [("AcceptedCmp1", 1); ("AcceptedCmp2", 0);
                  ("AcceptedCmp3", 2); ("AcceptedCmp4", 0);
                  ("AcceptedCmp5", 1)]
       /\ campaign_kpis out
          = [("Accepted Campaigns", VInt 2);
             ("Responded Customers", VInt 1)].
Proof.
  assert (H4 : int_cols Sample.four_customers cmp_cols
                 [[1; 0; 0; 0]; [0; 0; 0; 0]; [1; 0; 0; 1]; [0; 0; 0; 0];
                  [0; 0; 0; 1]])
    by (repeat (constructor; [split; reflexivity|]); constructor).
  assert (H5 : int_cols Sample.four_customers purchase_channels
                 [[1; 2; 3; 4]; [0; 0; 1; 1]; [5; 5; 5; 5]])
    by (repeat (constructor; [split; reflexivity|]); constructor).
  split; [reflexivity|]. split; [discriminate|]. split; [reflexivity|].
  split; [exact H4|]. split; [exact H5|].
  split; [reflexivity|]. split; [reflexivity|]. split; [reflexivity|].
  split; [reflexivity|]. split; [reflexivity|]. split; [reflexivity|].
  destruct (campaign_totals_ignore_age_filter Sample.four_customers None
              (Some (30, 40)) [25; 30; 35; 40] _ _ [2; 0; 0; 2]
              eq_refl ltac:(discriminate) eq_refl H4 H5 eq_refl eq_refl)
    as (A & B).
  split; [exact (B 25 40 eq_refl eq_refl eq_refl)|].
  destruct (A [false; true; true; true] eq_refl) as (out & e' & R & T & K).
  exists out, e'. split; [exact R|]. split; [exact T|].
  rewrite K. vm_compute. reflexivity.
Defined.

(** The two ranges (30, 40) and (30, 35) give the same chart totals and
    different KPI cards. *)
Lemma campaign_totals_two_ranges :
  let page r :=
    fst (bindM (tab2_filter (Some r)) (fun _ => tab4)
               (mkEnv Sample.four_customers None)) in
  bind (page (30, 40)) (fun out => Ok (campaign_totals out))
  = bind (page (30, 35)) (fun out => Ok (campaign_totals out))
  /\ bind (page (30, 40)) (fun out => Ok (campaign_kpis out))
     = Ok [("Accepted Campaigns", VInt 2); ("Responded Customers", VInt 1)]
  /\ bind (page (30, 35)) (fun out => Ok (campaign_kpis out))
     = Ok [("Accepted Campaigns", VInt 0); ("Responded Customers", VInt 0)].
Proof. cbv zeta. split; [|split]; vm_compute; reflexivity. Qed.

End Tabs.

(* ================================================================= *)
(** ** Loading *)

Module Loading.

Import Pd App Schema PdFacts Derivation.

Lemma lookup_all_missing names cols c :
  In c names -> lookup c cols = None ->
  exists c', In c' names /\ lookup_all names cols = Raise (KeyError c').
Proof.
  induction names as [|k names IH]; simpl; [tauto|]. intros Hin Hc.
  destruct (lookup k cols) as [s|] eqn:E.
  - destruct Hin as [->|Hin]; [congruence|].
    destruct (IH Hin Hc) as (c' & Hc' & Hr).
    exists c'. split; [now right|]. now rewrite Hr.
  - exists k. split; [now left|reflexivity].
Qed.

Section WithParser.

Variable parse_dates : list string -> option Timestamps.
Variable str_contains : Series -> string -> result Mask.

Lemma no_join_date d :
  lookup "Dt_Customer" (columns d) = None ->
  feature_engineering parse_dates d = Raise (KeyError "Dt_Customer").
Proof.
  intros H. unfold feature_engineering, getitem. now rewrite H.
Qed.

Lemma rejected_join_date d xs :
  lookup "Dt_Customer" (columns d) = Some (SObj xs) ->
  parse_dates xs = None ->
  feature_engineering parse_dates d = Raise ValueError.
Proof.
  intros H Hp. unfold feature_engineering, getitem. rewrite H.
  cbn [bind to_datetime]. now rewrite Hp.
Qed.

Lemma no_product_column d dates ts c :
  lookup "Dt_Customer" (columns d) = Some dates ->
  to_datetime parse_dates dates = Ok ts ->
  In c product_cols ->
  lookup c (columns d) = None ->
  exists c', In c' product_cols
             /\ feature_engineering parse_dates d = Raise (KeyError c').
Proof.
  intros Hd Hts Hin Hc. unfold feature_engineering.
  assert (G : getitem d "Dt_Customer" = Ok dates)
    by (unfold getitem; now rewrite Hd).
  rewrite G. cbn [bind]. rewrite Hts. cbn [bind].
  rewrite getitem_setitem_other, G by discriminate. cbn [bind].
  rewrite Hts. cbn [bind].
  set (d2 := setitem (setitem d _ _) _ _).
  assert (Hc2 : lookup c (columns d2) = None).
  { subst d2. unfold setitem; cbn [columns].
    rewrite !lookup_assign_other; [exact Hc| |];
      intros <-; simpl in Hin; intuition discriminate. }
  destruct (lookup_all_missing product_cols (columns d2) c Hin Hc2)
    as (c' & Hin' & Hr).
  exists c'. split; [exact Hin'|].
  unfold getitems. rewrite Hr. reflexivity.
Qed.

Lemma income_not_needed d dates ts spends flags :
  lookup "Dt_Customer" (columns d) = Some dates ->
  to_datetime parse_dates dates = Ok ts ->
  int_cols d product_cols spends ->
  int_cols d cmp_cols flags ->
  is_ok (feature_engineering parse_dates d) = true
  /\ forall s,
       is_ok (feature_engineering parse_dates (setitem d "Income" s)) = true.
Proof.
  intros Hd Hts Hp Hc. split.
  - now rewrite (feature_engineering_ok parse_dates d dates ts spends flags).
  - intros s.
    rewrite (feature_engineering_ok parse_dates (setitem d "Income" s)
               dates ts spends flags); auto.
    + unfold setitem; cbn [columns].
      rewrite lookup_assign_other; [exact Hd|discriminate].
    + apply int_cols_setitem; [names_differ|exact Hp].
    + apply int_cols_setitem; [names_differ|exact Hc].
Qed.

(** C2 (as amended).  Loading returns what the CSV reader returns and
    checks neither columns nor cell types.  Feature engineering raises
    [KeyError] on a table without the join-date column or without a
    product column, and [ValueError] when the date parser rejects the
    join dates; the run then ends with that exception.  When the join
    dates are read and the product and campaign columns are int columns
    it succeeds, whatever the Income column holds and also without one. *)
Theorem load_checks_nothing_derivation_fails_whole :
  (forall file, load_data file = parsed file)
  /\ (forall d,
        lookup "Dt_Customer" (columns d) = None ->
        feature_engineering parse_dates d = Raise (KeyError "Dt_Customer"))
  /\ (forall d xs,
        lookup "Dt_Customer" (columns d) = Some (SObj xs) ->
        parse_dates xs = None ->
        feature_engineering parse_dates d = Raise ValueError)
  /\ (forall d dates ts c,
        lookup "Dt_Customer" (columns d) = Some dates ->
        to_datetime parse_dates dates = Ok ts ->
        In c product_cols ->
        lookup c (columns d) = None ->
        exists c', In c' product_cols
                   /\ feature_engineering parse_dates d
                      = Raise (KeyError c'))
  /\ (forall d dates ts spends flags,
        lookup "Dt_Customer" (columns d) = Some dates ->
        to_datetime parse_dates dates = Ok ts ->
        int_cols d product_cols spends ->
        int_cols d cmp_cols flags ->
        is_ok (feature_engineering parse_dates d) = true
        /\ forall s,
             is_ok (feature_engineering parse_dates (setitem d "Income" s))
             = true)
  /\ (forall inp x,
        prepare parse_dates inp = Raise x ->
        run parse_dates str_contains inp = Raise x).
Proof.
  split; [reflexivity|].
  split; [exact no_join_date|].
  split; [exact rejected_join_date|].
  split; [exact no_product_column|].
  split; [exact income_not_needed|].
  intros inp x H. unfold run. now rewrite H.
Qed.

End WithParser.

(** A file with an impossible date, and the one-customer file with any
    Income column. *)
Lemma derivation_examples :
  lookup "Dt_Customer"
    (columns (setitem Sample.no_income "Dt_Customer" (SObj ["2021-02-30"])))
    = Some (SObj ["2021-02-30"])
  /\ Iso.parse_dates ["2021-02-30"] = None
  /\ feature_engineering Iso.parse_dates
       (setitem Sample.no_income "Dt_Customer" (SObj ["2021-02-30"]))
     = Raise ValueError
  /\ is_ok (feature_engineering Iso.parse_dates Sample.text_income) = true.
Proof.
  destruct (load_checks_nothing_derivation_fails_whole
              Iso.parse_dates Plain.str_contains)
    as (_ & _ & H3 & _ & H5 & _).
  assert (E : Iso.parse_dates ["2021-02-30"] = None)
    by (vm_compute; reflexivity).
  split; [reflexivity|]. split; [exact E|]. split.
  - exact (H3 (setitem Sample.no_income "Dt_Customer" (SObj ["2021-02-30"]))
              ["2021-02-30"] eq_refl E).
  - destruct (H5 Sample.one_customer (SObj ["2021-01-15"])
                [Some 1610668800000000000]
                Sample.one_customer_spends Sample.one_customer_flags
                eq_refl ltac:(vm_compute; reflexivity)
                ltac:(int_cols_by_computation)
                ltac:(int_cols_by_computation)) as [_ H].
    exact (H (SObj ["unknown"])).
Defined.

(** A file without an Income column, and a file whose Income cell is
    text: both load, and feature engineering succeeds on both. *)
Lemma missing_or_text_income_loads :
  lookup "Income" (columns Sample.no_income) = None
  /\ load_data (mkSource (Ok Sample.no_income)) = Ok Sample.no_income
  /\ is_ok (prepare Iso.parse_dates (Sample.upload Sample.no_income)) = true
  /\ lookup "Income" (columns Sample.text_income) = Some (SObj ["unknown"])
  /\ load_data (mkSource (Ok Sample.text_income)) = Ok Sample.text_income
  /\ is_ok (prepare Iso.parse_dates (Sample.upload Sample.text_income)) = true.
Proof.
  repeat (split; [vm_compute; reflexivity|]). vm_compute; reflexivity.
Qed.

End Loading.

(* ================================================================= *)
(** ** What a range filter keeps *)

Module RangeFilter.

Import Pd App Schema Views PdFacts Filter Tabs.

Lemma mask_and_map {A} (f g : A -> bool) xs :
  mask_and (map f xs) (map g xs) = map (fun x => (f x && g x)%bool) xs.
Proof. induction xs as [|x xs IH]; simpl; [reflexivity|now rewrite IH]. Qed.

Lemma select_map_filter {A} (p : A -> bool) xs :
  select (map p xs) xs = filter p xs.
Proof.
  induction xs as [|x xs IH]; simpl; [reflexivity|].
  destruct (p x); now rewrite IH.
Qed.

Lemma select_map_combine {A B} (p : A -> bool) xs (ys : list B) :
  select (map p xs) ys = map snd (filter (fun r => p (fst r)) (combine xs ys)).
Proof.
  revert ys. induction xs as [|x xs IH]; intros [|y ys]; simpl; auto.
  destruct (p x); simpl; now rewrite IH.
Qed.

Lemma wf_lookup_size d c s :
  wf d -> lookup c (columns d) = Some s -> size s = nrows d.
Proof.
  unfold wf. intros Hwf. induction Hwf as [|[k v] cols Hs _ IH]; simpl;
    [discriminate|].
  destruct (String.eqb k c); [|exact IH].
  intros H. inversion H; subst. exact Hs.
Qed.

Lemma size_select_series m s :
  size s = List.length m -> size (select_series m s) = count_true m.
Proof. destruct s; simpl; apply select_length. Qed.

(** The rows a mask selects form a well-formed frame. *)
Lemma wf_getmask d m :
  wf d -> List.length m = nrows d -> wf (getmask d m).
Proof.
  unfold wf, getmask. cbn [columns nrows]. intros Hwf Hm.
  induction Hwf as [|[k v] cols Hs _ IH]; simpl; constructor; auto.
  simpl in *. apply size_select_series. congruence.
Qed.

Lemma count_true_le m : (count_true m <= List.length m)%nat.
Proof. unfold count_true. apply filter_length_le. Qed.

Lemma range_mask xs lo hi :
  mask_and (map (fun x => Z.geb x lo) xs) (map (fun x => Z.leb x hi) xs)
  = map (in_range lo hi) xs.
Proof.
  rewrite mask_and_map. apply map_ext. intros x.
  unfold in_range. now rewrite Z.geb_leb.
Qed.

(** X1.  On a well-formed table, the range filter on an int column keeps
    exactly the rows whose cell lies between the two bounds, ends
    included, in their order: the filtered column is the in-range cells,
    every other int column holds the cells of those same rows, and the
    result is a well-formed frame with no more rows than the table. *)
Theorem range_filter_keeps_rows_in_range d c xs lo hi :
  wf d ->
  lookup c (columns d) = Some (SInt xs) ->
  exists f,
    between d c (lo, hi) = Ok f
    /\ wf f
    /\ (nrows f <= nrows d)%nat
    /\ nrows f = List.length (filter (in_range lo hi) xs)
    /\ getitem f c = Ok (SInt (filter (in_range lo hi) xs))
    /\ forall k ys,
         lookup k (columns d) = Some (SInt ys) ->
         getitem f k = Ok (SInt (cells_in_range lo hi xs ys)).
Proof.
  intros Hwf Hc.
  pose proof (wf_lookup_size d c _ Hwf Hc) as Hn. simpl in Hn.
  rewrite (between_int d c xs (lo, hi) Hc). cbn [fst snd].
  rewrite range_mask.
  set (m := map (in_range lo hi) xs).
  assert (Hm : List.length m = nrows d) by (subst m; now rewrite length_map).
  exists (getmask d m). split; [reflexivity|].
  split; [now apply wf_getmask|].
  assert (Hcount : count_true m = List.length (filter (in_range lo hi) xs)).
  { rewrite <- (select_length m xs) by congruence.
    subst m. now rewrite select_map_filter. }
  split; [cbn [getmask nrows]; rewrite <- Hm; apply count_true_le|].
  split; [exact Hcount|]. split.
  - unfold getitem. rewrite lookup_getmask, Hc. cbn [option_map select_series].
    subst m. now rewrite select_map_filter.
  - intros k ys Hk. unfold getitem.
    rewrite lookup_getmask, Hk. cbn [option_map select_series].
    subst m. unfold cells_in_range. now rewrite select_map_combine.
Qed.

(** Ages 25, 30, 35, 40 and the range (30, 40): three rows, with the
    campaign counts of those three customers. *)
Lemma range_filter_example :
  wf Sample.four_customers
  /\ lookup "age" (columns Sample.four_customers) = Some (SInt [25; 30; 35; 40])
  /\ exists f,
       between Sample.four_customers "age" (30, 40) = Ok f
       /\ nrows f = 3%nat
       /\ getitem f "age" = Ok (SInt [30; 35; 40])
       /\ getitem f "Campaign_Accepted_Count" = Ok (SInt [0; 0; 2]).
Proof.
  assert (H1 : wf Sample.four_customers) by (repeat constructor).
  split; [exact H1|]. split; [reflexivity|].
  destruct (range_filter_keeps_rows_in_range Sample.four_customers "age"
              [25; 30; 35; 40] 30 40 H1 eq_refl)
    as (f & Hb & _ & _ & Hn & Hage & Hother).
  exists f. split; [exact Hb|]. split; [exact Hn|]. split; [exact Hage|].
  exact (Hother "Campaign_Accepted_Count" [2; 0; 0; 2] eq_refl).
Defined.

Lemma float_in_range_spec lo hi y :
  float_in_range lo hi y = true <-> finite_in_range lo hi y.
Proof.
  unfold float_in_range, finite_in_range, fcmp, Qge_int, Qle_int.
  destruct y as [|q]; simpl.
  - split; [discriminate|]. intros (q & H & _). discriminate H.
  - rewrite andb_true_iff, !Qle_bool_iff. split.
    + intros [A B]. exists q. auto.
    + intros (q' & E & A & B). inversion E; subst. auto.
Qed.

(** X2.  The range filter on a float column keeps exactly the rows whose
    cell is a number between the two bounds: a row whose cell is missing
    (NaN) is dropped whatever the bounds are. *)
Theorem range_filter_drops_missing d c xs lo hi :
  lookup c (columns d) = Some (SFloat xs) ->
  exists f,
    between d c (lo, hi) = Ok f
    /\ getitem f c = Ok (SFloat (filter (float_in_range lo hi) xs))
    /\ Forall (finite_in_range lo hi) (filter (float_in_range lo hi) xs)
    /\ ~ In NaN (filter (float_in_range lo hi) xs).
Proof.
  intros Hc. unfold between, getitem. rewrite Hc. cbn [bind ge le compare_int].
  cbn [fst snd]. rewrite mask_and_map.
  eexists. split; [reflexivity|]. split.
  - rewrite lookup_getmask, Hc. cbn [option_map select_series].
    now rewrite select_map_filter.
  - assert (F : Forall (finite_in_range lo hi)
                  (filter (float_in_range lo hi) xs)).
    { apply Forall_forall. intros y Hy. apply filter_In in Hy.
      now apply float_in_range_spec. }
    split; [exact F|]. intros Hin.
    rewrite Forall_forall in F. destruct (F NaN Hin) as (q & E & _).
    discriminate E.
Qed.

(** Incomes 30000, missing, 70000: the widest range still drops the
    customer without an income. *)
Lemma range_filter_missing_example :
  lookup "Income" (columns income_missing)
    = Some (SFloat [Fin 30000; NaN; Fin 70000])
  /\ exists f,
       between income_missing "Income" (20000, 70000) = Ok f
       /\ getitem f "Income" = Ok (SFloat [Fin 30000; Fin 70000])
       /\ getitem f "Total_Spend" = Ok (SInt [10; 30]).
Proof.
  split; [reflexivity|].
  destruct (range_filter_drops_missing income_missing "Income"
              [Fin 30000; NaN; Fin 70000] 20000 70000 eq_refl)
    as (f & Hb & Hi & _ & _).
  exists f. split; [exact Hb|]. split; [exact Hi|].
  vm_compute in Hb. inversion Hb. reflexivity.
Defined.

End RangeFilter.

(* ================================================================= *)
(** ** Feature engineering as a whole *)

Module Features.

Import Pd App Schema Views PdFacts Derivation.

Lemma lookup_all_assign_other k s names cols :
  Forall (fun c => k <> c) names ->
  lookup_all names (assign k s cols) = lookup_all names cols.
Proof.
  induction 1 as [|c names Hc _ IH]; simpl; [reflexivity|].
  rewrite lookup_assign_other by assumption. now rewrite IH.
Qed.

Lemma getitems_setitem_other d k s names :
  Forall (fun c => k <> c) names ->
  getitems (setitem d k s) names = getitems d names.
Proof.
  intros H. unfold getitems, setitem. cbn [columns nrows].
  now rewrite lookup_all_assign_other.
Qed.

Lemma assign_present k s cols :
  lookup k cols = Some s -> assign k s cols = cols.
Proof.
  induction cols as [|[c v] cols IH]; simpl; [discriminate|].
  destruct (String.eqb c k) eqn:E.
  - intros H. inversion H; subst. reflexivity.
  - intros H. now rewrite IH.
Qed.

(** Setting a column to what it already holds changes nothing. *)
Lemma setitem_present d k s :
  lookup k (columns d) = Some s -> setitem d k s = d.
Proof.
  intros H. destruct d as [n cols]. unfold setitem. cbn [columns nrows] in *.
  now rewrite assign_present.
Qed.

Lemma lookup_with_features_other d ts s1 s2 c :
  ~ In c derived_names ->
  lookup c (columns (with_features d ts s1 s2)) = lookup c (columns d).
Proof.
  intros Hc. unfold with_features, setitem. cbn [columns].
  rewrite !lookup_assign_other; auto;
    intros <-; apply Hc; simpl; auto.
Qed.

Lemma lookup_with_features d ts s1 s2 :
  lookup "Join_Year" (columns (with_features d ts s1 s2)) = Some (dt_year ts)
  /\ lookup "Join_Month" (columns (with_features d ts s1 s2))
     = Some (dt_month ts)
  /\ lookup "Total_Spend" (columns (with_features d ts s1 s2)) = Some s1
  /\ lookup "Campaign_Accepted_Count" (columns (with_features d ts s1 s2))
     = Some s2.
Proof.
  unfold with_features, setitem. cbn [columns].
  repeat split;
    repeat first [ apply lookup_assign_same
                 | rewrite lookup_assign_other by discriminate ].
Qed.

Lemma getitems_with_features d ts s1 s2 names :
  Forall (fun c => "Join_Year" <> c) names ->
  Forall (fun c => "Join_Month" <> c) names ->
  Forall (fun c => "Total_Spend" <> c) names ->
  Forall (fun c => "Campaign_Accepted_Count" <> c) names ->
  getitems (with_features d ts s1 s2) names = getitems d names.
Proof.
  intros A B C D. unfold with_features.
  now rewrite !getitems_setitem_other.
Qed.

Lemma with_features_twice d ts s1 s2 :
  with_features (with_features d ts s1 s2) ts s1 s2 = with_features d ts s1 s2.
Proof.
  destruct (lookup_with_features d ts s1 s2) as (A & B & C & D).
  set (e := with_features d ts s1 s2) in *.
  unfold with_features at 1.
  rewrite (setitem_present e "Join_Year" _ A).
  rewrite (setitem_present e "Join_Month" _ B).
  rewrite (setitem_present e "Total_Spend" _ C).
  now rewrite (setitem_present e "Campaign_Accepted_Count" _ D).
Qed.

Section WithParser.

Variable parse_dates : list string -> option Timestamps.

(** The four assignments read only columns they do not set: the derived
    columns are all computed from the table as loaded. *)
Lemma feature_engineering_reads_loaded_table d :
  feature_engineering parse_dates d
  = bind (getitem d "Dt_Customer") (fun c =>
    bind (to_datetime parse_dates c) (fun ts =>
    bind (bind (getitems d product_cols) sum_axis1) (fun s1 =>
    bind (bind (getitems d cmp_cols) sum_axis1) (fun s2 =>
    Ok (with_features d ts s1 s2))))).
Proof.
  unfold feature_engineering.
  destruct (getitem d "Dt_Customer") as [c|x] eqn:G; [|reflexivity].
  cbn [bind]. destruct (to_datetime parse_dates c) as [ts|x] eqn:T;
    [|reflexivity].
  cbn [bind]. rewrite getitem_setitem_other, G by discriminate.
  cbn [bind]. rewrite T. cbn [bind].
  rewrite !getitems_setitem_other by names_differ.
  destruct (getitems d product_cols) as [p|x]; [|reflexivity].
  cbn [bind]. destruct (sum_axis1 p) as [s1|x]; [|reflexivity].
  cbn [bind]. rewrite !getitems_setitem_other by names_differ.
  destruct (getitems d cmp_cols) as [q|x]; [|reflexivity].
  cbn [bind]. destruct (sum_axis1 q) as [s2|x]; reflexivity.
Qed.

Lemma feature_engineering_inv d d' :
  feature_engineering parse_dates d = Ok d' ->
  exists c ts s1 s2,
    getitem d "Dt_Customer" = Ok c
    /\ to_datetime parse_dates c = Ok ts
    /\ bind (getitems d product_cols) sum_axis1 = Ok s1
    /\ bind (getitems d cmp_cols) sum_axis1 = Ok s2
    /\ d' = with_features d ts s1 s2.
Proof.
  rewrite feature_engineering_reads_loaded_table.
  destruct (getitem d "Dt_Customer") as [c|x] eqn:G; [|discriminate].
  cbn [bind].
  destruct (to_datetime parse_dates c) as [ts|x] eqn:T; [|discriminate].
  cbn [bind].
  destruct (bind (getitems d product_cols) sum_axis1) as [s1|x] eqn:S1;
    [|discriminate].
  cbn [bind].
  destruct (bind (getitems d cmp_cols) sum_axis1) as [s2|x] eqn:S2;
    [|discriminate].
  cbn [bind]. intros H. inversion H. exists c, ts, s1, s2.
  repeat split; assumption.
Qed.

(** X3.  When feature engineering succeeds, the table has the same rows,
    every column other than the four derived ones is what it was, and the
    four derived columns are present. *)
Theorem feature_engineering_adds_four_columns d d' :
  feature_engineering parse_dates d = Ok d' ->
  nrows d' = nrows d
  /\ (forall c, ~ In c derived_names ->
                lookup c (columns d') = lookup c (columns d))
  /\ (forall c, In c derived_names ->
                exists s, lookup c (columns d') = Some s).
Proof.
  intros H. destruct (feature_engineering_inv d d' H)
    as (c0 & ts & s1 & s2 & _ & _ & _ & _ & ->).
  split; [reflexivity|]. split.
  - intros c Hc. now apply lookup_with_features_other.
  - intros c Hc.
    destruct (lookup_with_features d ts s1 s2) as (A & B & C & D).
    simpl in Hc. destruct Hc as [<-|[<-|[<-|[<-|[]]]]]; eauto.
Qed.

(** X4.  Feature engineering applied to its own result returns that
    result: the derived columns are recomputed to the same values. *)
Theorem feature_engineering_twice d d' :
  feature_engineering parse_dates d = Ok d' ->
  feature_engineering parse_dates d' = Ok d'.
Proof.
  intros H. destruct (feature_engineering_inv d d' H)
    as (c0 & ts & s1 & s2 & G & T & S1 & S2 & ->).
  rewrite feature_engineering_reads_loaded_table.
  assert (G' : getitem (with_features d ts s1 s2) "Dt_Customer" = Ok c0).
  { unfold getitem in *. rewrite lookup_with_features_other; [exact G|].
    simpl. intros [E|[E|[E|[E|[]]]]]; discriminate E. }
  rewrite G'. cbn [bind]. rewrite T. cbn [bind].
  rewrite !getitems_with_features by names_differ.
  rewrite S1, S2. cbn [bind]. f_equal. apply with_features_twice.
Qed.

End WithParser.

Lemma lookup_all_sizes d names r :
  wf d -> lookup_all names (columns d) = Ok r ->
  Forall (fun c => size (snd c) = nrows d) r.
Proof.
  intros Hwf. revert r. induction names as [|c names IH]; simpl; intros r E.
  - inversion E. constructor.
  - destruct (lookup c (columns d)) as [s|] eqn:L; [|discriminate].
    destruct (lookup_all names (columns d)) as [r'|x]; [|discriminate].
    cbn [bind] in E. inversion E; subst. constructor; [|now apply IH].
    simpl. now apply (RangeFilter.wf_lookup_size d c).
Qed.

Lemma getitems_wf d names p :
  wf d -> getitems d names = Ok p -> wf p.
Proof.
  unfold getitems. intros Hwf.
  destruct (lookup_all names (columns d)) as [r|x] eqn:E; [|discriminate].
  cbn [bind]. intros H. inversion H; subst. unfold wf. cbn [columns nrows].
  now apply (lookup_all_sizes d names).
Qed.

Lemma int_columns_sizes n cols xss :
  Forall (fun c => size (snd c) = n) cols ->
  int_columns cols = Some xss ->
  Forall (fun xs => List.length xs = n) xss.
Proof.
  intros H. revert xss. induction H as [|[k s] cols Hs _ IH]; simpl;
    intros xss E.
  - inversion E. constructor.
  - destruct s as [xs| | |]; try discriminate.
    destruct (int_columns cols) as [r|]; [|discriminate].
    inversion E; subst. constructor; auto.
Qed.

Lemma float_columns_sizes n cols xss :
  Forall (fun c => size (snd c) = n) cols ->
  float_columns cols = Ok xss ->
  Forall (fun xs => List.length xs = n) xss.
Proof.
  intros H. revert xss. induction H as [|[k s] cols Hs _ IH]; simpl;
    intros xss E.
  - inversion E. constructor.
  - destruct (as_float s) as [xs|x] eqn:A; [|discriminate].
    cbn [bind] in E.
    destruct (float_columns cols) as [r|x]; [|discriminate].
    cbn [bind] in E. inversion E; subst. constructor; auto.
    destruct s; simpl in *; inversion A; subst; rewrite ?length_map; auto.
Qed.

Lemma frow_sums_length n cols :
  Forall (fun c => List.length c = n) cols ->
  List.length (frow_sums n cols) = n.
Proof.
  induction 1 as [|c cols Hc _ IH]; simpl.
  - apply repeat_length.
  - now apply zip_with_length.
Qed.

(** The row sums of a well-formed frame have one cell per row. *)
Lemma sum_axis1_size p s :
  wf p -> sum_axis1 p = Ok s -> size s = nrows p.
Proof.
  unfold sum_axis1, wf. intros Hwf.
  assert (F : forall r, float_columns (columns p) = Ok r ->
                        size (SFloat (map Fin (frow_sums (nrows p) r)))
                        = nrows p).
  { intros r Hr. simpl. rewrite length_map. apply frow_sums_length.
    now apply (float_columns_sizes _ (columns p)). }
  destruct (columns p) as [|c cols] eqn:C.
  - simpl. intros H. inversion H; subst. simpl.
    now rewrite length_map, repeat_length.
  - destruct (int_columns (c :: cols)) as [xss|] eqn:I.
    + intros H. inversion H; subst. simpl. apply irow_sums_length.
      now apply (int_columns_sizes _ (c :: cols)).
    + destruct (float_columns (c :: cols)) as [r|x] eqn:R; [|discriminate].
      cbn [bind]. intros H. inversion H; subst. now apply F.
Qed.

Lemma wf_setitem d k s :
  wf d -> size s = nrows d -> wf (setitem d k s).
Proof.
  unfold wf, setitem. cbn [columns nrows]. intros Hwf Hs.
  induction Hwf as [|[c v] cols Hv Hcols IH]; simpl.
  - constructor; [exact Hs|constructor].
  - destruct (String.eqb c k); constructor; auto.
Qed.

Lemma present_all ts :
  all_present ts = true -> List.length (present ts) = List.length ts.
Proof.
  induction ts as [|[t|] ts IH]; simpl; intros H;
    [reflexivity| |discriminate H].
  now rewrite IH.
Qed.

(** A field of the timestamps has one cell per timestamp, missing or not. *)
Lemma size_dt_field f ts : size (dt_field f ts) = List.length ts.
Proof.
  unfold dt_field. destruct (all_present ts) eqn:A; simpl;
    rewrite length_map; [now apply present_all|reflexivity].
Qed.

(** X5.  With a date parser that returns one timestamp per cell, feature
    engineering keeps a well-formed table well-formed: each derived
    column has one cell per row. *)
Theorem feature_engineering_keeps_wf
  (parse_dates : list string -> option Timestamps) d d' :
  (forall xs ts, parse_dates xs = Some ts ->
                 List.length ts = List.length xs) ->
  wf d ->
  feature_engineering parse_dates d = Ok d' ->
  wf d'.
Proof.
  intros Hparse Hwf H.
  destruct (feature_engineering_inv parse_dates d d' H)
    as (c & ts & s1 & s2 & G & T & S1 & S2 & ->).
  assert (Hts : List.length ts = nrows d).
  { unfold getitem in G.
    destruct (lookup "Dt_Customer" (columns d)) as [c'|] eqn:L;
      [|discriminate].
    inversion G; subst c'.
    pose proof (RangeFilter.wf_lookup_size d _ _ Hwf L) as Hc.
    destruct c as [xs|xs|xs|xs]; simpl in T, Hc; try discriminate.
    - inversion T; subst. rewrite length_map. exact Hc.
    - destruct (parse_dates xs) as [r|] eqn:P; [|discriminate].
      inversion T; subst. rewrite (Hparse _ _ P). exact Hc.
    - inversion T; subst. rewrite length_map. exact Hc. }
  assert (Hsum : forall names s,
             bind (getitems d names) sum_axis1 = Ok s -> size s = nrows d).
  { intros names s Hs.
    destruct (getitems d names) as [p|x] eqn:P; [|discriminate].
    cbn [bind] in Hs.
    rewrite (sum_axis1_size p s (getitems_wf d names p Hwf P) Hs).
    unfold getitems in P.
    destruct (lookup_all names (columns d)); [|discriminate].
    cbn [bind] in P. now inversion P. }
  unfold with_features.
  repeat apply wf_setitem; auto; cbn [nrows setitem];
    try (unfold dt_year, dt_month; now rewrite size_dt_field); eauto.
Qed.

Lemma parse_all_length p xs ts :
  Iso.parse_all p xs = Some ts -> List.length ts = List.length xs.
Proof.
  revert ts. induction xs as [|x xs IH]; simpl; intros ts H.
  - now inversion H.
  - destruct (Iso.parse_cell p x); [|discriminate].
    destruct (Iso.parse_all p xs) as [r|]; [|discriminate].
    inversion H; subst. simpl. now rewrite (IH r).
Qed.

Lemma iso_parse_dates_length xs ts :
  Iso.parse_dates xs = Some ts -> List.length ts = List.length xs.
Proof.
  unfold Iso.parse_dates.
  destruct (Iso.parse_all Iso.parse_date xs) as [r|] eqn:E.
  - intros H. inversion H; subst. now apply (parse_all_length Iso.parse_date).
  - apply parse_all_length.
Qed.

Lemma one_customer_derives :
  feature_engineering Iso.parse_dates Sample.one_customer
  = Ok one_customer_derived.
Proof. vm_compute. reflexivity. Qed.

(** One customer: the age column is kept and the derived columns are
    there. *)
Lemma feature_engineering_columns_example :
  feature_engineering Iso.parse_dates Sample.one_customer
    = Ok one_customer_derived
  /\ nrows one_customer_derived = 1%nat
  /\ lookup "age" (columns one_customer_derived) = Some (SInt [41])
  /\ exists s, lookup "Total_Spend" (columns one_customer_derived) = Some s.
Proof.
  split; [exact one_customer_derives|].
  destruct (feature_engineering_adds_four_columns Iso.parse_dates _ _
              one_customer_derives) as (Hn & Hkeep & Hnew).
  split; [exact Hn|]. split.
  - rewrite Hkeep; [reflexivity|].
    simpl. intros [H|[H|[H|[H|[]]]]]; discriminate H.
  - apply Hnew. simpl. auto.
Defined.

(** One customer: deriving again gives the same table. *)
Lemma feature_engineering_twice_example :
  feature_engineering Iso.parse_dates Sample.one_customer
    = Ok one_customer_derived
  /\ feature_engineering Iso.parse_dates one_customer_derived
     = Ok one_customer_derived.
Proof.
  split; [exact one_customer_derives|].
  exact (feature_engineering_twice Iso.parse_dates _ _ one_customer_derives).
Defined.

(** One customer: the derived table is well-formed. *)
Lemma feature_engineering_wf_example :
  (forall xs ts, Iso.parse_dates xs = Some ts ->
                 List.length ts = List.length xs)
  /\ wf Sample.one_customer
  /\ feature_engineering Iso.parse_dates Sample.one_customer
     = Ok one_customer_derived
  /\ wf one_customer_derived.
Proof.
  assert (W : wf Sample.one_customer) by (repeat constructor).
  split; [exact iso_parse_dates_length|]. split; [exact W|].
  split; [exact one_customer_derives|].
  exact (feature_engineering_keeps_wf Iso.parse_dates _ _
           iso_parse_dates_length W one_customer_derives).
Defined.

End Features.

(* ================================================================= *)
(** ** Old and new customers *)

Module OldNew.

Import Pd App Schema Views PdFacts Effects.

Lemma count_true_cons b m :
  count_true (b :: m) = ((if b then 1 else 0) + count_true m)%nat.
Proof. unfold count_true. simpl. now destruct b. Qed.

(** Each customer with a join date is counted on exactly one side of a
    threshold, a customer without one on neither. *)
Lemma split_at_threshold k now ts :
  mask_sum (days_mask (fun x => Z.gtb x k) now ts)
  + mask_sum (days_mask (fun x => Z.leb x k) now ts)
  = Z.of_nat (List.length (present ts)).
Proof.
  unfold mask_sum, days_mask.
  induction ts as [|[t|] ts IH]; [reflexivity| |].
  - cbn [map present List.length]. rewrite !count_true_cons.
    rewrite Z.gtb_ltb.
    destruct (Z.ltb_spec k ((now - t) / ns_per_day));
      destruct (Z.leb_spec ((now - t) / ns_per_day) k); lia.
  - cbn [map present]. rewrite !count_true_cons. lia.
Qed.

Lemma mask_sum_nonneg m : 0 <= mask_sum m.
Proof. unfold mask_sum. lia. Qed.

Lemma days_mono t1 t2 t :
  t1 <= t2 -> (t1 - t) / ns_per_day <= (t2 - t) / ns_per_day.
Proof.
  intros H. apply Z.div_le_mono; [reflexivity|lia].
Qed.

Lemma old_count_mono k t1 t2 ts :
  t1 <= t2 ->
  mask_sum (days_mask (fun x => Z.gtb x k) t1 ts)
  <= mask_sum (days_mask (fun x => Z.gtb x k) t2 ts).
Proof.
  intros H. unfold mask_sum, days_mask. apply inj_le.
  induction ts as [|[t|] ts IH]; [reflexivity| |].
  - cbn [map]. rewrite !count_true_cons.
    pose proof (days_mono t1 t2 t H) as D.
    rewrite !Z.gtb_ltb.
    destruct (Z.ltb_spec k ((t1 - t) / ns_per_day));
      destruct (Z.ltb_spec k ((t2 - t) / ns_per_day)); lia.
  - cbn [map]. rewrite !count_true_cons. lia.
Qed.

Lemma present_le ts : (List.length (present ts) <= List.length ts)%nat.
Proof. induction ts as [|[t|] ts IH]; simpl; lia. Qed.

Lemma present_all_iff ts :
  List.length (present ts) = List.length ts <-> all_present ts = true.
Proof.
  induction ts as [|[t|] ts IH]; simpl.
  - tauto.
  - rewrite <- IH. split; lia.
  - pose proof (present_le ts). split; [lia|discriminate].
Qed.

Section WithParser.

Variable parse_dates : list string -> option Timestamps.

(** X6.  When the join dates are read, the old-vs-new answer counts each
    customer with a join date exactly once and a customer whose join date
    is missing in neither count: the two counts are not negative and add
    up to the number of join dates that are present.  With one timestamp
    per row, they add up to the number of rows exactly when no join date
    is missing. *)
Theorem old_and_new_count_everyone today e ts :
  bind (getitem (df e) "Dt_Customer") (to_datetime parse_dates) = Ok ts ->
  exists old_customers new_customers,
    fst (answer parse_dates today OldVsNew e)
    = Ok (Success [VInt old_customers; VInt new_customers])
    /\ 0 <= old_customers
    /\ 0 <= new_customers
    /\ old_customers + new_customers = Z.of_nat (List.length (present ts))
    /\ old_customers + new_customers <= Z.of_nat (List.length ts)
    /\ (List.length ts = nrows (df e) ->
        (old_customers + new_customers = len (df e)
         <-> all_present ts = true)).
Proof.
  intros H. rewrite old_vs_new_steps, H. cbn [fst].
  do 2 eexists. split; [reflexivity|].
  split; [apply mask_sum_nonneg|]. split; [apply mask_sum_nonneg|].
  pose proof (split_at_threshold 1000 today ts) as E.
  pose proof (present_le ts) as P.
  split; [exact E|]. split; [lia|].
  intros L. unfold len. rewrite E, <- L, <- present_all_iff. lia.
Qed.

(** X7.  Asked at a later date, the old-vs-new answer never counts fewer
    old customers nor more new ones. *)
Theorem old_customers_grow_with_time t1 t2 e ts :
  bind (getitem (df e) "Dt_Customer") (to_datetime parse_dates) = Ok ts ->
  t1 <= t2 ->
  exists old1 new1 old2 new2,
    fst (answer parse_dates t1 OldVsNew e) = Ok (Success [VInt old1; VInt new1])
    /\ fst (answer parse_dates t2 OldVsNew e)
       = Ok (Success [VInt old2; VInt new2])
    /\ old1 <= old2
    /\ new2 <= new1.
Proof.
  intros H Ht. rewrite !old_vs_new_steps, H. cbn [fst].
  do 4 eexists. split; [reflexivity|]. split; [reflexivity|].
  pose proof (old_count_mono 1000 t1 t2 ts Ht) as M.
  assert (E1 := split_at_threshold 1000 t1 ts).
  assert (E2 := split_at_threshold 1000 t2 ts).
  lia.
Qed.

End WithParser.

Lemma four_customers_dates :
  bind (getitem (df (mkEnv Sample.four_customers None)) "Dt_Customer")
       (to_datetime Iso.parse_dates)
  = Ok [Some 1610668800000000000; Some 1611100800000000000;
        Some 1614643200000000000; Some 1606694400000000000].
Proof. vm_compute. reflexivity. Qed.

Lemma join_date_missing_dates :
  bind (getitem (df (mkEnv join_date_missing None)) "Dt_Customer")
       (to_datetime Iso.parse_dates)
  = Ok [Some 1610668800000000000; None;
        Some 1614643200000000000; Some 1606694400000000000].
Proof. vm_compute. reflexivity. Qed.

(** Four customers in June 2024, the second with a blank join date: three
    are old, none is new, and the two counts add up to three of the four
    rows. *)
Lemma old_and_new_example :
  bind (getitem (df (mkEnv join_date_missing None)) "Dt_Customer")
       (to_datetime Iso.parse_dates)
  = Ok [Some 1610668800000000000; None;
        Some 1614643200000000000; Some 1606694400000000000]
  /\ fst (answer Iso.parse_dates Sample.june_2024 OldVsNew
            (mkEnv join_date_missing None))
     = Ok (Success [VInt 3; VInt 0])
  /\ len join_date_missing = 4
  /\ exists old_customers new_customers,
       fst (answer Iso.parse_dates Sample.june_2024 OldVsNew
              (mkEnv join_date_missing None))
       = Ok (Success [VInt old_customers; VInt new_customers])
       /\ old_customers + new_customers = 3.
Proof.
  split; [exact join_date_missing_dates|].
  split; [vm_compute; reflexivity|]. split; [reflexivity|].
  destruct (old_and_new_count_everyone Iso.parse_dates Sample.june_2024
              (mkEnv join_date_missing None) _ join_date_missing_dates)
    as (o & n & A & _ & _ & B & _).
  exists o, n. split; [exact A|exact B].
Defined.

(** Four customers asked in June 2023 and in June 2024. *)
Lemma old_customers_grow_example :
  bind (getitem (df (mkEnv Sample.four_customers None)) "Dt_Customer")
       (to_datetime Iso.parse_dates)
  = Ok [Some 1610668800000000000; Some 1611100800000000000;
        Some 1614643200000000000; Some 1606694400000000000]
  /\ Sample.june_2023 <= Sample.june_2024
  /\ exists old1 new1 old2 new2,
       fst (answer Iso.parse_dates Sample.june_2023 OldVsNew
              (mkEnv Sample.four_customers None))
       = Ok (Success [VInt old1; VInt new1])
       /\ fst (answer Iso.parse_dates Sample.june_2024 OldVsNew
                 (mkEnv Sample.four_customers None))
          = Ok (Success [VInt old2; VInt new2])
       /\ old1 <= old2 /\ new2 <= new1.
Proof.
  assert (L : Sample.june_2023 <= Sample.june_2024)
    by (vm_compute; discriminate).
  split; [exact four_customers_dates|]. split; [exact L|].
  exact (old_customers_grow_with_time Iso.parse_dates _ _
           (mkEnv Sample.four_customers None) _ four_customers_dates L).
Defined.

End OldNew.

(* ================================================================= *)
(** ** Selections without rows *)

Module Failures.

Import Pd App Schema Views PdFacts Filter Tabs.

Section WithParser.

Variable parse_dates : list string -> option Timestamps.

Variable str_contains : Series -> string -> result Mask.

(** The Dataset tab shows rows and leaves both frames as they are. *)
Lemma tab1_reads_only column value e :
  snd (tab1 str_contains column value e) = e.
Proof.
  unfold tab1, bindM, get_df, lift, ret.
  destruct (String.eqb value ""); [reflexivity|].
  destruct (getitem (df e) column) as [s|x]; [|reflexivity].
  destruct (str_contains s value); reflexivity.
Qed.

(** X8.  The tabs are evaluated in order and the first exception ends the
    run.  When the search of the Dataset tab raises, the run ends there
    with that exception.  When the Dataset tab has shown its rows and the
    age slider, built over two different ages, selects no row, the run
    ends with [ValueError] in the Customer tab: the Spending, Campaigns
    and Chatbot tabs are not evaluated. *)
Theorem empty_age_selection_ends_run inp d :
  prepare parse_dates inp = Ok d ->
  (forall s x,
      value inp <> "" ->
      lookup (column inp) (columns d) = Some s ->
      str_contains s (value inp) = Raise x ->
      run parse_dates str_contains inp = Raise x)
  /\ (forall view r f age income lo hi,
        fst (tab1 str_contains (column inp) (value inp) (mkEnv d None))
        = Ok view ->
        age_range inp = Some r ->
        lookup "age" (columns d) = Some age -> numeric age ->
        lookup "Income" (columns d) = Some income -> numeric income ->
        bind (min age) int = Ok lo -> bind (max age) int = Ok hi ->
        lo < hi ->
        between d "age" r = Ok f ->
        nrows f = 0%nat ->
        run parse_dates str_contains inp = Raise ValueError).
Proof.
  intros Hp. split.
  - intros s x Hv Hc Hs. unfold run. rewrite Hp. cbn [bind].
    unfold tabs, bindM at 1. unfold tab1, bindM, get_df, lift, getitem.
    cbn [df]. apply String.eqb_neq in Hv. rewrite Hv, Hc, Hs. reflexivity.
  - intros view r f age income lo hi Hview Hr Hage Nage Hinc Ninc
           Elo Ehi Hlt Hb Hn.
    destruct (empty_subset_kpis_raise d None r f age income lo hi
                Hage Nage Hinc Ninc Elo Ehi Hlt Hb Hn) as [_ K].
    unfold run. rewrite Hp. cbn [bind]. unfold tabs, bindM at 1.
    pose proof (tab1_reads_only (column inp) (value inp) (mkEnv d None))
      as Hsnd.
    destruct (tab1 str_contains (column inp) (value inp) (mkEnv d None))
      as [[v|x] e1]; cbn [fst snd] in Hview, Hsnd; [|discriminate Hview].
    subst e1. unfold bindM. rewrite Hr.
    destruct (tab2 (Some r) (mkEnv d None)) as [[a|x] e']; simpl in K;
      [discriminate K|].
    inversion K. reflexivity.
Qed.

(** X9.  When the income slider selects no row, the Spending tab raises
    [ValueError]: the total is 0 but the average spend is the mean of no
    row, which [int] cannot convert. *)
Theorem empty_income_selection_raises d o user selected_product
        income f s ts :
  lookup "Income" (columns d) = Some income -> numeric income ->
  between d "Income" (slider (20000, 60000) user) = Ok f ->
  nrows f = 0%nat ->
  lookup selected_product (columns d) = Some s ->
  lookup "Total_Spend" (columns d) = Some ts -> numeric ts ->
  fst (tab3 parse_dates user selected_product (mkEnv d o)) = Raise ValueError.
Proof.
  intros Hinc Ninc Hb Hn Hsel Hts Nts.
  destruct (between_mask _ _ _ _ Hb) as [m Hf].
  assert (Hm : count_true m = 0%nat) by (subst f; exact Hn).
  unfold tab3, bindM, get_df, lift. cbn [df]. unfold getitem at 1 2.
  rewrite Hinc.
  destruct (bind (min income) int) as [lo|x] eqn:Elo;
    [|cbn [fst]; f_equal; now apply (extremum_int_error Z.min Qmin income)].
  destruct (bind (max income) int) as [hi|x] eqn:Ehi;
    [|cbn [fst]; f_equal; now apply (extremum_int_error Z.max Qmax income)].
  destruct (slider_bounds_wide lo hi (20000, 60000)) as [bounds Hbounds];
    [discriminate|].
  rewrite Hbounds, Hb. subst f.
  assert (G1 : getitem (getmask d m) selected_product
               = Ok (select_series m s))
    by (unfold getitem; now rewrite lookup_getmask, Hsel).
  rewrite G1.
  assert (G2 : getitem (setitem (getmask d m) "Selected_Product_Spend"
                                (select_series m s)) "Total_Spend"
               = Ok (select_series m ts)).
  { rewrite getitem_setitem_other by discriminate.
    unfold getitem. now rewrite lookup_getmask, Hts. }
  rewrite G2.
  destruct (select_series_none m ts Hm Nts) as [E|E]; rewrite E; reflexivity.
Qed.

End WithParser.

(** Four customers aged 25 to 40 and the age slider at (26, 29): with the
    search box empty the run ends in the Customer tab, with an opening
    bracket in it the run ends in the Dataset tab. *)
Lemma empty_age_selection_example :
  prepare Iso.parse_dates narrow_age_upload = Ok Sample.four_customers
  /\ fst (tab1 Plain.str_contains (column narrow_age_upload)
               (value narrow_age_upload) (mkEnv Sample.four_customers None))
     = Ok (head Sample.four_customers)
  /\ age_range narrow_age_upload = Some (26, 29)
  /\ numeric (SInt [25; 30; 35; 40])
  /\ numeric (SFloat [Fin 20000; Fin 40000; Fin 60000; Fin 80000])
  /\ bind (min (SInt [25; 30; 35; 40])) int = Ok 25
  /\ bind (max (SInt [25; 30; 35; 40])) int = Ok 40
  /\ 25 < 40
  /\ between Sample.four_customers "age" (26, 29)
     = Ok (getmask Sample.four_customers [false; false; false; false])
  /\ run Iso.parse_dates Plain.str_contains narrow_age_upload
     = Raise ValueError
  /\ prepare Iso.parse_dates bracket_search_upload = Ok Sample.four_customers
  /\ value bracket_search_upload <> ""
  /\ Plain.str_contains (SInt [25; 30; 35; 40]) (value bracket_search_upload)
     = Raise ReError
  /\ run Iso.parse_dates Plain.str_contains bracket_search_upload
     = Raise ReError.
Proof.
  assert (P : prepare Iso.parse_dates narrow_age_upload
              = Ok Sample.four_customers) by (vm_compute; reflexivity).
  assert (P' : prepare Iso.parse_dates bracket_search_upload
               = Ok Sample.four_customers) by (vm_compute; reflexivity).
  assert (B : between Sample.four_customers "age" (26, 29)
              = Ok (getmask Sample.four_customers
                            [false; false; false; false])) by reflexivity.
  assert (V : value bracket_search_upload <> "") by discriminate.
  destruct (empty_age_selection_ends_run Iso.parse_dates Plain.str_contains
              narrow_age_upload Sample.four_customers P) as [_ H2].
  destruct (empty_age_selection_ends_run Iso.parse_dates Plain.str_contains
              bracket_search_upload Sample.four_customers P') as [H1 _].
  split; [exact P|]. split; [reflexivity|]. split; [reflexivity|].
  split; [exact I|]. split; [exact I|]. split; [reflexivity|].
  split; [reflexivity|]. split; [reflexivity|]. split; [exact B|].
  split.
  - exact (H2 (head Sample.four_customers) (26, 29) _
              (SInt [25; 30; 35; 40])
              (SFloat [Fin 20000; Fin 40000; Fin 60000; Fin 80000])
              25 40 eq_refl eq_refl eq_refl I eq_refl I eq_refl eq_refl
              eq_refl B eq_refl).
  - split; [exact P'|]. split; [exact V|]. split; [reflexivity|].
    exact (H1 (SInt [25; 30; 35; 40]) ReError V eq_refl eq_refl).
Defined.

(** Four customers with incomes 20000 to 80000 and the income slider at
    (45000, 55000), between two incomes. *)
Lemma empty_income_selection_example :
  numeric (SFloat [Fin 20000; Fin 40000; Fin 60000; Fin 80000])
  /\ numeric (SInt [150; 6; 0; 42])
  /\ between Sample.four_customers "Income"
       (slider (20000, 60000) (Some (45000, 55000)))
     = Ok (getmask Sample.four_customers [false; false; false; false])
  /\ fst (tab3 Iso.parse_dates (Some (45000, 55000)) "MntWines"
            (mkEnv Sample.four_customers None))
     = Raise ValueError.
Proof.
  assert (B : between Sample.four_customers "Income"
                (slider (20000, 60000) (Some (45000, 55000)))
              = Ok (getmask Sample.four_customers
                            [false; false; false; false]))
    by (vm_compute; reflexivity).
  split; [exact I|]. split; [exact I|]. split; [exact B|].
  exact (empty_income_selection_raises Iso.parse_dates
           Sample.four_customers None (Some (45000, 55000)) "MntWines"
           (SFloat [Fin 20000; Fin 40000; Fin 60000; Fin 80000]) _
           (SInt [100; 1; 0; 7]) (SInt [150; 6; 0; 42])
           eq_refl I B eq_refl eq_refl eq_refl I).
Defined.

End Failures.

(* ================================================================= *)
(** ** Ranked lists and the largest mean *)

Module Ranking.

Import Pd App Schema Views PdFacts Tabs.

Lemma insert_desc_perm {A} (geb : A -> A -> bool) x l :
  Permutation (x :: l) (insert_desc geb x l).
Proof.
  induction l as [|y l IH]; simpl; [reflexivity|].
  destruct (geb (snd x) (snd y)); [reflexivity|].
  rewrite perm_swap. now constructor.
Qed.

Lemma sort_desc_perm {A} (geb : A -> A -> bool) l :
  Permutation l (sort_desc geb l).
Proof.
  induction l as [|x l IH]; simpl; [constructor|].
  rewrite <- insert_desc_perm. now constructor.
Qed.

Lemma insert_desc_descending x l :
  descending l -> descending (insert_desc Z.geb x l).
Proof.
  unfold descending. induction 1 as [|y l Hs IH Hall]; simpl.
  - repeat constructor.
  - destruct (Z.geb_spec (snd x) (snd y)) as [G|G].
    + constructor; [now constructor|].
      constructor; [lia|].
      rewrite Forall_forall in Hall |- *. intros z Hz.
      specialize (Hall z Hz). lia.
    + constructor; [exact IH|].
      rewrite Forall_forall in Hall |- *. intros z Hz.
      apply (Permutation_in _ (Permutation_sym (insert_desc_perm Z.geb x l)))
        in Hz.
      destruct Hz as [<-|Hz]; [lia|auto].
Qed.

(** Sorting labelled ints puts the largest first and loses no entry. *)
Lemma sort_desc_ranked kv :
  descending (sort_desc Z.geb kv) /\ Permutation kv (sort_desc Z.geb kv).
Proof.
  split; [|apply sort_desc_perm].
  induction kv as [|x kv IH]; simpl; [constructor|].
  now apply insert_desc_descending.
Qed.

Lemma ranked_answer d names cols :
  names <> [] -> int_cols d names cols ->
  bind (getitems d names) sum_axis0
  = Ok (LInt (label_with isum names cols)).
Proof.
  intros Hne H. rewrite (getitems_int d names cols H). cbn [bind].
  apply sum_axis0_int_frame; [exact Hne|]. eapply int_cols_length; eauto.
Qed.

Section WithParser.

Variable parse_dates : list string -> option Timestamps.

(** X10.  On int product, channel and campaign columns, the three
    answers that list totals (spend per product type, purchases per
    channel, responses per campaign) show one total per column, each
    column once, from the largest total to the smallest. *)
Theorem totals_are_listed_largest_first today d o spends chans flags :
  int_cols d product_cols spends ->
  int_cols d purchase_channels chans ->
  int_cols d cmp_cols flags ->
  (exists kv,
      fst (answer parse_dates today SpendPerProduct (mkEnv d o))
      = Ok (Written (LInt kv))
      /\ descending kv
      /\ Permutation (label_with isum product_cols spends) kv)
  /\ (exists kv,
        fst (answer parse_dates today PurchasesPerChannel (mkEnv d o))
        = Ok (Written (LInt kv))
        /\ descending kv
        /\ Permutation (label_with isum purchase_channels chans) kv)
  /\ (exists kv,
        fst (answer parse_dates today ResponsesPerCampaign (mkEnv d o))
        = Ok (Written (LInt kv))
        /\ descending kv
        /\ Permutation (label_with isum cmp_cols flags) kv).
Proof.
  intros Hp Hc Hf.
  pose proof (ranked_answer d product_cols spends ltac:(discriminate) Hp) as A.
  pose proof (ranked_answer d purchase_channels chans ltac:(discriminate) Hc)
    as B.
  pose proof (ranked_answer d cmp_cols flags ltac:(discriminate) Hf) as C.
  unfold answer, bindM, get_df, lift, ret. cbn [df].
  split; [|split].
  - destruct (getitems d product_cols) as [p|x]; [|discriminate A].
    cbn [bind] in A. rewrite A. cbn [fst sort_values_desc].
    eexists. split; [reflexivity|]. apply sort_desc_ranked.
  - destruct (getitems d purchase_channels) as [p|x]; [|discriminate B].
    cbn [bind] in B. rewrite B. cbn [fst sort_values_desc].
    eexists. split; [reflexivity|]. apply sort_desc_ranked.
  - destruct (getitems d cmp_cols) as [p|x]; [|discriminate C].
    cbn [bind] in C. rewrite C. cbn [fst sort_values_desc].
    eexists. split; [reflexivity|]. apply sort_desc_ranked.
Qed.

End WithParser.

(** *** The first largest mean *)

Lemma Qle_bool_false a b : Qle_bool a b = false -> (b <= a)%Q.
Proof.
  intros H. apply Qlt_le_weak, Qnot_le_lt. rewrite <- Qle_bool_iff. congruence.
Qed.

(** [first_max] returns the label of an entry no finite entry exceeds. *)
Lemma first_max_spec l : forall best,
  exists q,
    In (first_max best l, Fin q)
       ((fst best, Fin (snd best)) :: l)
    /\ (snd best <= q)%Q
    /\ forall k' q', In (k', Fin q') l -> (q' <= q)%Q.
Proof.
  induction l as [|[k [|q0]] l IH]; intros [kb qb]; cbn [first_max fst snd].
  - exists qb. split; [now left|]. split; [apply Qle_refl|]. intros ? ? [].
  - destruct (IH (kb, qb)) as (q & Hin & Hb & Hall). exists q.
    split; [|split; [exact Hb|]].
    + destruct Hin as [Hin|Hin]; [now left|right; now right].
    + intros k' q' [E|Hin']; [discriminate E|eauto].
  - destruct (Qle_bool q0 qb) eqn:E.
    + destruct (IH (kb, qb)) as (q & Hin & Hb & Hall). exists q.
      split; [|split; [exact Hb|]].
      * destruct Hin as [Hin|Hin]; [now left|right; now right].
      * intros k' q' [E'|Hin']; [|eauto].
        inversion E'; subst. apply Qle_bool_iff in E.
        eapply Qle_trans; eauto.
    + destruct (IH (k, q0)) as (q & Hin & Hb & Hall). exists q.
      cbn [fst snd] in *. split; [now right|]. split.
      * apply Qle_bool_false in E. eapply Qle_trans; eauto.
      * intros k' q' [E'|Hin']; [|eauto]. inversion E'; subst. exact Hb.
Qed.

Lemma qsum_inject xs :
  (qsum (map inject_Z xs) == inject_Z (zsum xs))%Q.
Proof.
  unfold qsum. rewrite Qred_correct.
  induction xs as [|x xs IH]; simpl; [reflexivity|].
  rewrite IH, <- inject_Z_plus. reflexivity.
Qed.

(** The mean of [n > 0] ints, as the model computes it. *)
Lemma qmean_ints xs :
  xs <> [] ->
  exists q,
    qmean (map inject_Z xs) = Fin q
    /\ (q == inject_Z (zsum xs) / inject_Z (Z.of_nat (List.length xs)))%Q.
Proof.
  intros Hne. destruct xs as [|x xs]; [congruence|].
  eexists. split; [reflexivity|].
  rewrite Qred_correct, qsum_inject, length_map. reflexivity.
Qed.

(** Means over the same number of rows compare as the sums do. *)
Lemma mean_le_sum_le a b n :
  (0 < n)%nat ->
  (inject_Z a / inject_Z (Z.of_nat n) <= inject_Z b / inject_Z (Z.of_nat n))%Q ->
  a <= b.
Proof.
  intros Hn H. unfold Qdiv in H.
  assert (P : (0 < / inject_Z (Z.of_nat n))%Q).
  { apply Qinv_lt_0_compat. change 0%Q with (inject_Z 0).
    rewrite <- Zlt_Qlt. lia. }
  apply Qmult_le_r in H; [|exact P]. now rewrite Zle_Qle.
Qed.

Lemma dropna_ints xs : dropna (map float_of_int xs) = map inject_Z xs.
Proof. induction xs as [|x xs IH]; simpl; [reflexivity|now rewrite IH]. Qed.

Lemma float_columns_int_frame names cols :
  List.length cols = List.length names ->
  float_columns (combine names (map SInt cols))
  = Ok (map (map float_of_int) cols).
Proof.
  revert cols. induction names as [|c names IH]; intros [|xs cols] H;
    simpl in *; try discriminate; auto.
  rewrite IH by lia. reflexivity.
Qed.

Lemma label_with_combine {A B} (f : A -> B) names cols :
  label_with f names cols
  = map (fun p => (fst p, f (snd p))) (combine names cols).
Proof.
  revert cols. induction names as [|c names IH]; intros [|xs cols]; simpl;
    auto.
  now rewrite IH.
Qed.

(** The column means of a frame of int columns. *)
Lemma mean_axis0_int_frame n names cols :
  List.length cols = List.length names ->
  mean_axis0 (int_frame n names cols)
  = Ok (LFloat (map (fun p => (fst p, qmean (map inject_Z (snd p))))
                    (combine names cols))).
Proof.
  intros Hl. unfold mean_axis0, int_frame. cbn [columns].
  rewrite float_columns_int_frame, map_fst_combine by assumption.
  cbn [bind]. do 2 f_equal.
  rewrite label_with_combine.
  clear Hl. revert cols. induction names as [|c names IH]; intros [|xs cols];
    simpl; auto.
  rewrite dropna_ints. f_equal. apply IH.
Qed.

(** On columns of one length [n > 0], [idxmax] of the means names a column
    whose sum no other column exceeds. *)
Lemma idxmax_means n names cols :
  (0 < n)%nat -> names <> [] ->
  List.length cols = List.length names ->
  Forall (fun xs => List.length xs = n) cols ->
  exists c xs,
    idxmax (LFloat (map (fun p => (fst p, qmean (map inject_Z (snd p))))
                        (combine names cols)))
    = Ok c
    /\ In (c, xs) (combine names cols)
    /\ forall c' xs', In (c', xs') (combine names cols) -> zsum xs' <= zsum xs.
Proof.
  intros Hn Hne Hl Hsz.
  set (kv := map (fun p => (fst p, qmean (map inject_Z (snd p))))
                 (combine names cols)).
  assert (Hmean : forall xs, List.length xs = n ->
            exists q, qmean (map inject_Z xs) = Fin q
                      /\ (q == inject_Z (zsum xs) / inject_Z (Z.of_nat n))%Q).
  { intros xs Hx. destruct (qmean_ints xs) as (q & A & B).
    - intros ->. simpl in Hx. lia.
    - exists q. split; [exact A|]. now rewrite B, Hx. }
  assert (Hin : forall k q, In (k, Fin q) kv ->
            exists xs, In (k, xs) (combine names cols)
                       /\ (q == inject_Z (zsum xs) / inject_Z (Z.of_nat n))%Q).
  { intros k q H. subst kv. apply in_map_iff in H.
    destruct H as ([k' xs] & E & H). cbn [fst snd] in E.
    rewrite Forall_forall in Hsz.
    destruct (Hmean xs (Hsz xs (in_combine_r _ _ _ _ H))) as (q' & A & B).
    rewrite A in E. inversion E; subst. exists xs. split; [exact H|exact B]. }
  assert (Hout : forall k xs, In (k, xs) (combine names cols) ->
            exists q, In (k, Fin q) kv
                      /\ (q == inject_Z (zsum xs) / inject_Z (Z.of_nat n))%Q).
  { intros k xs H. rewrite Forall_forall in Hsz.
    destruct (Hmean xs (Hsz xs (in_combine_r _ _ _ _ H))) as (q & A & B).
    exists q. split; [|exact B]. subst kv. apply in_map_iff.
    exists (k, xs). cbn [fst snd]. now rewrite A. }
  destruct names as [|c0 names]; [congruence|].
  destruct cols as [|xs0 cols]; [discriminate Hl|].
  destruct (Hmean xs0 (Forall_inv Hsz)) as (q0 & A0 & B0).
  assert (Ekv : kv = (c0, Fin q0)
                     :: map (fun p => (fst p, qmean (map inject_Z (snd p))))
                            (combine names cols))
    by (subst kv; simpl; now rewrite A0).
  destruct (first_max_spec
              (map (fun p => (fst p, qmean (map inject_Z (snd p))))
                   (combine names cols)) (c0, q0))
    as (q & Hbest & Hb & Hall).
  cbn [fst snd] in Hbest, Hb. rewrite <- Ekv in Hbest.
  destruct (Hin _ _ Hbest) as (xs & Hxs & Eq).
  exists (first_max (c0, q0)
            (map (fun p => (fst p, qmean (map inject_Z (snd p))))
                 (combine names cols))), xs.
  split; [rewrite Ekv; reflexivity|]. split; [exact Hxs|].
  intros c' xs' H'. destruct (Hout _ _ H') as (q' & Hq' & Eq').
  assert (Hle : (q' <= q)%Q).
  { rewrite Ekv in Hq'. destruct Hq' as [E|Hq'].
    - inversion E; subst. exact Hb.
    - eauto. }
  rewrite Eq, Eq' in Hle. now apply (mean_le_sum_le _ _ n).
Qed.

Section Largest.

Variable parse_dates : list string -> option Timestamps.

(** X11.  On a table with at least one row and int product and channel
    columns, the top-product and preferred-channel answers name a column
    of their group whose total, hence whose mean, no other column of the
    group exceeds. *)
Theorem top_answers_name_a_largest_column today d o spends chans :
  (0 < nrows d)%nat ->
  int_cols d product_cols spends ->
  int_cols d purchase_channels chans ->
  (exists c xs,
      fst (answer parse_dates today TopProductCategory (mkEnv d o))
      = Ok (Success [VText c])
      /\ In (c, xs) (combine product_cols spends)
      /\ forall c' xs', In (c', xs') (combine product_cols spends) ->
                        zsum xs' <= zsum xs)
  /\ (exists c xs,
        fst (answer parse_dates today PreferredChannel (mkEnv d o))
        = Ok (Success [VText c])
        /\ In (c, xs) (combine purchase_channels chans)
        /\ forall c' xs', In (c', xs') (combine purchase_channels chans) ->
                          zsum xs' <= zsum xs).
Proof.
  intros Hn Hp Hc.
  unfold answer, bindM, get_df, lift, ret. cbn [df].
  split.
  - rewrite (getitems_int d product_cols spends Hp).
    rewrite mean_axis0_int_frame by (eapply int_cols_length; eauto).
    cbn [bind].
    destruct (idxmax_means (nrows d) product_cols spends Hn
                ltac:(discriminate) (int_cols_length _ _ _ Hp)
                (int_cols_sizes _ _ _ Hp)) as (c & xs & A & B & C).
    rewrite A. exists c, xs. split; [reflexivity|]. split; assumption.
  - rewrite (getitems_int d purchase_channels chans Hc).
    rewrite mean_axis0_int_frame by (eapply int_cols_length; eauto).
    cbn [bind].
    destruct (idxmax_means (nrows d) purchase_channels chans Hn
                ltac:(discriminate) (int_cols_length _ _ _ Hc)
                (int_cols_sizes _ _ _ Hc)) as (c & xs & A & B & C).
    rewrite A. exists c, xs. split; [reflexivity|]. split; assumption.
Qed.

End Largest.

Ltac int_cols_here :=
  repeat (constructor; [split; reflexivity|]); constructor.

(** Four customers: wines are the top product, store the preferred
    channel. *)
Lemma top_answers_example :
  (0 < nrows Sample.four_customers)%nat
  /\ int_cols Sample.four_customers product_cols
       [[100; 1; 0; 7]; [10; 1; 0; 7]; [20; 1; 0; 7]; [5; 1; 0; 7];
        [5; 1; 0; 7]; [10; 1; 0; 7]]
  /\ int_cols Sample.four_customers purchase_channels
       [[1; 2; 3; 4]; [0; 0; 1; 1]; [5; 5; 5; 5]]
  /\ fst (answer Iso.parse_dates 0 TopProductCategory
            (mkEnv Sample.four_customers None))
     = Ok (Success [VText "MntWines"])
  /\ fst (answer Iso.parse_dates 0 PreferredChannel
            (mkEnv Sample.four_customers None))
     = Ok (Success [VText "NumStorePurchases"]).
Proof.
  assert (H0 : (0 < nrows Sample.four_customers)%nat) by (simpl; lia).
  assert (H1 : int_cols Sample.four_customers product_cols
                 [[100; 1; 0; 7]; [10; 1; 0; 7]; [20; 1; 0; 7]; [5; 1; 0; 7];
                  [5; 1; 0; 7]; [10; 1; 0; 7]]) by int_cols_here.
  assert (H2 : int_cols Sample.four_customers purchase_channels
                 [[1; 2; 3; 4]; [0; 0; 1; 1]; [5; 5; 5; 5]]) by int_cols_here.
  split; [exact H0|]. split; [exact H1|]. split; [exact H2|].
  destruct (top_answers_name_a_largest_column Iso.parse_dates 0
              Sample.four_customers None _ _ H0 H1 H2)
    as ((c & xs & A & _) & (c' & xs' & B & _)).
  split.
  - rewrite A. vm_compute in A. symmetry. exact A.
  - rewrite B. vm_compute in B. symmetry. exact B.
Defined.

(** Four customers: wines come first with 108, then meat with 28. *)
Lemma totals_listed_example :
  int_cols Sample.four_customers product_cols
    [[100; 1; 0; 7]; [10; 1; 0; 7]; [20; 1; 0; 7]; [5; 1; 0; 7];
     [5; 1; 0; 7]; [10; 1; 0; 7]]
  /\ int_cols Sample.four_customers purchase_channels
       [[1; 2; 3; 4]; [0; 0; 1; 1]; [5; 5; 5; 5]]
  /\ int_cols Sample.four_customers cmp_cols
       [[1; 0; 0; 0]; [0; 0; 0; 0]; [1; 0; 0; 1]; [0; 0; 0; 0]; [0; 0; 0; 1]]
  /\ exists kv,
       fst (answer Iso.parse_dates 0 SpendPerProduct
              (mkEnv Sample.four_customers None))
       = Ok (Written (LInt kv))
       /\ descending kv.
Proof.
  assert (H1 : int_cols Sample.four_customers product_cols
                 [[100; 1; 0; 7]; [10; 1; 0; 7]; [20; 1; 0; 7]; [5; 1; 0; 7];
                  [5; 1; 0; 7]; [10; 1; 0; 7]]) by int_cols_here.
  assert (H2 : int_cols Sample.four_customers purchase_channels
                 [[1; 2; 3; 4]; [0; 0; 1; 1]; [5; 5; 5; 5]]) by int_cols_here.
  assert (H3 : int_cols Sample.four_customers cmp_cols
                 [[1; 0; 0; 0]; [0; 0; 0; 0]; [1; 0; 0; 1]; [0; 0; 0; 0];
                  [0; 0; 0; 1]]) by int_cols_here.
  split; [exact H1|]. split; [exact H2|]. split; [exact H3|].
  destruct (totals_are_listed_largest_first Iso.parse_dates 0
              Sample.four_customers None _ _ _ H1 H2 H3)
    as ((kv & A & B & _) & _ & _).
  exists kv. split; [exact A|exact B].
Defined.

End Ranking.

(* ================================================================= *)
(** ** Totals that add up *)

Module Totals.

Import Pd App Schema Views PdFacts SortFacts Filter Tabs.

(** *** Sums modulo 2^64 *)

Lemma wrap64_add_r a b : wrap64 (a + wrap64 b) = wrap64 (a + b).
Proof.
  unfold wrap64. f_equal.
  replace (a + ((b + 9223372036854775808) mod 18446744073709551616
                - 9223372036854775808) + 9223372036854775808)
    with (a + (b + 9223372036854775808) mod 18446744073709551616) by ring.
  rewrite Z.add_mod_idemp_r by discriminate. f_equal. ring.
Qed.

Lemma wrap64_add_l a b : wrap64 (wrap64 a + b) = wrap64 (a + b).
Proof. rewrite Z.add_comm, wrap64_add_r. f_equal. ring. Qed.

(** Wrapping the cells before summing them changes nothing. *)
Lemma isum_wrapped xs : isum (map wrap64 xs) = isum xs.
Proof.
  unfold isum. induction xs as [|x xs IH]; [reflexivity|].
  cbn [map zsum fold_right]. fold (zsum (map wrap64 xs)). fold (zsum xs).
  rewrite wrap64_add_l, <- wrap64_add_r, IH, wrap64_add_r. reflexivity.
Qed.

Lemma isum_map_isum (cols : list (list Z)) :
  isum (map isum cols) = wrap64 (zsum (map zsum cols)).
Proof.
  unfold isum at 2.
  rewrite <- (map_map zsum wrap64). now rewrite isum_wrapped.
Qed.

(** *** Rows and columns *)

Lemma zsum_zip_add xs ys :
  List.length xs = List.length ys ->
  zsum (zip_with Z.add xs ys) = zsum xs + zsum ys.
Proof.
  revert ys. induction xs as [|x xs IH]; intros [|y ys] H; simpl in *;
    try discriminate; [reflexivity|].
  fold (zsum (zip_with Z.add xs ys)). fold (zsum xs). fold (zsum ys).
  rewrite IH by lia. ring.
Qed.

Lemma zsum_repeat0 n : zsum (repeat 0 n) = 0.
Proof. induction n as [|n IH]; simpl; auto. Qed.

(** Adding the row sums is adding the column sums. *)
Lemma zsum_row_sums n cols :
  Forall (fun c => List.length c = n) cols ->
  zsum (row_sums n cols) = zsum (map zsum cols).
Proof.
  induction 1 as [|c cols Hc Hcols IH]; simpl.
  - apply zsum_repeat0.
  - fold (zsum (map zsum cols)).
    rewrite zsum_zip_add, IH; [reflexivity|].
    now rewrite row_sums_length.
Qed.

Lemma select_map {A B} (f : A -> B) m xs :
  select m (map f xs) = map f (select m xs).
Proof.
  revert xs. induction m as [|b m IH]; intros [|x xs]; simpl; auto.
  destruct b; simpl; now rewrite IH.
Qed.

Lemma select_nil {A} m : select m (@nil A) = [].
Proof. now destruct m. Qed.

Lemma zip_with_nil_r {A B C} (f : A -> B -> C) xs : zip_with f xs [] = [].
Proof. now destruct xs. Qed.

Lemma select_zip_add m xs ys :
  select m (zip_with Z.add xs ys)
  = zip_with Z.add (select m xs) (select m ys).
Proof.
  revert xs ys. induction m as [|b m IH]; intros xs ys; [reflexivity|].
  destruct xs as [|x xs]; [now rewrite !select_nil|].
  destruct ys as [|y ys];
    [cbn [zip_with]; now rewrite !select_nil, zip_with_nil_r|].
  cbn [zip_with select]. destruct b; cbn [zip_with]; now rewrite IH.
Qed.

Lemma select_repeat {A} m (a : A) :
  select m (repeat a (List.length m)) = repeat a (count_true m).
Proof.
  induction m as [|b m IH]; [reflexivity|].
  cbn [List.length repeat select]. rewrite OldNew.count_true_cons.
  destruct b; simpl; now rewrite IH.
Qed.

(** Selecting rows commutes with summing along the rows. *)
Lemma select_row_sums m cols :
  select m (row_sums (List.length m) cols)
  = row_sums (count_true m) (map (select m) cols).
Proof.
  induction cols as [|c cols IH]; simpl.
  - apply select_repeat.
  - now rewrite select_zip_add, IH.
Qed.

Lemma zsum_perm l l' : Permutation l l' -> zsum l = zsum l'.
Proof. unfold zsum. induction 1; simpl; lia. Qed.

(** The total of a ranked list is the total of the list. *)
Lemma lsum_sort_values_desc kv :
  lsum (sort_values_desc (LInt kv)) = lsum (LInt kv).
Proof.
  cbn [sort_values_desc lsum]. unfold isum. do 2 f_equal.
  apply zsum_perm, Permutation_map, Permutation_sym, Ranking.sort_desc_perm.
Qed.

(** On the selected rows, the sum of the row sums is the sum of the
    column sums. *)
Lemma selected_row_sums_total m n cols :
  List.length m = n ->
  Forall (fun c => List.length c = n) cols ->
  isum (select m (irow_sums n cols)) = isum (map isum (map (select m) cols)).
Proof.
  intros Hm Hc. unfold irow_sums. rewrite select_map, isum_wrapped.
  subst n. rewrite select_row_sums, isum_map_isum. unfold isum. f_equal.
  apply zsum_row_sums. rewrite Forall_map.
  eapply Forall_impl; [|exact Hc]. intros c Hl. now apply select_length.
Qed.

(** The frame a range filter returns is the selection by a mask with one
    entry per row. *)
Lemma between_mask_length d c r f :
  wf d -> between d c r = Ok f ->
  exists m, f = getmask d m /\ List.length m = nrows d.
Proof.
  intros Hwf. unfold between, getitem.
  destruct (lookup c (columns d)) as [s|] eqn:L; [|discriminate].
  cbn [bind]. destruct (ge s (fst r)) as [m1|x] eqn:G; [|discriminate].
  cbn [bind]. destruct (le s (snd r)) as [m2|x] eqn:E; [|discriminate].
  cbn [bind]. intros H. inversion H. exists (mask_and m1 m2).
  split; [reflexivity|].
  apply compare_int_length in G, E.
  rewrite mask_and_length by congruence.
  rewrite G. now apply (RangeFilter.wf_lookup_size d c).
Qed.

Ltac next_step H :=
  match type of H with
  | (match ?r with Ok _ => _ | Raise _ => _ end) = _ =>
      let E := fresh "E" in
      destruct r eqn:E; [|discriminate H]
  end.

Section WithParser.

Variable parse_dates : list string -> option Timestamps.

(** X12.  On a well-formed table whose [Total_Spend] column holds the row
    sums of its int product columns, whenever the Spending tab is shown
    the totals of its six product bars add up to its Total Spend card. *)
Theorem product_bars_add_up_to_total_spend
        d o user selected_product spends out e' :
  wf d ->
  int_cols d product_cols spends ->
  lookup "Total_Spend" (columns d)
    = Some (SInt (irow_sums (nrows d) spends)) ->
  tab3 parse_dates user selected_product (mkEnv d o) = (Ok out, e') ->
  exists total avg,
    spend_kpis out = [("Total Spend", VDollars total);
                      ("Avg Spend per Customer", VDollars avg)]
    /\ lsum (spend_totals out) = ScInt total.
Proof.
  intros Hwf Hp Hts H.
  unfold tab3, bindM, get_df, lift, ret in H. cbn [df] in H.
  do 6 next_step H.
  match goal with
  | Hb : between d "Income" _ = Ok ?f |- _ =>
      destruct (between_mask_length d "Income" _ f Hwf Hb) as (m & -> & Hm)
  end.
  match type of H with
  | context [setitem (getmask d m) "Selected_Product_Spend" ?s] =>
      set (f := setitem (getmask d m) "Selected_Product_Spend" s) in H
  end.
  assert (G : getitem f "Total_Spend"
              = Ok (SInt (select m (irow_sums (nrows d) spends)))).
  { subst f. rewrite getitem_setitem_other by discriminate.
    unfold getitem. now rewrite lookup_getmask, Hts. }
  assert (P : getitems f product_cols
              = Ok (int_frame (count_true m) product_cols
                              (map (@select Z m) spends))).
  { subst f. rewrite Features.getitems_setitem_other
      by (repeat constructor; intro; discriminate).
    apply (getitems_int (getmask d m)). now apply int_cols_getmask. }
  assert (Hl : List.length (map (@select Z m) spends)
               = List.length product_cols)
    by (rewrite length_map; eapply int_cols_length; eauto).
  rewrite G, P in H. cbn [bind sum int] in H.
  rewrite sum_axis0_int_frame in H by (discriminate || exact Hl).
  repeat next_step H.
  apply (f_equal fst) in H. cbn [fst] in H. injection H as <-.
  cbn [spend_kpis spend_totals].
  do 2 eexists. split; [reflexivity|].
  change (lsum (sort_values_desc
                  (LInt (label_with isum product_cols
                                    (map (@select Z m) spends))))
          = ScInt (isum (select m (irow_sums (nrows d) spends)))).
  rewrite lsum_sort_values_desc. cbn [lsum].
  rewrite map_snd_label_with by exact Hl.
  f_equal. symmetry. apply selected_row_sums_total; [exact Hm|].
  eapply int_cols_sizes; eauto.
Qed.

End WithParser.

(** Four customers, every income selected. *)
Lemma product_bars_example :
  wf Sample.four_customers
  /\ int_cols Sample.four_customers product_cols
       [[100; 1; 0; 7]; [10; 1; 0; 7]; [20; 1; 0; 7]; [5; 1; 0; 7];
        [5; 1; 0; 7]; [10; 1; 0; 7]]
  /\ exists out e',
       tab3 Iso.parse_dates (Some (20000, 80000)) "MntWines"
            (mkEnv Sample.four_customers None) = (Ok out, e')
       /\ exists total avg,
            spend_kpis out = [("Total Spend", VDollars total);
                              ("Avg Spend per Customer", VDollars avg)]
            /\ lsum (spend_totals out) = ScInt total.
Proof.
  assert (W : wf Sample.four_customers) by (repeat constructor).
  assert (P : int_cols Sample.four_customers product_cols
                [[100; 1; 0; 7]; [10; 1; 0; 7]; [20; 1; 0; 7]; [5; 1; 0; 7];
                 [5; 1; 0; 7]; [10; 1; 0; 7]])
    by (repeat (constructor; [split; reflexivity|]); constructor).
  split; [exact W|]. split; [exact P|].
  destruct (tab3 Iso.parse_dates (Some (20000, 80000)) "MntWines"
                 (mkEnv Sample.four_customers None)) as [[out|x] e'] eqn:E;
    [|vm_compute in E; discriminate E].
  exists out, e'. split; [reflexivity|].
  exact (product_bars_add_up_to_total_spend Iso.parse_dates
           Sample.four_customers None (Some (20000, 80000)) "MntWines" _ out e'
           W P ltac:(vm_compute; reflexivity) E).
Defined.

(** *** Months *)

Lemma period_total_cons r rows g :
  period_total (r :: rows) g
  = (if in_period g r then snd r else 0) + period_total rows g.
Proof.
  unfold period_total. cbn [filter]. now destruct (in_period g r).
Qed.

Lemma in_period_eq g k (v : Z) : in_period g (k, v) = true <-> g = k.
Proof.
  destruct g as [y m], k as [y' m']. unfold in_period. cbn [fst snd].
  rewrite andb_true_iff, !Z.eqb_eq. split.
  - intros [-> ->]. reflexivity.
  - intros E. inversion E. auto.
Qed.

Lemma absent_period k v G :
  ~ In k G ->
  zsum (map (fun g => if in_period g (k, v) then v else 0) G) = 0.
Proof.
  induction G as [|g G IH]; [reflexivity|]. intros Hk. cbn [map zsum fold_right].
  destruct (in_period g (k, v)) eqn:E.
  - apply in_period_eq in E. subst. exfalso. apply Hk. now left.
  - fold (zsum (map (fun g => if in_period g (k, v) then v else 0) G)).
    rewrite IH; [reflexivity|]. intros H. apply Hk. now right.
Qed.

(** A row counts in the total of exactly one period. *)
Lemma one_period k v G :
  NoDup G -> In k G ->
  zsum (map (fun g => if in_period g (k, v) then v else 0) G) = v.
Proof.
  induction 1 as [|g G Hg Hnd IH]; [intros []|].
  intros Hk. cbn [map zsum fold_right].
  fold (zsum (map (fun g => if in_period g (k, v) then v else 0) G)).
  destruct (in_period g (k, v)) eqn:E.
  - apply in_period_eq in E. subst g. rewrite absent_period by assumption. lia.
  - destruct Hk as [->|Hk].
    + assert (T : in_period k (k, v) = true) by now apply in_period_eq.
      congruence.
    + rewrite IH by assumption. lia.
Qed.

Lemma zsum_map_add {A} (a b : A -> Z) G :
  zsum (map (fun g => a g + b g) G) = zsum (map a G) + zsum (map b G).
Proof.
  induction G as [|g G IH]; [reflexivity|]. cbn [map zsum fold_right].
  fold (zsum (map (fun g => a g + b g) G)).
  fold (zsum (map a G)). fold (zsum (map b G)). lia.
Qed.

(** Over periods that cover the rows without repetition, the period
    totals add up to the total of all rows. *)
Lemma period_totals_add_up rows G :
  NoDup G ->
  (forall r, In r rows -> In (fst r) G) ->
  zsum (map (period_total rows) G) = zsum (map snd rows).
Proof.
  intros Hnd. induction rows as [|[k v] rows IH]; intros Hcover.
  - unfold period_total. cbn [filter map zsum fold_right].
    induction G as [|g G IHG]; [reflexivity|].
    cbn [map zsum fold_right]. inversion Hnd; subst.
    fold (zsum (map (fun _ : Z * Z => 0) G)). now rewrite IHG.
  - rewrite (map_ext _ (fun g => (if in_period g (k, v) then v else 0)
                                 + period_total rows g))
      by (intros g; apply period_total_cons).
    rewrite zsum_map_add, one_period, IH; auto.
    + intros r Hr. apply Hcover. now right.
    + apply (Hcover (k, v)). now left.
Qed.

Lemma sorted_periods_nodup G : StronglySorted chrono_lt G -> NoDup G.
Proof.
  induction 1 as [|g G Hs IH Hall]; constructor; [|exact IH].
  intros Hin. rewrite Forall_forall in Hall. specialize (Hall g Hin).
  unfold chrono_lt in Hall. lia.
Qed.

Lemma map_snd_combine {A B} (xs : list A) (ys : list B) :
  List.length xs = List.length ys -> map snd (combine xs ys) = ys.
Proof.
  revert ys. induction xs as [|x xs IH]; intros [|y ys] H; simpl in *;
    try discriminate; [reflexivity|].
  now rewrite IH by lia.
Qed.

(** X13.  On int join years, join months and total spends, one cell per
    row, the totals of the spend-over-time points add up to the total
    spend of the rows: every row is counted in exactly one month. *)
Theorem months_add_up_to_total_spend f ys ms vs :
  lookup "Join_Year" (columns f) = Some (SInt ys) ->
  lookup "Join_Month" (columns f) = Some (SInt ms) ->
  lookup "Total_Spend" (columns f) = Some (SInt vs) ->
  List.length ys = List.length vs ->
  List.length ms = List.length vs ->
  exists t,
    spend_over_time f = Ok t
    /\ bind (getitem t "Total_Spend") sum = Ok (ScInt (isum vs))
    /\ bind (getitem f "Total_Spend") sum = Ok (ScInt (isum vs)).
Proof.
  intros Hy Hm Hv Ly Lm.
  unfold spend_over_time, groupby_sum, getitem. rewrite Hy, Hm, Hv.
  cbn [bind]. eexists. split; [reflexivity|]. split; [|reflexivity].
  cbn [columns lookup].
  change (String.eqb "Join_Year" "Total_Spend") with false.
  change (String.eqb "Join_Month" "Total_Spend") with false.
  change (String.eqb "Total_Spend" "Total_Spend") with true.
  cbn [bind sum]. do 2 f_equal.
  set (keys := combine ys ms).
  set (G := sort_uniq key_compare keys).
  rewrite <- (map_map (fun g => zsum (select (group_mask keys g) vs)) wrap64).
  rewrite isum_wrapped. unfold isum. f_equal.
  rewrite (map_ext _ (period_total (combine keys vs)))
    by (intros g; unfold period_total; now rewrite select_group).
  assert (Lk : List.length keys = List.length vs)
    by (subst keys; rewrite length_combine; lia).
  rewrite period_totals_add_up.
  - now rewrite map_snd_combine.
  - apply sorted_periods_nodup. subst G. apply sort_uniq_sorted;
      eauto using key_compare_eq, key_compare_lt, key_compare_gt,
                  chrono_lt_trans.
  - intros [k v] Hr. cbn [fst]. subst G.
    apply In_sort_uniq; [apply key_compare_eq|].
    eapply in_combine_l; eauto.
Qed.

(** Two customers joining in January 2021 and one in March 2021: the two
    points, 300 and 50, add up to the total of 350. *)
Lemma months_add_up_example :
  lookup "Join_Year" (columns Sample.three_joins)
    = Some (SInt [2021; 2021; 2021])
  /\ lookup "Join_Month" (columns Sample.three_joins) = Some (SInt [3; 1; 1])
  /\ lookup "Total_Spend" (columns Sample.three_joins)
     = Some (SInt [50; 100; 200])
  /\ exists t,
       spend_over_time Sample.three_joins = Ok t
       /\ bind (getitem t "Total_Spend") sum = Ok (ScInt 350).
Proof.
  repeat (split; [reflexivity|]).
  destruct (months_add_up_to_total_spend Sample.three_joins
              [2021; 2021; 2021] [3; 1; 1] [50; 100; 200]
              eq_refl eq_refl eq_refl eq_refl eq_refl) as (t & A & B & _).
  exists t. split; [exact A|exact B].
Defined.

End Totals.

(* ================================================================= *)
(** ** The cards of the Customer and Campaigns tabs *)

Module Cards.

Import Pd App Schema Views PdFacts Filter Tabs.

(** The mean of a numeric column is the mean of its cells that are
    numbers. *)
Lemma mean_as_float s cells :
  as_float s = Ok cells -> mean s = Ok (qmean (dropna cells)).
Proof.
  destruct s as [xs|xs|xs|xs]; simpl; intros H; inversion H; subst.
  - now rewrite Ranking.dropna_ints.
  - reflexivity.
Qed.

Lemma response_rate_numeric cac :
  numeric cac -> exists rate, response_rate cac = Ok rate.
Proof.
  destruct cac; simpl; try contradiction; intros _; eexists; reflexivity.
Qed.

(** X14.  Once the age filter has bound a frame with numeric income and
    campaign-count columns, the three Customer cards are shown exactly
    when some selected customer has an income on file; otherwise, on an
    empty selection or when every selected income is missing, the tab
    raises [ValueError]. *)
Theorem customer_cards_need_an_income d f income cells cac :
  lookup "Income" (columns f) = Some income ->
  as_float income = Ok cells ->
  lookup "Campaign_Accepted_Count" (columns f) = Some cac ->
  numeric cac ->
  (dropna cells = [] ->
   fst (tab2_kpis (mkEnv d (Some f))) = Raise ValueError)
  /\ (dropna cells <> [] ->
      exists avg rate,
        fst (tab2_kpis (mkEnv d (Some f)))
        = Ok [("Total Customers", VInt (len f));
              ("Average Income", VDollars avg);
              ("Campaign Response Rate", VFloat rate)]).
Proof.
  intros Hi Hc Hcac Ncac.
  unfold tab2_kpis, bindM, get_filtered_df, lift, ret, getitem.
  cbn [filtered_df]. rewrite Hi, (mean_as_float income cells Hc), Hcac.
  cbn [bind]. destruct (response_rate_numeric cac Ncac) as [rate R].
  rewrite R. split.
  - intros ->. reflexivity.
  - intros Hne. destruct (dropna cells) as [|q qs]; [congruence|].
    cbn [qmean int fst]. do 2 eexists. reflexivity.
Qed.

(** Incomes 30000, missing, 70000: the cards are shown; with only the
    customer without income selected they are not. *)
Lemma customer_cards_example :
  let f := setitem income_missing "Campaign_Accepted_Count" (SInt [1; 0; 2]) in
  let g := getmask f [false; true; false] in
  (exists avg rate,
      fst (tab2_kpis (mkEnv f (Some f)))
      = Ok [("Total Customers", VInt 3);
            ("Average Income", VDollars avg);
            ("Campaign Response Rate", VFloat rate)])
  /\ fst (tab2_kpis (mkEnv f (Some g))) = Raise ValueError.
Proof.
  cbv zeta.
  set (f := setitem income_missing "Campaign_Accepted_Count" (SInt [1; 0; 2])).
  split.
  - destruct (customer_cards_need_an_income f f
                (SFloat [Fin 30000; NaN; Fin 70000])
                [Fin 30000; NaN; Fin 70000] (SInt [1; 0; 2])
                eq_refl eq_refl eq_refl I) as [_ H].
    apply H. discriminate.
  - destruct (customer_cards_need_an_income f
                (getmask f [false; true; false])
                (SFloat [NaN]) [NaN] (SInt [0])
                eq_refl eq_refl eq_refl I) as [H _].
    apply H. reflexivity.
Defined.

(** With int campaign and channel columns the Campaigns tab runs to the
    end; its cards, its two chart series and the frame it leaves bound. *)
Lemma tab4_runs d f flags fflags fch cac :
  int_cols d cmp_cols flags ->
  int_cols f cmp_cols fflags ->
  int_cols f purchase_channels fch ->
  lookup "Campaign_Accepted_Count" (columns f) = Some (SInt cac) ->
  tab4 (mkEnv d (Some f))
  = (Ok (mkCampaigns
           [("Accepted Campaigns", VInt (isum (map isum fflags)));
            ("Responded Customers",
             VInt (Z.of_nat (count_true (map (fun x => Z.gtb x 0) cac))))]
           (LInt (label_with isum cmp_cols flags))
           (sort_values_desc (LInt (label_with isum purchase_channels fch)))),
     mkEnv d (Some (setitem
                      (setitem f "Total_Channel_Purchases"
                               (SInt (irow_sums (nrows f) fch)))
                      "Responded"
                      (SObj (map (fun x => yes_no (Z.gtb x 0)) cac))))).
Proof.
  intros Hflags Fflags Fchans Hcac.
  assert (Gc0 : getitem f "Campaign_Accepted_Count" = Ok (SInt cac))
    by (unfold getitem; now rewrite Hcac).
  unfold tab4, bindM, get_filtered_df, get_df, lift, set_filtered_df, ret.
  cbn [filtered_df df].
  rewrite (getitems_int f cmp_cols _ Fflags).
  rewrite sum_axis0_int_frame
    by (try discriminate; eapply int_cols_length; eauto).
  cbn [lsum int]. rewrite Gc0. cbn [gt compare_int].
  rewrite (getitems_int d cmp_cols _ Hflags).
  rewrite sum_axis0_int_frame
    by (try discriminate; eapply int_cols_length; eauto).
  rewrite (getitems_int f purchase_channels _ Fchans).
  rewrite sum_axis0_int_frame
    by (try discriminate; eapply int_cols_length; eauto).
  rewrite sum_axis1_int_frame
    by (try discriminate; eapply int_cols_length; eauto).
  rewrite getitem_setitem_other by discriminate.
  rewrite Gc0. cbn [apply_yes_no].
  rewrite map_snd_label_with by (eapply int_cols_length; eauto).
  reflexivity.
Qed.

Lemma yes_count (xs : list Z) :
  count_occ string_dec (map (fun x => yes_no (Z.gtb x 0)) xs) "Yes"
  = count_true (map (fun x => Z.gtb x 0) xs).
Proof.
  induction xs as [|x xs IH]; [reflexivity|].
  cbn [map]. rewrite OldNew.count_true_cons.
  destruct (Z.gtb x 0); cbn [yes_no].
  - rewrite count_occ_cons_eq by reflexivity. now rewrite IH.
  - rewrite count_occ_cons_neq by discriminate. exact IH.
Qed.

(** X15.  The Campaigns tab leaves the loaded table as it is and binds the
    filtered frame with two more columns and the same rows:
    [Total_Channel_Purchases], the row sums of the three channel columns,
    and [Responded], with Yes where the accepted count is positive and No
    elsewhere.  The number of Yes rows is the Responded Customers card. *)
Theorem campaigns_tab_adds_two_columns d f flags fflags fch cac :
  int_cols d cmp_cols flags ->
  int_cols f cmp_cols fflags ->
  int_cols f purchase_channels fch ->
  lookup "Campaign_Accepted_Count" (columns f) = Some (SInt cac) ->
  exists out f' labels,
    tab4 (mkEnv d (Some f)) = (Ok out, mkEnv d (Some f'))
    /\ nrows f' = nrows f
    /\ (forall c, c <> "Total_Channel_Purchases" -> c <> "Responded" ->
                  lookup c (columns f') = lookup c (columns f))
    /\ lookup "Total_Channel_Purchases" (columns f')
       = Some (SInt (irow_sums (nrows f) fch))
    /\ lookup "Responded" (columns f') = Some (SObj labels)
    /\ labels = map (fun x => if Z.gtb x 0 then "Yes" else "No") cac
    /\ In ("Responded Customers",
           VInt (Z.of_nat (count_occ string_dec labels "Yes")))
          (campaign_kpis out).
Proof.
  intros Hflags Fflags Fchans Hcac.
  eexists _, _, _. split; [apply (tab4_runs d f flags fflags fch cac);
                           assumption|].
  split; [reflexivity|]. split; [|split; [|split; [|split]]].
  - intros c H1 H2. unfold setitem. cbn [columns].
    now rewrite !lookup_assign_other by congruence.
  - unfold setitem. cbn [columns].
    rewrite lookup_assign_other by discriminate.
    apply lookup_assign_same.
  - unfold setitem. cbn [columns]. apply lookup_assign_same.
  - reflexivity.
  - cbn [campaign_kpis]. right. left.
    change (map (fun x => yes_no (Z.gtb x 0)) cac)
      with (map (fun x : Z => if Z.gtb x 0 then "Yes" else "No") cac).
    do 3 f_equal. symmetry.
    exact (yes_count cac).
Qed.

(** Four customers with accepted counts 2, 0, 0, 2: two rows read Yes. *)
Lemma campaigns_tab_example :
  exists out f',
    tab4 (mkEnv Sample.four_customers (Some Sample.four_customers))
    = (Ok out, mkEnv Sample.four_customers (Some f'))
    /\ lookup "Total_Channel_Purchases" (columns f')
       = Some (SInt [6; 7; 9; 10])
    /\ lookup "Responded" (columns f')
       = Some (SObj ["Yes"; "No"; "No"; "Yes"])
    /\ In ("Responded Customers", VInt 2) (campaign_kpis out).
Proof.
  destruct (campaigns_tab_adds_two_columns
              Sample.four_customers Sample.four_customers
              [[1; 0; 0; 0]; [0; 0; 0; 0]; [1; 0; 0; 1]; [0; 0; 0; 0];
               [0; 0; 0; 1]]
              [[1; 0; 0; 0]; [0; 0; 0; 0]; [1; 0; 0; 1]; [0; 0; 0; 0];
               [0; 0; 0; 1]]
              [[1; 2; 3; 4]; [0; 0; 1; 1]; [5; 5; 5; 5]]
              [2; 0; 0; 2])
    as (out & f' & labels & Hrun & _ & _ & Ht & Hr & Hl & Hk).
  - repeat constructor.
  - repeat constructor.
  - repeat constructor.
  - reflexivity.
  - exists out, f'. split; [exact Hrun|]. split; [exact Ht|].
    subst labels. split; [exact Hr|]. exact Hk.
Defined.

Lemma zip_with_Forall {A B C} (f : A -> B -> C)
  (P : A -> Prop) (Q : B -> Prop) (R : C -> Prop) xs ys :
  (forall x y, P x -> Q y -> R (f x y)) ->
  Forall P xs -> Forall Q ys -> Forall R (zip_with f xs ys).
Proof.
  intros H Hx. revert ys.
  induction Hx as [|x xs Px _ IH]; intros ys Hy; [constructor|].
  destruct Hy as [|y ys Qy Hy]; [constructor|].
  cbn [zip_with]. constructor; auto.
Qed.

(** A row sum of flag columns lies between zero and the number of
    columns. *)
Lemma flag_row_sums_bounds n cols :
  flag_cols cols ->
  Forall (fun x => 0 <= x <= Z.of_nat (List.length cols)) (row_sums n cols).
Proof.
  induction 1 as [|c cols Hc _ IH].
  - cbn [row_sums List.length]. induction n; cbn [repeat]; constructor; auto.
    simpl; lia.
  - cbn [row_sums]. eapply zip_with_Forall; [|exact Hc|exact IH].
    cbn beta. intros x y Hx Hy. rewrite length_cons, Nat2Z.inj_succ. lia.
Qed.

Lemma positives_at_most_sum k xs :
  Forall (fun x => 0 <= x <= k) xs ->
  Z.of_nat (count_true (map (fun x => Z.gtb x 0) xs)) <= zsum xs
  /\ zsum xs <= k * Z.of_nat (List.length xs).
Proof.
  induction 1 as [|x xs Hx _ IH].
  - cbn. lia.
  - cbn [map]. rewrite OldNew.count_true_cons, length_cons.
    change (zsum (x :: xs)) with (x + zsum xs).
    rewrite Nat2Z.inj_add, Nat2Z.inj_succ.
    destruct (Z.gtb_spec x 0); cbn [Z.of_nat Nat.add]; nia.
Qed.

Lemma map_wrap64_small xs : Forall int64 xs -> map wrap64 xs = xs.
Proof.
  induction 1 as [|x xs Hx _ IH]; [reflexivity|].
  cbn [map]. now rewrite wrap64_small, IH.
Qed.

(** X16.  When the campaign columns of the filtered frame hold only 0 and
    1 and its accepted count is their row sum (and the frame has fewer
    than 2^60 rows), the two cards of the Campaigns tab are consistent:
    Responded Customers is at most the number of rows and at most Accepted
    Campaigns, which is at most five per row. *)
Theorem responded_at_most_accepted d f flags fflags fch :
  int_cols d cmp_cols flags ->
  int_cols f cmp_cols fflags ->
  int_cols f purchase_channels fch ->
  flag_cols fflags ->
  lookup "Campaign_Accepted_Count" (columns f)
  = Some (SInt (irow_sums (nrows f) fflags)) ->
  len f < 2 ^ 60 ->
  exists out e' accepted responded,
    tab4 (mkEnv d (Some f)) = (Ok out, e')
    /\ campaign_kpis out
       = [("Accepted Campaigns", VInt accepted);
          ("Responded Customers", VInt responded)]
    /\ 0 <= responded <= len f
    /\ responded <= accepted <= 5 * len f.
Proof.
  intros Hflags Fflags Fchans Hflag Hcac Hrows.
  pose proof (int_cols_length _ _ _ Fflags) as Hl.
  pose proof (int_cols_sizes _ _ _ Fflags) as Hs.
  change (List.length cmp_cols) with 5%nat in Hl.
  pose proof (flag_row_sums_bounds (nrows f) fflags Hflag) as Hb.
  rewrite Hl in Hb. change (Z.of_nat 5) with 5 in Hb.
  pose proof (row_sums_length (nrows f) fflags Hs) as Hn.
  destruct (positives_at_most_sum 5 _ Hb) as [P1 P2].
  rewrite Hn in P2. fold (len f) in P2.
  assert (Hw : irow_sums (nrows f) fflags = row_sums (nrows f) fflags).
  { unfold irow_sums. apply map_wrap64_small.
    eapply Forall_impl; [|exact Hb]. cbn beta. unfold int64. lia. }
  rewrite Hw in Hcac.
  eexists _, _, _, _.
  split; [apply (tab4_runs d f flags fflags fch
                    (row_sums (nrows f) fflags));
          assumption|].
  cbn [campaign_kpis]. split; [reflexivity|].
  rewrite Totals.isum_map_isum, <- (Totals.zsum_row_sums (nrows f)) by exact Hs.
  assert (Hc : (count_true (map (fun x => Z.gtb x 0)
                                (row_sums (nrows f) fflags))
                <= nrows f)%nat).
  { etransitivity; [apply RangeFilter.count_true_le|].
    now rewrite length_map, Hn. }
  assert (H0 : 0 <= zsum (row_sums (nrows f) fflags)) by lia.
  change (2 ^ 60) with 1152921504606846976 in Hrows.
  rewrite wrap64_small by (unfold int64; lia).
  unfold len in *. lia.
Qed.

(** Four customers, flags 0/1 and accepted counts 2, 0, 0, 2: two
    responded, four campaigns accepted. *)
Lemma responded_at_most_accepted_example :
  exists out e',
    tab4 (mkEnv Sample.four_customers (Some Sample.four_customers))
    = (Ok out, e')
    /\ campaign_kpis out
       = [("Accepted Campaigns", VInt 4); ("Responded Customers", VInt 2)]
    /\ 0 <= 2 <= len Sample.four_customers
    /\ 2 <= 4 <= 5 * len Sample.four_customers.
Proof.
  destruct (responded_at_most_accepted
              Sample.four_customers Sample.four_customers
              [[1; 0; 0; 0]; [0; 0; 0; 0]; [1; 0; 0; 1]; [0; 0; 0; 0];
               [0; 0; 0; 1]]
              [[1; 0; 0; 0]; [0; 0; 0; 0]; [1; 0; 0; 1]; [0; 0; 0; 0];
               [0; 0; 0; 1]]
              [[1; 2; 3; 4]; [0; 0; 1; 1]; [5; 5; 5; 5]])
    as (out & e' & accepted & responded & Hrun & Hk & _ & _).
  - repeat constructor.
  - repeat constructor.
  - repeat constructor.
  - unfold flag_cols.
    repeat (apply Forall_cons || apply Forall_nil);
      ((left; reflexivity) || (right; reflexivity)).
  - reflexivity.
  - reflexivity.
  - exists out, e'. split; [exact Hrun|].
    rewrite (tab4_runs Sample.four_customers Sample.four_customers
               [[1; 0; 0; 0]; [0; 0; 0; 0]; [1; 0; 0; 1]; [0; 0; 0; 0];
                [0; 0; 0; 1]]
               [[1; 0; 0; 0]; [0; 0; 0; 0]; [1; 0; 0; 1]; [0; 0; 0; 0];
                [0; 0; 0; 1]]
               [[1; 2; 3; 4]; [0; 0; 1; 1]; [5; 5; 5; 5]] [2; 0; 0; 2])
      in Hrun; [| repeat constructor | repeat constructor
                | repeat constructor | reflexivity].
    injection Hrun as <- _.
    split; [reflexivity|]. split; vm_compute; split; discriminate.
Defined.

End Cards.

(* ================================================================= *)
(** ** The response rate *)

Module Rate.

Import Py Pd App Schema.

Lemma round_half_even_bounds q N :
  (0 <= q)%Q -> (q <= inject_Z N)%Q -> 0 <= round_half_even q <= N.
Proof.
  intros H0 HN. unfold round_half_even.
  pose proof (Qfloor_resp_le _ _ H0) as F0.
  pose proof (Qfloor_resp_le _ _ HN) as FN.
  rewrite Qfloor_Z in FN. change (Qfloor 0) with 0 in F0.
  pose proof (Qfloor_le q) as Fq.
  assert (Hup : (0 < q - inject_Z (Qfloor q))%Q -> Qfloor q + 1 <= N).
  { intros Hpos.
    assert (Hlt : (inject_Z (Qfloor q) < inject_Z N)%Q) by lra.
    rewrite <- Zlt_Qlt in Hlt. lia. }
  destruct (Qcompare (q - inject_Z (Qfloor q)) (1 # 2)) eqn:E.
  - apply Qeq_alt in E.
    destruct (Z.even (Qfloor q)); [lia|].
    split; [lia|]. apply Hup. lra.
  - lia.
  - apply Qgt_alt in E. split; [lia|]. apply Hup. lra.
Qed.

Lemma fraction_bounds c n :
  0 <= c <= n -> 0 < n -> (0 <= inject_Z c / inject_Z n <= 1)%Q.
Proof.
  intros Hc Hn.
  assert (Hq : (0 < inject_Z n)%Q) by (rewrite (Zlt_Qlt 0 n) in Hn; exact Hn).
  split.
  - apply Qle_shift_div_l; [exact Hq|]. rewrite Qmult_0_l.
    rewrite (Zle_Qle 0 c) in Hc. tauto.
  - apply Qle_shift_div_r; [exact Hq|]. rewrite Qmult_1_l.
    rewrite <- Zle_Qle. lia.
Qed.

Lemma mask_rate_bounds (m : Mask) :
  m <> [] ->
  exists q, round2 (fmul_int (mask_mean m) 100) = Fin q
            /\ (0 <= q <= 100)%Q.
Proof.
  intros Hne. destruct m as [|b m]; [congruence|].
  cbn [mask_mean fmul_int round2].
  set (c := Z.of_nat (count_true (b :: m))).
  set (n := Z.of_nat (List.length (b :: m))).
  eexists. split; [reflexivity|].
  assert (Hc : 0 <= c <= n).
  { subst c n. pose proof (RangeFilter.count_true_le (b :: m)). lia. }
  assert (Hn : 0 < n) by (subst n; rewrite length_cons; lia).
  pose proof (fraction_bounds c n Hc Hn) as Hf.
  set (x := Qred (inject_Z c / inject_Z n)).
  assert (Hx : (0 <= x <= 1)%Q) by (subst x; rewrite Qred_correct; exact Hf).
  set (y := Qred (x * inject_Z 100)).
  assert (Hy : (0 <= y * 100 <= inject_Z 10000)%Q).
  { subst y. rewrite Qred_correct.
    change (inject_Z 100) with 100%Q. change (inject_Z 10000) with 10000%Q.
    lra. }
  destruct (round_half_even_bounds (y * 100) 10000 (proj1 Hy) (proj2 Hy))
    as [R0 R1].
  rewrite Qred_correct.
  rewrite (Zle_Qle 0) in R0. rewrite Zle_Qle in R1.
  change (inject_Z 0) with 0%Q in R0.
  change (inject_Z 10000) with 10000%Q in R1.
  set (r := inject_Z (round_half_even (y * 100))) in *.
  unfold Qdiv. change (/ 100)%Q with (1 # 100)%Q. lra.
Qed.

(** X17.  Over a numeric accepted-count column with at least one row the
    response rate of the Customer tab is a number between 0 and 100; it is
    NaN only on an empty selection. *)
Theorem response_rate_is_a_percentage s :
  numeric s -> size s <> 0%nat ->
  exists q, response_rate s = Ok (Fin q) /\ (0 <= q <= 100)%Q.
Proof.
  intros Hnum Hsz. unfold response_rate.
  assert (Hm : forall m : Mask, m <> [] ->
               exists q, Ok (round2 (fmul_int (mask_mean m) 100)) = Ok (Fin q)
                         /\ (0 <= q <= 100)%Q).
  { intros m Hne. destruct (mask_rate_bounds m Hne) as (q & -> & Hq).
    now exists q. }
  destruct s as [xs|xs|xs|xs]; try contradiction;
    unfold gt; cbn [compare_int bind];
    apply Hm; (destruct xs; [now simpl in Hsz|discriminate]).
Qed.

(** Of three customers one accepted a campaign: 33.33. *)
Lemma response_rate_example :
  numeric (SInt [0; 2; 0]) /\ size (SInt [0; 2; 0]) <> 0%nat
  /\ (exists q, response_rate (SInt [0; 2; 0]) = Ok (Fin q)
                /\ (0 <= q <= 100)%Q)
  /\ response_rate (SInt [0; 2; 0]) = Ok (Fin (3333 # 100)).
Proof.
  split; [exact I|]. split; [discriminate|].
  split; [apply response_rate_is_a_percentage; [exact I|discriminate]|].
  vm_compute. reflexivity.
Defined.

End Rate.


(* ================================================================= *)
(** ** The Customer cards and the chatbot *)

Module Agreement.

Import Py Pd App Schema PdFacts Filter.

Section WithParser.

Variable parse_dates : list string -> option Timestamps.

(** Over an int age column with two different ages the slider left
    untouched binds the table itself. *)
Lemma untouched_slider_binds_table d o a ages :
  wf d ->
  lookup "age" (columns d) = Some (SInt (a :: ages)) ->
  fold_right Z.min a ages < fold_right Z.max a ages ->
  tab2_filter None (mkEnv d o) = (Ok tt, mkEnv d (Some d)).
Proof.
  intros Hwf Hage Hlt.
  destruct (cells_within_extremes (SInt (a :: ages))
              (ScInt (fold_right Z.min a ages))
              (ScInt (fold_right Z.max a ages))
              (fold_right Z.min a ages) (fold_right Z.max a ages)
              I I eq_refl eq_refl eq_refl eq_refl)
    as (m1 & m2 & G & L & A1 & A2).
  unfold tab2_filter, bindM, get_df, lift, set_filtered_df, getitem.
  cbn [df]. rewrite Hage. cbn [bind min max extremum int slider].
  rewrite (slider_bounds_own _ _ Hlt).
  rewrite (between_all d "age" (SInt (a :: ages)) _ m1 m2); auto.
Qed.

(** X18.  On a well-formed table with an int age column, when the age
    slider is left untouched and the Customer tab shows its cards, Total
    Customers and Average Income are the values the chatbot gives for
    "total customers" and "average income", and the tab has bound the
    whole table as the filtered frame. *)
Theorem untouched_slider_cards_match_chatbot d o today ages kpis e' :
  wf d ->
  lookup "age" (columns d) = Some (SInt ages) ->
  tab2 None (mkEnv d o) = (Ok kpis, e') ->
  exists total avg rate,
    kpis = [("Total Customers", VInt total);
            ("Average Income", VDollars avg);
            ("Campaign Response Rate", VFloat rate)]
    /\ fst (answer parse_dates today TotalCustomers (mkEnv d o))
       = Ok (Success [VInt total])
    /\ fst (answer parse_dates today AverageIncome (mkEnv d o))
       = Ok (Success [VDollars avg])
    /\ e' = mkEnv d (Some d).
Proof.
  intros Hwf Hage H.
  destruct ages as [|a ages].
  { unfold tab2, tab2_filter, bindM, get_df, lift, getitem in H.
    cbn [df] in H. rewrite Hage in H. discriminate H. }
  destruct (Z.lt_ge_cases (fold_right Z.min a ages)
                          (fold_right Z.max a ages)) as [Hlt|Hge].
  2:{ pose proof (proj1 (fold_min_le a ages)) as L1.
      pose proof (proj1 (fold_max_ge a ages)) as L2.
      assert (E : fold_right Z.max a ages = fold_right Z.min a ages) by lia.
      unfold tab2, tab2_filter, bindM, get_df, lift, getitem in H.
      cbn [df] in H. rewrite Hage in H.
      cbn [bind min max extremum int] in H.
      rewrite E, slider_bounds_equal in H. discriminate H. }
  unfold tab2, bindM in H.
  rewrite (untouched_slider_binds_table d o a ages Hwf Hage Hlt) in H.
  unfold tab2_kpis, bindM, get_filtered_df, lift, ret in H.
  cbn [filtered_df] in H.
  destruct (getitem d "Income") as [income|x] eqn:Gi; [|discriminate H].
  destruct (bind (mean income) (fun x => int (ScFloat x))) as [avg|x] eqn:Ga;
    [|discriminate H].
  destruct (getitem d "Campaign_Accepted_Count") as [cac|x]; [|discriminate H].
  destruct (response_rate cac) as [rate|x]; [|discriminate H].
  injection H as <- <-.
  exists (len d), avg, rate. split; [reflexivity|].
  unfold answer, bindM, get_df, lift, ret. cbn [df].
  split; [reflexivity|]. rewrite Gi, Ga. split; reflexivity.
Qed.

End WithParser.

(** Four customers aged 25 to 40 with incomes of 20000 to 80000. *)
Lemma untouched_slider_example :
  wf Sample.four_customers
  /\ lookup "age" (columns Sample.four_customers) = Some (SInt [25; 30; 35; 40])
  /\ tab2 None (mkEnv Sample.four_customers None)
     = (Ok [("Total Customers", VInt 4);
            ("Average Income", VDollars 50000);
            ("Campaign Response Rate", VFloat (Fin 50))],
        mkEnv Sample.four_customers (Some Sample.four_customers))
  /\ exists total avg rate,
      [("Total Customers", VInt 4);
       ("Average Income", VDollars 50000);
       ("Campaign Response Rate", VFloat (Fin 50))]
      = [("Total Customers", VInt total);
         ("Average Income", VDollars avg);
         ("Campaign Response Rate", VFloat rate)]
      /\ fst (answer Iso.parse_dates 0 TotalCustomers
                     (mkEnv Sample.four_customers None))
         = Ok (Success [VInt total])
      /\ fst (answer Iso.parse_dates 0 AverageIncome
                     (mkEnv Sample.four_customers None))
         = Ok (Success [VDollars avg])
      /\ mkEnv Sample.four_customers (Some Sample.four_customers)
         = mkEnv Sample.four_customers (Some Sample.four_customers).
Proof.
  assert (Hwf : wf Sample.four_customers) by (repeat constructor).
  assert (Hrun : tab2 None (mkEnv Sample.four_customers None)
                 = (Ok [("Total Customers", VInt 4);
                        ("Average Income", VDollars 50000);
                        ("Campaign Response Rate", VFloat (Fin 50))],
                    mkEnv Sample.four_customers (Some Sample.four_customers)))
    by (vm_compute; reflexivity).
  split; [exact Hwf|]. split; [reflexivity|]. split; [exact Hrun|].
  exact (untouched_slider_cards_match_chatbot Iso.parse_dates
           Sample.four_customers None 0 [25; 30; 35; 40] _ _
           Hwf eq_refl Hrun).
Defined.

End Agreement.

(* ================================================================= *)
(** ** Join year and month *)

Module Calendar.

Import Pd Iso Views.













End Calendar.

